(** * Live engagement telemetry and quiz synchronisation

    A shallow embedding of the student session page
    ([frontend/src/app/student/sessions/[id]/page.tsx]) and of the teacher
    session page, followed by the properties of the telemetry composer, the
    camera recovery, the engagement sockets and the quiz countdown.

    Conventions of the embedding.
    - A JavaScript [number] that holds a time in milliseconds or a counter is
      an integer ([Z]); a [number] that holds a ratio or a value read from a
      JSON payload is a rational ([Q]).  Every finite double is a rational,
      [Math.max] and [Math.min] do not round, and neither [NaN] nor an
      infinity can arise: no divisor is below 1 and JSON carries neither.
    - [null] and [undefined] are [None].
    - A React state variable or a [useRef] cell is a field of the page record.
    - An asynchronous function is run to completion; what the browser or the
      server answers at each [await] is read from an environment record.
    - Calls that leave the page (sockets, camera, timers, HTTP) are logged as
      [Action]s, oldest first. *)

From Stdlib Require Import ZArith QArith Qround Qminmax String Ascii List Lia Lqa Bool.
From Stdlib Require DecimalString DecimalZ.
From stdpp Require Import gmap.
Import ListNotations.

(** ** JavaScript primitives used by the pages *)

Module Js.

(** Truthiness of a string: only the empty string is falsy. *)
Definition truthy (s : string) : bool := negb (String.eqb s EmptyString).

(** [hay.includes(needle)]. *)
Fixpoint includes (hay needle : string) : bool :=
  String.prefix needle hay ||
  match hay with
  | EmptyString => false
  | String _ rest => includes rest needle
  end.

(** [s.toLowerCase()] on the ASCII letters. *)
Definition lowerAscii (c : ascii) : ascii :=
  let n := nat_of_ascii c in
  if (65 <=? n)%nat && (n <=? 90)%nat then ascii_of_nat (n + 32) else c.

Fixpoint toLowerCase (s : string) : string :=
  match s with
  | EmptyString => EmptyString
  | String c rest => String (lowerAscii c) (toLowerCase rest)
  end.

(** [Math.max(a, b)] and [Math.min(a, b)] on finite numbers. *)
Definition max (a b : Q) : Q := Qmax a b.
Definition min (a b : Q) : Q := Qmin a b.

(** [Number(x.toFixed(digits))]: the decimal with [digits] places nearest
    to [x], the larger one on a tie; the sign is handled apart.  The code
    rounds the binary double that stands for [x], so that on a tie of the
    decimals its result can be the neighbour on the grid; bounds on the grid
    and monotonicity are the same for both. *)
Definition scale (digits : nat) : positive :=
  Z.to_pos (10 ^ Z.of_nat digits).

Definition roundHalfUp (x : Q) (digits : nat) : Q :=
  Qmake (Qfloor (x * inject_Z (Zpos (scale digits)) + (1 # 2))) (scale digits).

Definition toFixed (x : Q) (digits : nat) : Q :=
  if Qlt_le_dec x 0 then Qopp (roundHalfUp (Qopp x) digits)
  else roundHalfUp x digits.

(** [a || b] on numbers: [0] is the falsy number. *)
Definition orElse (a b : Z) : Z := if Z.eqb a 0 then b else a.

End Js.

(** [clamp(value, min = 0, max = 1)] of the student page; the teacher page
    has the same function under the name [clampRatio]. *)
Definition clampBetween (value min max : Q) : Q :=
  Js.max min (Js.min max value).

Definition clamp (value : Q) : Q := clampBetween value 0 1.

Definition clampRatio (value : Q) : Q := Js.max 0 (Js.min 1 value).

(** ** Data of the pages *)

Module SessionData.
Record t := mk {
  id : Z;
  session_code : string;
  tracking_enabled : bool;
  status : string
}.
End SessionData.

(** Both pages declare a [SessionQuizItem]; the teacher's has three more
    fields.  The countdown reads only the two time bases, which this
    interface exposes. *)
Class QuizTimed (A : Type) := {
  expires_at : A -> option string;
  remaining_seconds : A -> option Q
}.

Module SessionQuizItem.
Record t := mk {
  id : Z;
  session_id : Z;
  question : string;
  options : list string;
  duration_seconds : option Q;
  expires_at : option string;
  remaining_seconds : option Q;
  is_active : bool;
  total_responses : Z;
  correct_responses : Z
}.
End SessionQuizItem.

Module TeacherQuizItem.
Record t := mk {
  id : Z;
  session_id : Z;
  teacher_id : option Z;
  question : string;
  options : list string;
  correct_option_index : option Z;
  duration_seconds : option Q;
  expires_at : option string;
  remaining_seconds : option Q;
  is_active : bool;
  closed_at : option string;
  total_responses : Z;
  correct_responses : Z
}.
End TeacherQuizItem.

#[export] Instance student_quiz_timed : QuizTimed SessionQuizItem.t := {
  expires_at := SessionQuizItem.expires_at;
  remaining_seconds := SessionQuizItem.remaining_seconds
}.

#[export] Instance teacher_quiz_timed : QuizTimed TeacherQuizItem.t := {
  expires_at := TeacherQuizItem.expires_at;
  remaining_seconds := TeacherQuizItem.remaining_seconds
}.

(** ** The remaining-time query *)

Section RemainingTime.

(** [new Date(s).getTime()]: the time value in milliseconds, [None] when
    the string is not a date ([NaN]). *)
Variable dateParse : string -> option Z.

Context {A : Type} `{QuizTimed A}.

Definition snapshotRemaining (quiz : A) : option Q :=
  match remaining_seconds quiz with
  | Some r => Some (Js.max r 0)
  | None => None
  end.

Definition quizRemainingSeconds (quiz : A) (nowMs : Z) : option Q :=
  match expires_at quiz with
  | Some s =>
      if Js.truthy s then
        match dateParse s with
        | Some expiresAtMs =>
            Some (inject_Z (Z.max ((expiresAtMs - nowMs) / 1000) 0))
        | None => snapshotRemaining quiz
        end
      else snapshotRemaining quiz
  | None => snapshotRemaining quiz
  end.

End RemainingTime.

(** ** Completions of a JavaScript function body

    A statement completes normally, returns from the enclosing function, or
    throws.  A program threads the page state and logs the calls that leave
    the page. *)

(** What a [catch] clause can tell about the thrown value: the message of an
    [Error] instance, or nothing for any other value. *)
Definition JsError : Type := option string.

Inductive Completion (A : Type) : Type :=
| Normal (a : A)
| Return
| Throw (err : JsError).

Arguments Normal {A} a.
Arguments Return {A}.
Arguments Throw {A} err.

Section Prog.

Context {S Act : Type}.

Definition Prog (A : Type) : Type := S -> Completion A * S * list Act.

Definition ret {A} (a : A) : Prog A := fun s => (Normal a, s, []).

Definition bind {A B} (m : Prog A) (k : A -> Prog B) : Prog B :=
  fun s =>
    match m s with
    | (Normal a, s1, l1) =>
        match k a s1 with
        | (r, s2, l2) => (r, s2, l1 ++ l2)
        end
    | (Return, s1, l1) => (Return, s1, l1)
    | (Throw e, s1, l1) => (Throw e, s1, l1)
    end.

(** [return;] *)
Definition returnNow {A} : Prog A := fun s => (Return, s, []).

(** [throw e;] *)
Definition throw {A} (e : JsError) : Prog A := fun s => (Throw e, s, []).

Definition get : Prog S := fun s => (Normal s, s, []).

Definition modify (f : S -> S) : Prog unit := fun s => (Normal tt, f s, []).

Definition emit (a : Act) : Prog unit := fun s => (Normal tt, s, [a]).

(** [try { body } catch (err) { handler }]: only a throw reaches the
    handler, a [return] inside the block leaves the function. *)
Definition tryCatch {A} (body : Prog A) (handler : JsError -> Prog A) : Prog A :=
  fun s =>
    match body s with
    | (Throw e, s1, l1) =>
        match handler e s1 with
        | (r, s2, l2) => (r, s2, l1 ++ l2)
        end
    | other => other
    end.

(** [try { body } finally { fin }]. *)
Definition tryFinally {A} (body : Prog A) (fin : Prog unit) : Prog A :=
  fun s =>
    match body s with
    | (r, s1, l1) =>
        match fin s1 with
        | (Normal _, s2, l2) => (r, s2, l1 ++ l2)
        | (Return, s2, l2) => (Return, s2, l1 ++ l2)
        | (Throw e, s2, l2) => (Throw e, s2, l1 ++ l2)
        end
    end.

(** Calling a function: its [return] ends the call, not the caller. *)
Definition call (body : Prog unit) : Prog unit :=
  fun s =>
    match body s with
    | (Return, s1, l1) => (Normal tt, s1, l1)
    | other => other
    end.

(** [items.forEach(f)]. *)
Fixpoint forEach {X} (f : X -> Prog unit) (items : list X) : Prog unit :=
  match items with
  | [] => ret tt
  | x :: rest => bind (f x) (fun _ => forEach f rest)
  end.

(** The state and the log an event handler leaves behind. *)
Definition stateOf {A} (r : Completion A * S * list Act) : S := snd (fst r).
Definition logOf {A} (r : Completion A * S * list Act) : list Act := snd r.
Definition completionOf {A} (r : Completion A * S * list Act) : Completion A :=
  fst (fst r).

(** The weakest precondition of a postcondition on the completion, the
    final state and the log. *)
Definition wp {A} (m : Prog A) (Q : Completion A -> S -> list Act -> Prop)
    (s : S) : Prop :=
  match m s with
  | (c, s1, l) => Q c s1 l
  end.

End Prog.

Arguments Prog : clear implicits.

Declare Scope prog_scope.
Delimit Scope prog_scope with prog.
Notation "x <- c1 ;; c2" := (bind c1 (fun x => c2))
  (at level 100, c1 at next level, c2 at level 200, right associativity)
  : prog_scope.
Notation "c1 ;; c2" := (bind c1 (fun _ => c2))
  (at level 100, c2 at level 200, right associativity) : prog_scope.

(** ** State of the student session page *)

Module TelemetryState.
Inductive t := IDLE | ACTIVE | ERROR.
End TelemetryState.

Module CameraState.
Inductive t := IDLE | ACTIVE | DENIED | ERROR.
End CameraState.

Module SocketState.
Inductive t := DISCONNECTED | CONNECTING | CONNECTED | ERROR.
End SocketState.

(** [WebSocket.readyState]. *)
Module ReadyState.
Inductive t := CONNECTING | OPEN | CLOSING | CLOSED.

Definition eqb (a b : t) : bool :=
  match a, b with
  | CONNECTING, CONNECTING | OPEN, OPEN | CLOSING, CLOSING | CLOSED, CLOSED => true
  | _, _ => false
  end.
End ReadyState.

(** A socket object: the page holds at most one reference to it, so the
    object is stored in the cell that refers to it.  [hooked] tells whether
    the four handlers of the page are attached. *)
Record WebSocket := mkWebSocket {
  wsId : nat;
  socketUrl : string;
  readyState : ReadyState.t;
  hooked : bool
}.

Module TrackState.
Inductive t := live | ended.
End TrackState.

(** A [MediaStreamTrack]; the only handlers ever assigned are those of
    [startCamera], so a handler slot is a flag. *)
Record MediaStreamTrack := mkTrack {
  trackReadyState : TrackState.t;
  onended : bool;
  onmute : bool;
  onunmute : bool
}.

(** A stream acquired with [audio: false] is its list of video tracks. *)
Record MediaStream := mkStream {
  getVideoTracks : list MediaStreamTrack
}.

Module FeedbackType.
Inductive t := SUCCESS | ERROR | INFO.
End FeedbackType.

Record QuizFeedback := mkFeedback {
  feedbackType : FeedbackType.t;
  feedbackMessage : string
}.

Record StudentQuizStats := mkStats {
  attempted : Z;
  correct : Z;
  accuracy : Q
}.

(** The outbound [vision_sample] envelope. *)
Record TelemetrySignal := mkSignal {
  image_base64 : string;
  participation : Q;
  attendance_consistency : Q;
  interaction_recency_seconds : Q;
  interaction_events : Z;
  movement_intensity : Q
}.

Module TopicDifficulty.
Inductive t := LOW | MEDIUM | HIGH.

Definition eqb (a b : t) : bool :=
  match a, b with
  | LOW, LOW | MEDIUM, MEDIUM | HIGH, HIGH => true
  | _, _ => false
  end.
End TopicDifficulty.

Inductive OutMessage :=
| vision_sample (signal : TelemetrySignal)
| subscribe_insights (topic_difficulty : TopicDifficulty.t) (local_hour : Z).

(** Calls that leave the page. *)
Inductive Action :=
| GetUserMedia
| TrackStop
| SetTimeout (timer : positive) (delayMs : Z)
| ClearTimeout (timer : positive)
| NewWebSocket (url : string)
| SocketClose (socket : nat)
| SocketSend (socket : nat) (message : OutMessage)
| ListActiveSessionQuizzes (sessionId : Z)
| GetMySessionQuizStats (sessionId : Z)
| SubmitSessionQuizAnswer (sessionId quizId optionIndex : Z).

Record Display := mkDisplay {
  telemetryState : TelemetryState.t;
  telemetryMessage : string;
  cameraState : CameraState.t;
  cameraMessage : string;
  socketState : SocketState.t
}.

Record QuizPanel := mkQuizPanel {
  activeQuizzes : list SessionQuizItem.t;
  quizStats : StudentQuizStats;
  answeringQuizId : option Z;
  selectedQuizOptions : gmap Z Z;
  quizFeedback : option QuizFeedback;
  quizClock : Z
}.

Record Activity := mkActivity {
  joinStartedAtRef : option Z;
  lastInteractionRef : Z;
  interactionCountRef : Z;
  hiddenAccumulatedRef : Z;
  hiddenStartedAtRef : option Z;
  focusedRef : bool;
  answeredQuizAtRef : option Z
}.

(** The device and socket cells, with the browser's pending recovery timers
    and the next fresh timer and socket identifiers.  A timer identifier is
    a positive integer, hence truthy. *)
Record Devices := mkDevices {
  cameraStreamRef : option MediaStream;
  cameraRecoveryTimerRef : option positive;
  engagementWsRef : option WebSocket;
  pendingTimers : list positive;
  nextTimer : positive;
  nextSocket : nat
}.

Record Page := mkPage {
  session : option SessionData.t;
  joined : bool;
  showMeeting : bool;
  display : Display;
  quizPanel : QuizPanel;
  activity : Activity;
  devices : Devices
}.

Definition withDisplay (f : Display -> Display) (p : Page) : Page :=
  mkPage (session p) (joined p) (showMeeting p) (f (display p)) (quizPanel p)
         (activity p) (devices p).

Definition withQuizPanel (f : QuizPanel -> QuizPanel) (p : Page) : Page :=
  mkPage (session p) (joined p) (showMeeting p) (display p) (f (quizPanel p))
         (activity p) (devices p).

Definition withActivity (f : Activity -> Activity) (p : Page) : Page :=
  mkPage (session p) (joined p) (showMeeting p) (display p) (quizPanel p)
         (f (activity p)) (devices p).

Definition withDevices (f : Devices -> Devices) (p : Page) : Page :=
  mkPage (session p) (joined p) (showMeeting p) (display p) (quizPanel p)
         (activity p) (f (devices p)).

Definition StudentProg : Type -> Type := Prog Page Action.

Section Setters.

Local Open Scope prog_scope.

Definition setTelemetryState (v : TelemetryState.t) : StudentProg unit :=
  modify (withDisplay (fun d =>
    mkDisplay v (telemetryMessage d) (cameraState d) (cameraMessage d) (socketState d))).

Definition setTelemetryMessage (v : string) : StudentProg unit :=
  modify (withDisplay (fun d =>
    mkDisplay (telemetryState d) v (cameraState d) (cameraMessage d) (socketState d))).

Definition setCameraState (v : CameraState.t) : StudentProg unit :=
  modify (withDisplay (fun d =>
    mkDisplay (telemetryState d) (telemetryMessage d) v (cameraMessage d) (socketState d))).

Definition setCameraMessage (v : string) : StudentProg unit :=
  modify (withDisplay (fun d =>
    mkDisplay (telemetryState d) (telemetryMessage d) (cameraState d) v (socketState d))).

Definition setSocketState (v : SocketState.t) : StudentProg unit :=
  modify (withDisplay (fun d =>
    mkDisplay (telemetryState d) (telemetryMessage d) (cameraState d) (cameraMessage d) v)).

Definition setActiveQuizzes (v : list SessionQuizItem.t) : StudentProg unit :=
  modify (withQuizPanel (fun q =>
    mkQuizPanel v (quizStats q) (answeringQuizId q) (selectedQuizOptions q)
                (quizFeedback q) (quizClock q))).

Definition setQuizStats (v : StudentQuizStats) : StudentProg unit :=
  modify (withQuizPanel (fun q =>
    mkQuizPanel (activeQuizzes q) v (answeringQuizId q) (selectedQuizOptions q)
                (quizFeedback q) (quizClock q))).

Definition setAnsweringQuizId (v : option Z) : StudentProg unit :=
  modify (withQuizPanel (fun q =>
    mkQuizPanel (activeQuizzes q) (quizStats q) v (selectedQuizOptions q)
                (quizFeedback q) (quizClock q))).

(** [setSelectedQuizOptions((prev) => f(prev))]. *)
Definition setSelectedQuizOptions (f : gmap Z Z -> gmap Z Z) : StudentProg unit :=
  modify (withQuizPanel (fun q =>
    mkQuizPanel (activeQuizzes q) (quizStats q) (answeringQuizId q)
                (f (selectedQuizOptions q)) (quizFeedback q) (quizClock q))).

Definition setQuizFeedback (v : option QuizFeedback) : StudentProg unit :=
  modify (withQuizPanel (fun q =>
    mkQuizPanel (activeQuizzes q) (quizStats q) (answeringQuizId q)
                (selectedQuizOptions q) v (quizClock q))).

Definition setQuizClock (v : Z) : StudentProg unit :=
  modify (withQuizPanel (fun q =>
    mkQuizPanel (activeQuizzes q) (quizStats q) (answeringQuizId q)
                (selectedQuizOptions q) (quizFeedback q) v)).

Definition setJoinStartedAt (v : option Z) : StudentProg unit :=
  modify (withActivity (fun a =>
    mkActivity v (lastInteractionRef a) (interactionCountRef a)
               (hiddenAccumulatedRef a) (hiddenStartedAtRef a) (focusedRef a)
               (answeredQuizAtRef a))).

Definition setLastInteraction (v : Z) : StudentProg unit :=
  modify (withActivity (fun a =>
    mkActivity (joinStartedAtRef a) v (interactionCountRef a)
               (hiddenAccumulatedRef a) (hiddenStartedAtRef a) (focusedRef a)
               (answeredQuizAtRef a))).

Definition setInteractionCount (v : Z) : StudentProg unit :=
  modify (withActivity (fun a =>
    mkActivity (joinStartedAtRef a) (lastInteractionRef a) v
               (hiddenAccumulatedRef a) (hiddenStartedAtRef a) (focusedRef a)
               (answeredQuizAtRef a))).

Definition setAnsweredQuizAt (v : option Z) : StudentProg unit :=
  modify (withActivity (fun a =>
    mkActivity (joinStartedAtRef a) (lastInteractionRef a) (interactionCountRef a)
               (hiddenAccumulatedRef a) (hiddenStartedAtRef a) (focusedRef a) v)).

Definition setCameraStream (v : option MediaStream) : StudentProg unit :=
  modify (withDevices (fun d =>
    mkDevices v (cameraRecoveryTimerRef d) (engagementWsRef d) (pendingTimers d)
              (nextTimer d) (nextSocket d))).

Definition setCameraRecoveryTimer (v : option positive) : StudentProg unit :=
  modify (withDevices (fun d =>
    mkDevices (cameraStreamRef d) v (engagementWsRef d) (pendingTimers d)
              (nextTimer d) (nextSocket d))).

Definition setEngagementWs (v : option WebSocket) : StudentProg unit :=
  modify (withDevices (fun d =>
    mkDevices (cameraStreamRef d) (cameraRecoveryTimerRef d) v (pendingTimers d)
              (nextTimer d) (nextSocket d))).

End Setters.

(** ** DeviceStream manager: [stopCamera], [startCamera] and the track
    handlers *)

(** What [navigator.mediaDevices.getUserMedia] answers. *)
Inductive MediaAnswer :=
| MediaUnavailable
| MediaResolve (stream : MediaStream)
| MediaReject (err : JsError).

Section Camera.

Local Open Scope prog_scope.
Local Open Scope string_scope.

(** [setTimeout(callback, delayMs)] for the recovery callback. *)
Definition setTimeout (delayMs : Z) : StudentProg positive :=
  p <- get ;;
  let timer := nextTimer (devices p) in
  modify (withDevices (fun d =>
    mkDevices (cameraStreamRef d) (cameraRecoveryTimerRef d) (engagementWsRef d)
              (pendingTimers d ++ [timer]) (Pos.succ timer) (nextSocket d))) ;;
  emit (SetTimeout timer delayMs) ;;
  ret timer.

Definition clearTimeout (timer : positive) : StudentProg unit :=
  modify (withDevices (fun d =>
    mkDevices (cameraStreamRef d) (cameraRecoveryTimerRef d) (engagementWsRef d)
              (List.filter (fun t => negb (Pos.eqb t timer)) (pendingTimers d))
              (nextTimer d) (nextSocket d))) ;;
  emit (ClearTimeout timer).

Definition stopCamera : StudentProg unit :=
  call (
    p <- get ;;
    match cameraRecoveryTimerRef (devices p) with
    | Some timer => clearTimeout timer ;; setCameraRecoveryTimer None
    | None => ret tt
    end ;;
    p <- get ;;
    match cameraStreamRef (devices p) with
    | Some stream =>
        forEach (fun _ : MediaStreamTrack => emit TrackStop) (getVideoTracks stream) ;;
        setCameraStream None
    | None => ret tt
    end).

Definition trackIsLive (track : MediaStreamTrack) : bool :=
  match trackReadyState track with
  | TrackState.live => true
  | TrackState.ended => false
  end.

(** [const [videoTrack] = stream.getVideoTracks()] and the three handler
    assignments. *)
Definition installHandlers (stream : MediaStream) : MediaStream :=
  match getVideoTracks stream with
  | [] => stream
  | videoTrack :: others =>
      mkStream (mkTrack (trackReadyState videoTrack) true true true :: others)
  end.

Definition getUserMedia (media : MediaAnswer) : StudentProg MediaStream :=
  emit GetUserMedia ;;
  match media with
  | MediaResolve stream => ret stream
  | MediaReject err => throw err
  | MediaUnavailable => throw None
  end.

Definition startCamera (media : MediaAnswer) : StudentProg unit :=
  call (
    p <- get ;;
    match cameraStreamRef (devices p) with
    | Some existingStream =>
        if existsb trackIsLive (getVideoTracks existingStream)
        then setCameraState CameraState.ACTIVE ;; returnNow
        else stopCamera
    | None => ret tt
    end ;;
    match media with
    | MediaUnavailable =>
        setCameraState CameraState.ERROR ;;
        setCameraMessage "Camera API unavailable. Real-only signal mode is blocked." ;;
        returnNow
    | _ => ret tt
    end ;;
    tryCatch
      (stream <- getUserMedia media ;;
       setCameraStream (Some (installHandlers stream)) ;;
       setCameraState CameraState.ACTIVE ;;
       setCameraMessage "Live camera attention sampling enabled")
      (fun err =>
         let message :=
           match err with
           | Some m => m
           | None => "Camera permission denied"
           end in
         let lowered := Js.toLowerCase message in
         (if Js.includes lowered "permission" || Js.includes lowered "denied"
             || Js.includes lowered "notallowed"
          then
            setCameraState CameraState.DENIED ;;
            setCameraMessage "Camera permission denied. Real-only signal mode is blocked."
          else
            setCameraState CameraState.ERROR ;;
            setCameraMessage "Unable to start camera. Real-only signal mode is blocked.") ;;
         stopCamera)).

(** [videoTrack.onended]. *)
Definition videoTrackOnended : StudentProg unit :=
  call (
    p <- get ;;
    match cameraRecoveryTimerRef (devices p) with
    | Some _ => returnNow
    | None => ret tt
    end ;;
    setCameraState CameraState.ERROR ;;
    setCameraMessage "Camera interrupted (stream-ended). Recovering..." ;;
    timer <- setTimeout 1200 ;;
    setCameraRecoveryTimer (Some timer)).

(** The callback given to [setTimeout] by [videoTrack.onended]. *)
Definition recoveryCallback (media : MediaAnswer) : StudentProg unit :=
  call (
    setCameraRecoveryTimer None ;;
    stopCamera ;;
    startCamera media).

(** [videoTrack.onmute] and [videoTrack.onunmute]. *)
Definition videoTrackOnmute : StudentProg unit :=
  setCameraMessage "Camera temporarily muted...".

Definition videoTrackOnunmute : StudentProg unit :=
  setCameraState CameraState.ACTIVE ;;
  setCameraMessage "Live camera attention sampling enabled".

(** *** The browser's side of the camera

    An ["ended"] event reaches the handler of the first video track of the
    stream the page holds, when that handler is attached; a timer runs its
    callback once, when it is still pending. *)
Inductive CameraEvent :=
| TrackEnded
| TimerFires (timer : positive) (media : MediaAnswer).

Definition endedHandlerAttached (p : Page) : bool :=
  match cameraStreamRef (devices p) with
  | Some stream =>
      match getVideoTracks stream with
      | videoTrack :: _ => onended videoTrack
      | [] => false
      end
  | None => false
  end.

Definition isPending (timer : positive) (p : Page) : bool :=
  existsb (Pos.eqb timer) (pendingTimers (devices p)).

Definition expireTimer (timer : positive) : StudentProg unit :=
  modify (withDevices (fun d =>
    mkDevices (cameraStreamRef d) (cameraRecoveryTimerRef d) (engagementWsRef d)
              (List.filter (fun t => negb (Pos.eqb t timer)) (pendingTimers d))
              (nextTimer d) (nextSocket d))).

(** The browser sets the [readyState] of the track before it dispatches
    the event. *)
Definition markEnded (stream : MediaStream) : MediaStream :=
  match getVideoTracks stream with
  | [] => stream
  | videoTrack :: others =>
      mkStream (mkTrack TrackState.ended (onended videoTrack) (onmute videoTrack)
                        (onunmute videoTrack) :: others)
  end.

Definition cameraStep (event : CameraEvent) : StudentProg unit :=
  p <- get ;;
  match event with
  | TrackEnded =>
      setCameraStream (option_map markEnded (cameraStreamRef (devices p))) ;;
      if endedHandlerAttached p then videoTrackOnended else ret tt
  | TimerFires timer media =>
      if isPending timer p
      then expireTimer timer ;; recoveryCallback media
      else ret tt
  end.

End Camera.

(** What an awaited request answers. *)
Inductive Answer (A : Type) : Type :=
| Resolved (a : A)
| Rejected (err : JsError).

Arguments Resolved {A} a.
Arguments Rejected {A} err.

(** The body of the submit-answer response. *)
Record SubmitResult := mkSubmitResult {
  is_correct : bool;
  correct_option_index : option Z
}.

(** [String.fromCharCode(65 + index)], for the code units of one byte. *)
Definition optionLabel (index : Z) : string :=
  String (ascii_of_N (Z.to_N (65 + index))) EmptyString.

(** ** Telemetry channel and signal composer of the student page *)

Module Visibility.
Inductive t := visible | hidden.
End Visibility.

(** The [document] as the composer reads it. *)
Record Document := mkDocument {
  visibilityState : Visibility.t;
  hasFocus : bool
}.

(** What [captureVisionFrame] answers: a frame, no data, or an exception of
    the canvas. *)
Inductive CaptureAnswer :=
| Captured (file : string)
| NoFrame
| CaptureThrows (err : JsError).

(** What one compose cycle reads from outside the page, in the order of the
    source. *)
Record CycleEnv := mkCycleEnv {
  nowAtFirstCycle : Z;
  now : Z;
  document : option Document;
  reacquire : MediaAnswer;
  socketThrows : option JsError;
  firstFrame : CaptureAnswer;
  retryAcquire : MediaAnswer;
  secondFrame : CaptureAnswer;
  dataUrl : option string;
  sendThrows : option JsError;
  timeString : string
}.

(** What [handleQuizAnswer] reads from outside the page. *)
Record QuizEnv := mkQuizEnv {
  activeAnswer : Answer (option (list SessionQuizItem.t));
  statsAnswer : Answer StudentQuizStats;
  submitAnswer : Answer SubmitResult;
  answeredAt : Z;
  cycle : CycleEnv
}.

(** *** The blend of the composer *)

Section Blend.

Local Open Scope Q_scope.

Variable a : Activity.
Variable doc : option Document.
Variable meetingOpen : bool.
Variable nowMs : Z.

Definition joinAt : Z :=
  match joinStartedAtRef a with
  | Some t => Js.orElse t nowMs
  | None => nowMs
  end.

Definition sessionElapsedMs : Z := Z.max (nowMs - joinAt) 1.

Definition hiddenMs : Z :=
  (hiddenAccumulatedRef a +
   match hiddenStartedAtRef a with
   | Some t => nowMs - t
   | None => 0
   end)%Z.

Definition visibleRatio : Q :=
  clamp (1 - inject_Z hiddenMs / inject_Z sessionElapsedMs).

Definition isVisible : bool :=
  match doc with
  | None => true
  | Some d =>
      match visibilityState d with
      | Visibility.visible => true
      | Visibility.hidden => false
      end
  end.

Definition isFocused : bool :=
  match doc with
  | None => true
  | Some d => isVisible && focusedRef a && hasFocus d
  end.

Definition recencySeconds : Q := inject_Z (nowMs - lastInteractionRef a) / 1000.

Definition interactionBurst : Q := clamp (inject_Z (interactionCountRef a) / 10).

Definition answeredRecently : bool :=
  match answeredQuizAtRef a with
  | Some t => (nowMs - t <? 3 * 60 * 1000)%Z
  | None => false
  end.

Definition movementIntensity : Q :=
  clamp (interactionBurst * 0.65
         + (if isFocused then 0.2 else 0.06)
         + (if isVisible then 0.09 else 0)).

Definition participationEstimate : Q :=
  clamp (0.18
         + interactionBurst * 0.5
         + (if answeredRecently then 0.22 else 0)
         + (if meetingOpen then 0.08 else 0)
         + (if isFocused then 0.05 else 0)).

Definition attendanceConsistency : Q := clamp (0.55 + visibleRatio * 0.45).

End Blend.

(** The envelope of line 577; [events] is the counter as read at the send. *)
Definition composeSignal (a : Activity) (doc : option Document) (meetingOpen : bool)
    (nowMs : Z) (imageBase64 : string) (events : Z) : TelemetrySignal :=
  mkSignal imageBase64
           (Js.toFixed (participationEstimate a doc meetingOpen nowMs) 3)
           (Js.toFixed (attendanceConsistency a nowMs) 3)
           (Js.toFixed (recencySeconds a nowMs) 1)
           events
           (Js.toFixed (movementIntensity a doc) 3).

Definition sessionIsLive (s : SessionData.t) : bool :=
  String.eqb (SessionData.status s) "LIVE".

Definition isOpen (ws : WebSocket) : bool := ReadyState.eqb (readyState ws) ReadyState.OPEN.

Definition isConnecting (ws : WebSocket) : bool :=
  ReadyState.eqb (readyState ws) ReadyState.CONNECTING.

Section StudentPage.

Local Open Scope prog_scope.
Local Open Scope string_scope.

(** [api.getEngagementWebSocketUrl], of the API client. *)
Variable getEngagementWebSocketUrl : Z -> string.

(** [new Date(s).getTime()], [None] for [NaN]. *)
Variable dateParse : string -> option Z.

(** [new WebSocket(url)]: the call is logged, then the constructor throws
    or yields a socket that is connecting. *)
Definition newWebSocket (url : string) (throws : option JsError)
    : StudentProg WebSocket :=
  emit (NewWebSocket url) ;;
  match throws with
  | Some err => throw err
  | None =>
      p <- get ;;
      let socket := nextSocket (devices p) in
      modify (withDevices (fun d =>
        mkDevices (cameraStreamRef d) (cameraRecoveryTimerRef d) (engagementWsRef d)
                  (pendingTimers d) (nextTimer d) (Datatypes.S socket))) ;;
      ret (mkWebSocket socket url ReadyState.CONNECTING false)
  end.

Definition disconnectEngagementSocket : StudentProg unit :=
  p <- get ;;
  match engagementWsRef (devices p) with
  | Some ws => emit (SocketClose (wsId ws)) ;; setEngagementWs None
  | None => ret tt
  end.

Definition connectEngagementSocket (throws : option JsError) : StudentProg unit :=
  call (
    p <- get ;;
    match session p with
    | None => returnNow
    | Some s =>
        (if negb (joined p) || negb (sessionIsLive s) then returnNow else ret tt) ;;
        match engagementWsRef (devices p) with
        | Some existing =>
            if isOpen existing || isConnecting existing then returnNow else ret tt
        | None => ret tt
        end ;;
        let wsUrl := getEngagementWebSocketUrl (SessionData.id s) in
        (if negb (Js.includes wsUrl "token=") then
           setSocketState SocketState.ERROR ;;
           setTelemetryState TelemetryState.ERROR ;;
           setTelemetryMessage "Missing auth token for engagement socket" ;;
           returnNow
         else ret tt) ;;
        tryCatch
          (setSocketState SocketState.CONNECTING ;;
           ws <- newWebSocket wsUrl throws ;;
           setEngagementWs
             (Some (mkWebSocket (wsId ws) (socketUrl ws) (readyState ws) true)))
          (fun _ =>
             setSocketState SocketState.ERROR ;;
             setTelemetryState TelemetryState.ERROR ;;
             setTelemetryMessage "Unable to open engagement socket")
    end).

(** The socket handlers assigned by [connectEngagementSocket]; the browser
    updates [readyState] before it calls them. *)
Definition withReadyState (r : ReadyState.t) (ws : WebSocket) : WebSocket :=
  mkWebSocket (wsId ws) (socketUrl ws) r (hooked ws).

Definition wsOnopen : StudentProg unit :=
  p <- get ;;
  setEngagementWs (option_map (withReadyState ReadyState.OPEN) (engagementWsRef (devices p))) ;;
  setSocketState SocketState.CONNECTED.

Definition wsOnclose (ws : nat) : StudentProg unit :=
  setSocketState SocketState.DISCONNECTED ;;
  p <- get ;;
  match engagementWsRef (devices p) with
  | Some held => if Nat.eqb (wsId held) ws then setEngagementWs None else ret tt
  | None => ret tt
  end.

Definition wsOnerror : StudentProg unit :=
  setSocketState SocketState.ERROR.

Definition captureVisionFrame (answer : CaptureAnswer) : StudentProg (option string) :=
  match answer with
  | Captured file => ret (Some file)
  | NoFrame => ret None
  | CaptureThrows err => throw err
  end.

(** [socket.send(JSON.stringify(...))]. *)
Definition socketSend (socket : WebSocket) (message : OutMessage)
    (throws : option JsError) : StudentProg unit :=
  match throws with
  | Some err => throw err
  | None => emit (SocketSend (wsId socket) message)
  end.

Definition sendTelemetrySignal (env : CycleEnv) : StudentProg unit :=
  call (
    p <- get ;;
    match session p with
    | None => returnNow
    | Some s => if negb (joined p) || negb (sessionIsLive s) then returnNow else ret tt
    end ;;
    match joinStartedAtRef (activity p) with
    | None => setJoinStartedAt (Some (nowAtFirstCycle env))
    | Some _ => ret tt
    end ;;
    p <- get ;;
    let a := activity p in
    let imageless := composeSignal a (document env) (showMeeting p) (now env) in
    tryCatch
      (match cameraState (display p), cameraStreamRef (devices p) with
       | CameraState.ACTIVE, Some _ => ret tt
       | _, _ =>
           setTelemetryState TelemetryState.ERROR ;;
           setTelemetryMessage "Camera is reconnecting..." ;;
           startCamera (reacquire env)
       end ;;
       p <- get ;;
       match engagementWsRef (devices p) with
       | Some socket =>
           (if isOpen socket then ret tt
            else
              setTelemetryState TelemetryState.ERROR ;;
              setTelemetryMessage "Engagement socket is disconnected" ;;
              connectEngagementSocket (socketThrows env) ;;
              returnNow) ;;
           first <- captureVisionFrame (firstFrame env) ;;
           frame <- match first with
                    | Some file => ret (Some file)
                    | None =>
                        startCamera (retryAcquire env) ;;
                        captureVisionFrame (secondFrame env)
                    end ;;
           match frame with
           | None =>
               setTelemetryState TelemetryState.ERROR ;;
               setTelemetryMessage
                 "Unable to capture camera frame. Check camera visibility." ;;
               returnNow
           | Some _ =>
               match dataUrl env with
               | None =>
                   setTelemetryState TelemetryState.ERROR ;;
                   setTelemetryMessage "Unable to encode camera frame" ;;
                   returnNow
               | Some imageBase64 =>
                   p <- get ;;
                   socketSend socket
                     (vision_sample
                        (imageless imageBase64 (interactionCountRef (activity p))))
                     (sendThrows env) ;;
                   setTelemetryState TelemetryState.ACTIVE ;;
                   setTelemetryMessage ("Vision sample queued: " ++ timeString env) ;;
                   setInteractionCount 0
               end
           end
       | None =>
           setTelemetryState TelemetryState.ERROR ;;
           setTelemetryMessage "Engagement socket is disconnected" ;;
           connectEngagementSocket (socketThrows env) ;;
           returnNow
       end)
      (fun err =>
         let message :=
           match err with
           | Some m => m
           | None => "Unable to send engagement sample"
           end in
         setTelemetryState TelemetryState.ERROR ;;
         setTelemetryMessage message)).

(** *** Quiz synchroniser of the student page *)

(** [loadActiveQuizzes]; [answer] is what the server says, [None] inside
    for a body without [quizzes]. *)
Definition loadActiveQuizzes (answer : Answer (option (list SessionQuizItem.t)))
    : StudentProg unit :=
  call (
    p <- get ;;
    match session p with
    | None => returnNow
    | Some s =>
        tryCatch
          (emit (ListActiveSessionQuizzes (SessionData.id s)) ;;
           match answer with
           | Resolved (Some quizzes) => setActiveQuizzes quizzes
           | Resolved None => setActiveQuizzes []
           | Rejected err => throw err
           end)
          (fun _ => setActiveQuizzes [])
    end).

Definition loadQuizStats (answer : Answer StudentQuizStats) : StudentProg unit :=
  call (
    p <- get ;;
    match session p with
    | None => returnNow
    | Some s =>
        (if negb (joined p) then returnNow else ret tt) ;;
        tryCatch
          (emit (GetMySessionQuizStats (SessionData.id s)) ;;
           match answer with
           | Resolved stats => setQuizStats stats
           | Rejected err => throw err
           end)
          (fun _ => setQuizStats (mkStats 0 0 0))
    end).

Definition handleSelectQuizOption (quizId selectedOptionIndex : Z) : StudentProg unit :=
  setSelectedQuizOptions (fun prev => <[quizId := selectedOptionIndex]> prev).

Definition submitSessionQuizAnswer (sessionId quizId optionIndex : Z)
    (answer : Answer SubmitResult) : StudentProg SubmitResult :=
  emit (SubmitSessionQuizAnswer sessionId quizId optionIndex) ;;
  match answer with
  | Resolved result => ret result
  | Rejected err => throw err
  end.

Definition handleQuizAnswer (env : QuizEnv) (quiz : SessionQuizItem.t)
    : StudentProg unit :=
  call (
    p <- get ;;
    match session p with
    | None => returnNow
    | Some s =>
        let remainingSeconds :=
          quizRemainingSeconds dateParse quiz (quizClock (quizPanel p)) in
        match remainingSeconds with
        | Some r =>
            if Qle_bool r 0 then
              setQuizFeedback (Some (mkFeedback FeedbackType.ERROR
                "Quiz time is over. Wait for the next checkpoint.")) ;;
              loadActiveQuizzes (activeAnswer env) ;;
              returnNow
            else ret tt
        | None => ret tt
        end ;;
        match selectedQuizOptions (quizPanel p) !! SessionQuizItem.id quiz with
        | None =>
            setQuizFeedback (Some (mkFeedback FeedbackType.ERROR
              "Please choose an option before submitting.")) ;;
            returnNow
        | Some selectedOptionIndex =>
            tryFinally
              (tryCatch
                 (setAnsweringQuizId (Some (SessionQuizItem.id quiz)) ;;
                  result <- submitSessionQuizAnswer (SessionData.id s)
                              (SessionQuizItem.id quiz) selectedOptionIndex
                              (submitAnswer env) ;;
                  setAnsweredQuizAt (Some (answeredAt env)) ;;
                  setQuizFeedback (Some
                    (if is_correct result
                     then mkFeedback FeedbackType.SUCCESS
                            ("Answer submitted. Correct ("
                             ++ optionLabel selectedOptionIndex ++ ").")
                     else mkFeedback FeedbackType.INFO
                            ("Answer submitted. Correct option is "
                             ++ optionLabel (default 0%Z (correct_option_index result))
                             ++ "."))) ;;
                  setSelectedQuizOptions (fun prev => delete (SessionQuizItem.id quiz) prev) ;;
                  loadActiveQuizzes (activeAnswer env) ;;
                  loadQuizStats (statsAnswer env) ;;
                  sendTelemetrySignal (cycle env))
                 (fun err =>
                    let message :=
                      match err with
                      | Some m => m
                      | None => "Failed to submit answer"
                      end in
                    setQuizFeedback (Some (mkFeedback FeedbackType.ERROR message))))
              (setAnsweringQuizId None)
        end
    end).

(** The 1 Hz clock of line 233 stores [Date.now()]. *)
Definition quizClockTick (nowMs : Z) : StudentProg unit := setQuizClock nowMs.

(** The countdown the page renders for each tracked checkpoint
    (line 892). *)
Definition renderedCountdown (p : Page) : list (Z * option Q) :=
  List.map
    (fun quiz =>
       (SessionQuizItem.id quiz,
        quizRemainingSeconds dateParse quiz (quizClock (quizPanel p))))
    (activeQuizzes (quizPanel p)).

Definition isTimedOut (remainingSeconds : option Q) : bool :=
  match remainingSeconds with
  | Some r => Qle_bool r 0
  | None => false
  end.

End StudentPage.

(** ** Insights channel of the teacher session page *)

Module Teacher.

(** A session object as React compares it in a dependency list: by
    identity ([Object.is]); [ref] is the identity of the object. *)
Record SessionObject := mkSessionObject {
  ref : nat;
  data : SessionData.t
}.

(** The socket the page holds, with the topic difficulty its [onopen]
    handler closed over. *)
Record InsightsSocket := mkInsightsSocket {
  socket : WebSocket;
  closedOverTopic : TopicDifficulty.t
}.

Record Page := mkPage {
  session : option SessionObject;
  engagementSocketState : SocketState.t;
  insightsError : string;
  topicDifficulty : TopicDifficulty.t;
  quizzes : list TeacherQuizItem.t;
  quizClock : Z;
  engagementWsRef : option InsightsSocket;
  nextSocket : nat
}.

Definition TeacherProg : Type -> Type := Prog Page Action.

Section TeacherPage.

Local Open Scope prog_scope.
Local Open Scope string_scope.

Variable getEngagementWebSocketUrl : Z -> string.
Variable dateParse : string -> option Z.

Definition setSession (v : option SessionObject) : TeacherProg unit :=
  modify (fun p =>
    mkPage v (engagementSocketState p) (insightsError p) (topicDifficulty p)
           (quizzes p) (quizClock p) (engagementWsRef p) (nextSocket p)).

Definition setEngagementSocketState (v : SocketState.t) : TeacherProg unit :=
  modify (fun p =>
    mkPage (session p) v (insightsError p) (topicDifficulty p)
           (quizzes p) (quizClock p) (engagementWsRef p) (nextSocket p)).

Definition setInsightsError (v : string) : TeacherProg unit :=
  modify (fun p =>
    mkPage (session p) (engagementSocketState p) v (topicDifficulty p)
           (quizzes p) (quizClock p) (engagementWsRef p) (nextSocket p)).

Definition setTopicDifficulty (v : TopicDifficulty.t) : TeacherProg unit :=
  modify (fun p =>
    mkPage (session p) (engagementSocketState p) (insightsError p) v
           (quizzes p) (quizClock p) (engagementWsRef p) (nextSocket p)).

Definition setQuizzes (v : list TeacherQuizItem.t) : TeacherProg unit :=
  modify (fun p =>
    mkPage (session p) (engagementSocketState p) (insightsError p) (topicDifficulty p)
           v (quizClock p) (engagementWsRef p) (nextSocket p)).

Definition setQuizClock (v : Z) : TeacherProg unit :=
  modify (fun p =>
    mkPage (session p) (engagementSocketState p) (insightsError p) (topicDifficulty p)
           (quizzes p) v (engagementWsRef p) (nextSocket p)).

Definition setEngagementWs (v : option InsightsSocket) : TeacherProg unit :=
  modify (fun p =>
    mkPage (session p) (engagementSocketState p) (insightsError p) (topicDifficulty p)
           (quizzes p) (quizClock p) v (nextSocket p)).

Definition newWebSocket (url : string) (throws : option JsError)
    : TeacherProg WebSocket :=
  emit (NewWebSocket url) ;;
  match throws with
  | Some err => throw err
  | None =>
      p <- get ;;
      modify (fun p =>
        mkPage (session p) (engagementSocketState p) (insightsError p)
               (topicDifficulty p) (quizzes p) (quizClock p) (engagementWsRef p)
               (Datatypes.S (nextSocket p))) ;;
      ret (mkWebSocket (nextSocket p) url ReadyState.CONNECTING false)
  end.

Definition disconnectEngagementSocket : TeacherProg unit :=
  p <- get ;;
  match engagementWsRef p with
  | Some held => emit (SocketClose (wsId (socket held))) ;; setEngagementWs None
  | None => ret tt
  end.

(** [connectEngagementSocket]; the callback is rebuilt only when
    [session] changes, so the topic difficulty its [onopen] handler
    sends is the one of that render, given here as [topic]. *)
Definition connectEngagementSocket (topic : TopicDifficulty.t)
    (throws : option JsError) : TeacherProg unit :=
  call (
    p <- get ;;
    match session p with
    | None => returnNow
    | Some s =>
        (if negb (sessionIsLive (data s)) then returnNow else ret tt) ;;
        match engagementWsRef p with
        | Some existing =>
            if isOpen (socket existing) || isConnecting (socket existing)
            then returnNow else ret tt
        | None => ret tt
        end ;;
        let wsUrl := getEngagementWebSocketUrl (SessionData.id (data s)) in
        (if negb (Js.includes wsUrl "token=") then
           setEngagementSocketState SocketState.ERROR ;;
           setInsightsError "Missing auth token for live engagement socket" ;;
           returnNow
         else ret tt) ;;
        tryCatch
          (setEngagementSocketState SocketState.CONNECTING ;;
           ws <- newWebSocket wsUrl throws ;;
           setEngagementWs
             (Some (mkInsightsSocket
                      (mkWebSocket (wsId ws) (socketUrl ws) (readyState ws) true)
                      topic)))
          (fun _ =>
             setEngagementSocketState SocketState.ERROR ;;
             setInsightsError "Unable to open live engagement socket")
    end).

Definition socketSend (ws : WebSocket) (message : OutMessage) : TeacherProg unit :=
  emit (SocketSend (wsId ws) message).

(** [ws.onopen], with [new Date().getHours()]. *)
Definition wsOnopen (localHour : Z) : TeacherProg unit :=
  p <- get ;;
  match engagementWsRef p with
  | Some held =>
      let opened := mkWebSocket (wsId (socket held)) (socketUrl (socket held))
                                ReadyState.OPEN (hooked (socket held)) in
      setEngagementWs (Some (mkInsightsSocket opened (closedOverTopic held))) ;;
      setEngagementSocketState SocketState.CONNECTED ;;
      socketSend opened (subscribe_insights (closedOverTopic held) localHour)
  | None => ret tt
  end.

(** The body of the effect of line 689. *)
Definition resubscribeEffect (localHour : Z) : TeacherProg unit :=
  call (
    p <- get ;;
    match engagementWsRef p, session p with
    | Some held, Some s =>
        if isOpen (socket held) && sessionIsLive (data s)
        then socketSend (socket held)
               (subscribe_insights (topicDifficulty p) localHour)
        else returnNow
    | _, _ => returnNow
    end).

(** The body and the cleanup of the effect of line 677. *)
Definition socketEffect (throws : option JsError) : TeacherProg unit :=
  call (
    p <- get ;;
    match session p with
    | Some s =>
        if sessionIsLive (data s)
        then connectEngagementSocket (topicDifficulty p) throws
        else disconnectEngagementSocket ;;
             setEngagementSocketState SocketState.DISCONNECTED
    | None =>
        disconnectEngagementSocket ;;
        setEngagementSocketState SocketState.DISCONNECTED
    end).

Definition socketEffectCleanup (before : Page) : TeacherProg unit :=
  match session before with
  | Some s => if sessionIsLive (data s) then disconnectEngagementSocket else ret tt
  | None => ret tt
  end.

(** *** Renders and effects

    A state update is followed by one render; after the render React
    runs, in the order of their declaration, the effects one of whose
    dependencies is not [Object.is]-equal to its value at the previous
    render. *)
Inductive Update :=
| SetTopicDifficulty (value : TopicDifficulty.t)
| SetSession (value : option SessionObject)
| OtherUpdate.

Definition sameSession (a b : option SessionObject) : bool :=
  match a, b with
  | Some x, Some y => Nat.eqb (ref x) (ref y)
  | None, None => true
  | _, _ => false
  end.

Definition applyUpdate (u : Update) : TeacherProg unit :=
  match u with
  | SetTopicDifficulty value => setTopicDifficulty value
  | SetSession value => setSession value
  | OtherUpdate => ret tt
  end.

(** What a render and its effects read from outside the page. *)
Record RenderEnv := mkRenderEnv {
  localHour : Z;
  socketThrows : option JsError
}.

Definition render (step : Update * RenderEnv) : TeacherProg unit :=
  before <- get ;;
  applyUpdate (fst step) ;;
  after <- get ;;
  let sessionChanged := negb (sameSession (session before) (session after)) in
  let topicChanged :=
    negb (TopicDifficulty.eqb (topicDifficulty before) (topicDifficulty after)) in
  (if sessionChanged
   then socketEffectCleanup before ;; socketEffect (socketThrows (snd step))
   else ret tt) ;;
  (if topicChanged || sessionChanged
   then resubscribeEffect (localHour (snd step))
   else ret tt).

Definition renders (steps : list (Update * RenderEnv)) : TeacherProg unit :=
  forEach render steps.

(** The countdown of the active checkpoint (line 875). *)
Definition activeRemainingSeconds (p : Page) : option Q :=
  match List.find TeacherQuizItem.is_active (quizzes p) with
  | Some activeQuiz => quizRemainingSeconds dateParse activeQuiz (quizClock p)
  | None => None
  end.

End TeacherPage.

End Teacher.

(** ** Activity monitor of the student page *)

Section ActivityMonitor.

Local Open Scope prog_scope.
Local Open Scope Z_scope.

Definition setHiddenAccumulated (v : Z) : StudentProg unit :=
  modify (withActivity (fun a =>
    mkActivity (joinStartedAtRef a) (lastInteractionRef a) (interactionCountRef a)
               v (hiddenStartedAtRef a) (focusedRef a) (answeredQuizAtRef a))).

Definition setHiddenStartedAt (v : option Z) : StudentProg unit :=
  modify (withActivity (fun a =>
    mkActivity (joinStartedAtRef a) (lastInteractionRef a) (interactionCountRef a)
               (hiddenAccumulatedRef a) v (focusedRef a) (answeredQuizAtRef a))).

Definition setFocused (v : bool) : StudentProg unit :=
  modify (withActivity (fun a =>
    mkActivity (joinStartedAtRef a) (lastInteractionRef a) (interactionCountRef a)
               (hiddenAccumulatedRef a) (hiddenStartedAtRef a) v (answeredQuizAtRef a))).

Definition setJoined (v : bool) : StudentProg unit :=
  modify (fun p =>
    mkPage (session p) v (showMeeting p) (display p) (quizPanel p) (activity p) (devices p)).

(** [registerInteraction]; [nowMs] is its reading of [Date.now()]. *)
Definition registerInteraction (nowMs : Z) : StudentProg unit :=
  setLastInteraction nowMs ;;
  p <- get ;;
  setInteractionCount (interactionCountRef (activity p) + 1).

(** [onVisibilityChange]: [nowMs] is the handler's reading of the clock,
    [interactionNow] the later reading of [registerInteraction]. *)
Definition onVisibilityChange (nowMs interactionNow : Z) (doc : Document)
    : StudentProg unit :=
  match visibilityState doc with
  | Visibility.hidden =>
      setHiddenStartedAt (Some nowMs) ;;
      setFocused false
  | Visibility.visible =>
      p <- get ;;
      match hiddenStartedAtRef (activity p) with
      | Some startedAt =>
          setHiddenAccumulated (hiddenAccumulatedRef (activity p) + (nowMs - startedAt)) ;;
          setHiddenStartedAt None
      | None => ret tt
      end ;;
      setFocused (hasFocus doc) ;;
      registerInteraction interactionNow
  end.

Definition onFocus (nowMs : Z) : StudentProg unit :=
  setFocused true ;;
  registerInteraction nowMs.

Definition onBlur : StudentProg unit := setFocused false.

(** The events the listeners of line 497 receive. *)
Inductive ActivityEvent :=
| VisibilityChange (nowMs interactionNow : Z) (doc : Document)
| WindowFocus (nowMs : Z)
| WindowBlur
| Interaction (nowMs : Z).

Definition activityStep (event : ActivityEvent) : StudentProg unit :=
  match event with
  | VisibilityChange nowMs interactionNow doc => onVisibilityChange nowMs interactionNow doc
  | WindowFocus nowMs => onFocus nowMs
  | WindowBlur => onBlur
  | Interaction nowMs => registerInteraction nowMs
  end.

Definition activityRun (events : list ActivityEvent) : StudentProg unit :=
  forEach activityStep events.

End ActivityMonitor.

(** ** Joining the session *)

(** The page with the [joining] flag of the join button. *)
Record JoinPage := mkJoinPage {
  page : Page;
  joining : bool
}.

(** The calls of [handleJoin] that leave the page: those of the page's own
    functions, the join request and the alert. *)
Inductive JoinAction :=
| PageAction (action : Action)
| JoinSessionRequest (sessionId : Z) (auth_type : string)
| Alert (message : string).

(** What [handleJoin] reads from outside the page. *)
Record JoinEnv := mkJoinEnv {
  joinAnswer : Answer unit;
  joinedAtMs : Z;
  firstInteractionMs : Z;
  joinActiveAnswer : Answer (option (list SessionQuizItem.t));
  joinStatsAnswer : Answer StudentQuizStats
}.

Section Join.

Local Open Scope prog_scope.
Local Open Scope string_scope.

Definition JoinProg : Type -> Type := Prog JoinPage JoinAction.

(** A function of the page run on the page inside [JoinPage]. *)
Definition liftPage {A} (m : StudentProg A) : JoinProg A :=
  fun s =>
    match m (page s) with
    | (c, p1, l) => (c, mkJoinPage p1 (joining s), List.map PageAction l)
    end.

Definition setJoining (v : bool) : JoinProg unit :=
  modify (fun s => mkJoinPage (page s) v).

Definition joinSession (sessionId : Z) (answer : Answer unit) : JoinProg unit :=
  emit (JoinSessionRequest sessionId "password") ;;
  match answer with
  | Resolved _ => ret tt
  | Rejected err => throw err
  end.

(** [loadQuizStats] as the closure of one render runs it: [joinedAtRender]
    is the value of [joined] that render saw. *)
Definition loadQuizStatsOf (joinedAtRender : bool) (answer : Answer StudentQuizStats)
    : StudentProg unit :=
  call (
    p <- get ;;
    match session p with
    | None => returnNow
    | Some s =>
        (if negb joinedAtRender then returnNow else ret tt) ;;
        tryCatch
          (emit (GetMySessionQuizStats (SessionData.id s)) ;;
           match answer with
           | Resolved stats => setQuizStats stats
           | Rejected err => throw err
           end)
          (fun _ => setQuizStats (mkStats 0 0 0))
    end).

(** [handleJoin]: the functions it calls are those of the render in which
    the button was pressed. *)
Definition handleJoin (env : JoinEnv) : JoinProg unit :=
  call (
    s0 <- get ;;
    match session (page s0) with
    | None => returnNow
    | Some s =>
        tryFinally
          (tryCatch
             (setJoining true ;;
              joinSession (SessionData.id s) (joinAnswer env) ;;
              liftPage (setJoinStartedAt (Some (joinedAtMs env))) ;;
              liftPage (setHiddenAccumulated 0) ;;
              liftPage (setHiddenStartedAt None) ;;
              liftPage (setFocused true) ;;
              liftPage (setInteractionCount 0) ;;
              liftPage (setLastInteraction (firstInteractionMs env)) ;;
              liftPage (setJoined true) ;;
              liftPage (loadActiveQuizzes (joinActiveAnswer env)) ;;
              liftPage (loadQuizStatsOf (joined (page s0)) (joinStatsAnswer env)))
             (fun err =>
                emit (Alert match err with
                            | Some message => message
                            | None => "Failed to join session"
                            end)))
          (setJoining false)
    end).

End Join.

(** ** Selections follow the active checkpoints (effect of line 213) *)

Definition activeIds (quizzes : list SessionQuizItem.t) : gset Z :=
  list_to_set (List.map SessionQuizItem.id quizzes).

(** [Object.entries(prev).forEach(...)] building [next]. *)
Definition pruneSelections (quizzes : list SessionQuizItem.t) (prev : gmap Z Z)
    : gmap Z Z :=
  map_fold
    (fun quizId selectedIndex next =>
       if decide (quizId ∈ activeIds quizzes)
       then <[quizId := selectedIndex]> next
       else next)
    ∅ prev.

Definition selectionEffect : StudentProg unit :=
  bind get (fun p =>
    setSelectedQuizOptions (pruneSelections (activeQuizzes (quizPanel p)))).

(** ** The page's event loop *)

(** What runs on the joined page between renders: a listener of line 497
    receives an event, or the interval of line 605 starts a telemetry cycle. *)
Inductive PageEvent :=
| Listener (event : ActivityEvent)
| TelemetryCycle (env : CycleEnv).

Section EventLoop.

Variable getEngagementWebSocketUrl : Z -> string.

Definition pageStep (event : PageEvent) : StudentProg unit :=
  match event with
  | Listener e => activityStep e
  | TelemetryCycle env => sendTelemetrySignal getEngagementWebSocketUrl env
  end.

Definition pageRun (events : list PageEvent) : StudentProg unit :=
  forEach pageStep events.

End EventLoop.

(** ** The telemetry effect and the renders that re-run it *)

Definition sameCameraState (a b : CameraState.t) : bool :=
  match a, b with
  | CameraState.IDLE, CameraState.IDLE
  | CameraState.ACTIVE, CameraState.ACTIVE
  | CameraState.DENIED, CameraState.DENIED
  | CameraState.ERROR, CameraState.ERROR => true
  | _, _ => false
  end.


Section Recovery.

Local Open Scope prog_scope.
Local Open Scope string_scope.

Variable getEngagementWebSocketUrl : Z -> string.

(** The effect of line 596.  When it runs it calls [sendTelemetrySignal] at
    once; the interval it sets calls it again every 12 s.  The face
    visibility and confidence it resets are not part of the page modelled
    here. *)
Definition telemetryEffect (env : CycleEnv) : StudentProg unit :=
  call (
    p <- get ;;
    match session p with
    | Some s =>
        if negb (joined p) || negb (sessionIsLive s)
        then
          setTelemetryState TelemetryState.IDLE ;;
          setTelemetryMessage "" ;;
          returnNow
        else ret tt
    | None =>
        setTelemetryState TelemetryState.IDLE ;;
        setTelemetryMessage "" ;;
        returnNow
    end ;;
    sendTelemetrySignal getEngagementWebSocketUrl env).

(** A render after camera events.  [sendTelemetrySignal] is rebuilt when
    [cameraState] differs from the one the previous render saw (it is among
    the dependencies of line 594; [session], [joined] and [showMeeting],
    the others that can change, are not written by the camera handlers),
    and the telemetry effect, which depends on it, then runs again.
    [rendered] is the [cameraState] of the previous render. *)
Definition render (rendered : CameraState.t) (env : CycleEnv) : StudentProg unit :=
  p <- get ;;
  if sameCameraState (cameraState (display p)) rendered
  then ret tt
  else telemetryEffect env.


End Recovery.

(** ** [startCamera] around its [await]

    [startCamera] waits for [getUserMedia], and until the answer arrives
    other code of the page runs, another [startCamera] included: after a
    join the camera effect (line 344) and the first telemetry cycle
    (line 546) both call it.  [startCameraRequest] is the call up to the
    [await] and tells whether the call goes on to wait;
    [startCameraSettle] is the rest of the call, run when the answer is
    there. *)

Section CameraSteps.

Local Open Scope prog_scope.
Local Open Scope string_scope.

Definition requestDevice (media : MediaAnswer) : StudentProg bool :=
  match media with
  | MediaUnavailable =>
      setCameraState CameraState.ERROR ;;
      setCameraMessage "Camera API unavailable. Real-only signal mode is blocked." ;;
      ret false
  | _ =>
      emit GetUserMedia ;;
      ret true
  end.

Definition startCameraRequest (media : MediaAnswer) : StudentProg bool :=
  p <- get ;;
  match cameraStreamRef (devices p) with
  | Some existingStream =>
      if existsb trackIsLive (getVideoTracks existingStream)
      then setCameraState CameraState.ACTIVE ;; ret false
      else stopCamera ;; requestDevice media
  | None => requestDevice media
  end.

Definition startCameraSettle (media : MediaAnswer) : StudentProg unit :=
  tryCatch
    (stream <- match media with
               | MediaResolve stream => ret stream
               | MediaReject err => throw err
               | MediaUnavailable => throw None
               end ;;
     setCameraStream (Some (installHandlers stream)) ;;
     setCameraState CameraState.ACTIVE ;;
     setCameraMessage "Live camera attention sampling enabled")
    (fun err =>
       let message :=
         match err with
         | Some m => m
         | None => "Camera permission denied"
         end in
       let lowered := Js.toLowerCase message in
       (if Js.includes lowered "permission" || Js.includes lowered "denied"
           || Js.includes lowered "notallowed"
        then
          setCameraState CameraState.DENIED ;;
          setCameraMessage "Camera permission denied. Real-only signal mode is blocked."
        else
          setCameraState CameraState.ERROR ;;
          setCameraMessage "Unable to start camera. Real-only signal mode is blocked.") ;;
       stopCamera).

(** One call, its two steps run one after the other. *)
Definition startCameraAlone (media : MediaAnswer) : StudentProg unit :=
  waits <- startCameraRequest media ;;
  if waits then startCameraSettle media else ret tt.

(** Two calls that overlap: the second starts while the first waits, and
    the answers arrive in the order of the requests. *)
Definition startCameraOverlapped (first second : MediaAnswer) : StudentProg unit :=
  firstWaits <- startCameraRequest first ;;
  secondWaits <- startCameraRequest second ;;
  (if firstWaits then startCameraSettle first else ret tt) ;;
  (if secondWaits then startCameraSettle second else ret tt).

End CameraSteps.

(** ** Text of the pages *)

(** Strings are sequences of code units below 256.  Of the white space and
    line terminators that [trim] removes, those are the tab, the line feed,
    the vertical tab, the form feed, the carriage return, the space and the
    no-break space. *)
Module JsText.

Definition isWhiteSpace (c : ascii) : bool :=
  let n := nat_of_ascii c in
  ((9 <=? n) && (n <=? 13)) || (n =? 32) || (n =? 160).

Fixpoint trimStart (s : string) : string :=
  match s with
  | EmptyString => EmptyString
  | String c rest => if isWhiteSpace c then trimStart rest else s
  end.

Fixpoint trimEnd (s : string) : string :=
  match s with
  | EmptyString => EmptyString
  | String c rest =>
      match trimEnd rest with
      | EmptyString => if isWhiteSpace c then EmptyString else String c EmptyString
      | kept => String c kept
      end
  end.

(** [s.trim()]. *)
Definition trim (s : string) : string := trimEnd (trimStart s).

(** [s.split(sep)] for a separator of one code unit. *)
Fixpoint split (sep : ascii) (s : string) : list string :=
  match s with
  | EmptyString => [EmptyString]
  | String c rest =>
      if Ascii.eqb c sep then EmptyString :: split sep rest
      else match split sep rest with
           | first :: others => String c first :: others
           | [] => [String c EmptyString]
           end
  end.

Definition lineFeed : ascii := ascii_of_nat 10.

(** [String(n)] for an integer. *)
Definition numberToString (n : Z) : string :=
  DecimalString.NilEmpty.string_of_int (Z.to_int n).

Fixpoint repeatChar (fill : ascii) (n : nat) : string :=
  match n with
  | O => EmptyString
  | Datatypes.S m => String fill (repeatChar fill m)
  end.

(** [s.padStart(targetLength, fill)] for a fill of one code unit. *)
Definition padStart (targetLength : nat) (fill : ascii) (s : string) : string :=
  repeatChar fill (targetLength - String.length s) ++ s.

(** [a || b] on numbers that are not [NaN]: [0] is the falsy one. *)
Definition orElse (a b : Q) : Q := if Qeq_bool a 0 then b else a.

(** [message || fallback], where [message] is [None] for [undefined]. *)
Definition messageOr (message : option string) (fallback : string) : string :=
  match message with
  | Some text => if Js.truthy text then text else fallback
  | None => fallback
  end.

End JsText.

(** The result of a division, which need not be finite: [x / 0] is an
    infinity with the sign of [x], and [0 / 0] is [NaN]. *)
Module JsNumber.

Inductive t :=
| Finite (value : Q)
| PosInfinity
| NegInfinity
| NaN.

(** [a / b] for finite [a] and [b]. *)
Definition divide (a b : Q) : t :=
  if Qeq_bool b 0 then
    match Qcompare a 0 with
    | Gt => PosInfinity
    | Lt => NegInfinity
    | Eq => NaN
    end
  else Finite (a / b).

End JsNumber.

(** [formatDuration] of both pages.  The floors and remainders are those of
    the integers; the code takes them on doubles, where they are the same for
    arguments below 2^53. *)
Definition formatDuration (seconds : option Q) : string :=
  match seconds with
  | None => "--:--"
  | Some seconds =>
      let safe := Z.max 0 (Qfloor seconds) in
      let minutes := (safe / 60)%Z in
      let secs := (safe mod 60)%Z in
      let two n := JsText.padStart 2 "0" (JsText.numberToString n) in
      if (60 <=? minutes)%Z then
        let hours := (minutes / 60)%Z in
        let remMinutes := (minutes mod 60)%Z in
        JsText.numberToString hours ++ ":" ++ two remMinutes ++ ":" ++ two secs
      else two minutes ++ ":" ++ two secs
  end%string.

(** ** The checkpoint desk of the teacher page *)

Module Desk.

Inductive NoticeType := SUCCESS | ERROR.

Record QuizNotice := mkNotice {
  type : NoticeType;
  message : string
}.

Record QuizForm := mkForm {
  question : string;
  optionsText : string;
  correctOptionIndex : Z;
  durationSeconds : Q
}.

(** The body of [api.createSessionQuiz]. *)
Record QuizCreate := mkCreate {
  create_question : string;
  create_options : list string;
  correct_option_index : Z;
  duration_seconds : Q
}.

Inductive Action :=
| CreateSessionQuiz (sessionId : Z) (payload : QuizCreate)
| ListSessionQuizzes (sessionId : Z).

(** The value a refused request is rejected with, as [catch (err: any)]
    reads it.  Reading [err.message] from [null] or [undefined] throws a
    [TypeError], whose message is [complaint]; any other value gives its
    [message] when that is a string, and [undefined] ([None]) otherwise. *)
Inductive Thrown :=
| Nullish (complaint : string)
| Carrying (message : option string).

(** What [api.createSessionQuiz] answers. *)
Inductive Reply :=
| Accepted
| Refused (thrown : Thrown).

(** The state of the page the desk reads and writes; of the participants
    only their number is read. *)
Record Page := mkPage {
  session : option SessionData.t;
  quizForm : QuizForm;
  quizNotice : option QuizNotice;
  quizzes : list TeacherQuizItem.t;
  quizLoading : bool;
  participants : list Z;
  quizClock : Z
}.

Definition DeskProg : Type -> Type := Prog Page Action.

Definition emptyForm : QuizForm := mkForm "" "" 0 60.

Section DeskPage.

Local Open Scope prog_scope.
Local Open Scope string_scope.

(** The [sessionId] of the route, [None] when it is not a finite number. *)
Variable sessionId : option Z.
Variable dateParse : string -> option Z.

Definition setQuizForm (v : QuizForm) : DeskProg unit :=
  modify (fun p =>
    mkPage (session p) v (quizNotice p) (quizzes p) (quizLoading p) (participants p)
           (quizClock p)).

Definition setQuizNotice (v : option QuizNotice) : DeskProg unit :=
  modify (fun p =>
    mkPage (session p) (quizForm p) v (quizzes p) (quizLoading p) (participants p)
           (quizClock p)).

Definition setQuizzes (v : list TeacherQuizItem.t) : DeskProg unit :=
  modify (fun p =>
    mkPage (session p) (quizForm p) (quizNotice p) v (quizLoading p) (participants p)
           (quizClock p)).

Definition setQuizLoading (v : bool) : DeskProg unit :=
  modify (fun p =>
    mkPage (session p) (quizForm p) (quizNotice p) (quizzes p) v (participants p)
           (quizClock p)).

(** [loadQuizzes(options)]; [silent] is [options?.silent], [answer] what the
    server says, with [None] inside for a body without [quizzes]. *)
Definition loadQuizzes (silent : bool)
    (answer : Answer (option (list TeacherQuizItem.t))) : DeskProg unit :=
  call (
    match sessionId with
    | None => returnNow
    | Some id =>
        (if negb silent then setQuizLoading true else ret tt) ;;
        tryFinally
          (tryCatch
             (emit (ListSessionQuizzes id) ;;
              match answer with
              | Resolved (Some listed) => setQuizzes listed
              | Resolved None => setQuizzes []
              | Rejected err => throw err
              end)
             (fun _ => if negb silent then setQuizzes [] else ret tt))
          (if negb silent then setQuizLoading false else ret tt)
    end).

(** [draftOptions] (line 735). *)
Definition draftOptions (form : QuizForm) : list string :=
  List.filter Js.truthy
    (List.map JsText.trim (JsText.split JsText.lineFeed (optionsText form))).

(** The effect of line 742 on the form; [draftOptions] is the memo of the
    render that runs the effect, computed from the form that render saw. *)
Definition correctOptionEffect : DeskProg unit :=
  p <- get ;;
  let prev := quizForm p in
  let count := Z.of_nat (length (draftOptions prev)) in
  if (count =? 0)%Z && negb (correctOptionIndex prev =? 0)%Z then
    setQuizForm (mkForm (question prev) (optionsText prev) 0 (durationSeconds prev))
  else if (0 <? count)%Z && (count <=? correctOptionIndex prev)%Z then
    setQuizForm (mkForm (question prev) (optionsText prev) (count - 1)
                        (durationSeconds prev))
  else ret tt.

Definition qlt (a b : Q) : bool := if Qlt_le_dec a b then true else false.

Definition qle (a b : Q) : bool := if Qlt_le_dec b a then false else true.

Definition refuse (text : string) : DeskProg unit :=
  setQuizNotice (Some (mkNotice ERROR text)) ;;
  returnNow.

(** [err.message] in a [catch] clause. *)
Definition readMessage (err : Thrown) : DeskProg (option string) :=
  match err with
  | Nullish complaint => throw (Some complaint)
  | Carrying message => ret message
  end.

(** [handleCreateQuiz].  The request is the only statement of the [try]
    block that can throw ([loadQuizzes] catches what it awaits), so the
    [catch] clause runs exactly when the request is refused, on the value it
    was refused with. *)
Definition handleCreateQuiz (createAnswer : Reply)
    (listAnswer : Answer (option (list TeacherQuizItem.t))) : DeskProg unit :=
  call (
    setQuizNotice None ;;
    p <- get ;;
    match session p with
    | None => refuse "Start the session before publishing checkpoints."
    | Some s =>
        (if negb (sessionIsLive s)
         then refuse "Start the session before publishing checkpoints."
         else ret tt) ;;
        let form := quizForm p in
        let question := JsText.trim (question form) in
        let options := draftOptions form in
        let durationSeconds :=
          Js.max 15 (Js.min 3600 (JsText.orElse (durationSeconds form) 60)) in
        (if (Z.of_nat (String.length question) <? 5)%Z
         then refuse "Question should be at least 5 characters."
         else ret tt) ;;
        (if (Z.of_nat (length options) <? 2)%Z
         then refuse "Please provide at least 2 options (one per line)."
         else ret tt) ;;
        (if (correctOptionIndex form <? 0)%Z
            || (Z.of_nat (length options) <=? correctOptionIndex form)%Z
         then refuse "Select a valid correct option from the list."
         else ret tt) ;;
        (if qlt durationSeconds 15 || qlt 3600 durationSeconds
         then refuse "Duration should be between 15s and 3600s."
         else ret tt) ;;
        emit (CreateSessionQuiz (SessionData.id s)
                (mkCreate question options (correctOptionIndex form) durationSeconds)) ;;
        match createAnswer with
        | Accepted =>
            setQuizForm emptyForm ;;
            setQuizNotice
              (Some (mkNotice SUCCESS "Quiz checkpoint published successfully.")) ;;
            loadQuizzes false listAnswer
        | Refused err =>
            message <- readMessage err ;;
            setQuizNotice
              (Some (mkNotice ERROR
                       (JsText.messageOr message "Failed to publish quiz checkpoint.")))
        end
    end).

(** What the render derives from the state (lines 866 to 888); it is
    reached with a session loaded. *)
Definition activeQuiz (p : Page) : option TeacherQuizItem.t :=
  List.find TeacherQuizItem.is_active (quizzes p).

Definition responseTarget (p : Page) : Z :=
  Z.max (Z.of_nat (length (participants p))) 0.

(** [clampRatio] on a quotient: [Math.min] and [Math.max] let an infinity
    through to the bound on its side and give [NaN] for [NaN]. *)
Definition clampQuotient (x : JsNumber.t) : JsNumber.t :=
  match x with
  | JsNumber.Finite value => JsNumber.Finite (clampRatio value)
  | JsNumber.PosInfinity => JsNumber.Finite 1
  | JsNumber.NegInfinity => JsNumber.Finite 0
  | JsNumber.NaN => JsNumber.NaN
  end.

Definition activeResponseRate (p : Page) : JsNumber.t :=
  match activeQuiz p with
  | Some quiz =>
      if (0 <? responseTarget p)%Z
      then clampQuotient (JsNumber.divide (inject_Z (TeacherQuizItem.total_responses quiz))
                                          (inject_Z (responseTarget p)))
      else JsNumber.Finite 0
  | None => JsNumber.Finite 0
  end.

Definition activeCorrectRate (p : Page) : JsNumber.t :=
  match activeQuiz p with
  | Some quiz =>
      if (0 <? TeacherQuizItem.total_responses quiz)%Z
      then clampQuotient
             (JsNumber.divide (inject_Z (TeacherQuizItem.correct_responses quiz))
                              (inject_Z (TeacherQuizItem.total_responses quiz)))
      else JsNumber.Finite 0
  | None => JsNumber.Finite 0
  end.

Definition activeRemainingSeconds (p : Page) : option Q :=
  match activeQuiz p with
  | Some quiz => quizRemainingSeconds dateParse quiz (quizClock p)
  | None => None
  end.

Definition activeDurationSeconds (p : Page) : Q :=
  match activeQuiz p with
  | Some quiz =>
      match TeacherQuizItem.duration_seconds quiz with
      | Some duration => duration
      | None => 60
      end
  | None => 60
  end.

Definition activeTimeRatio (p : Page) : JsNumber.t :=
  match activeRemainingSeconds p with
  | Some remaining =>
      if qlt 0 (activeDurationSeconds p)
      then clampQuotient (JsNumber.divide remaining (activeDurationSeconds p))
      else JsNumber.Finite 0
  | None => JsNumber.Finite 0
  end.

Definition canPublishQuiz (s : SessionData.t) (form : QuizForm) : bool :=
  sessionIsLive s
  && (5 <=? Z.of_nat (String.length (JsText.trim (question form))))%Z
  && (2 <=? Z.of_nat (length (draftOptions form)))%Z
  && (0 <=? correctOptionIndex form)%Z
  && (correctOptionIndex form <? Z.of_nat (length (draftOptions form)))%Z
  && qle 15 (durationSeconds form)
  && qle (durationSeconds form) 3600.

End DeskPage.

End Desk.

(** ** Vocabulary of the statements, and the sessions that instantiate them *)

Definition cameraAction (a : Action) : Prop :=
  match a with
  | GetUserMedia | TrackStop | SetTimeout _ _ | ClearTimeout _ => True
  | _ => False
  end.

Definition cameraFrame (p p1 : Page) : Prop :=
  session p1 = session p /\ joined p1 = joined p /\ showMeeting p1 = showMeeting p /\
  activity p1 = activity p /\ quizPanel p1 = quizPanel p /\
  engagementWsRef (devices p1) = engagementWsRef (devices p) /\
  nextSocket (devices p1) = nextSocket (devices p) /\
  telemetryState (display p1) = telemetryState (display p) /\
  telemetryMessage (display p1) = telemetryMessage (display p) /\
  socketState (display p1) = socketState (display p).

Fixpoint sentMessages (log : list Action) : list (nat * OutMessage) :=
  match log with
  | [] => []
  | SocketSend ws m :: rest => (ws, m) :: sentMessages rest
  | _ :: rest => sentMessages rest
  end.

Definition frameCaptured (env : CycleEnv) : bool :=
  match firstFrame env with
  | Captured _ => true
  | NoFrame =>
      match secondFrame env with
      | Captured _ => true
      | _ => false
      end
  | CaptureThrows _ => false
  end.

Definition socketIsOpen (p : Page) : bool :=
  match engagementWsRef (devices p) with
  | Some ws => isOpen ws
  | None => false
  end.

Definition sessionJoinedLive (p : Page) : bool :=
  match session p with
  | Some s => joined p && sessionIsLive s
  | None => false
  end.

Definition transmits (env : CycleEnv) (p : Page) : bool :=
  sessionJoinedLive p && socketIsOpen p && frameCaptured env
  && match dataUrl env with Some _ => true | None => false end
  && match sendThrows env with Some _ => false | None => true end.

Definition activityAtCycle (env : CycleEnv) (a : Activity) : Activity :=
  match joinStartedAtRef a with
  | Some _ => a
  | None =>
      mkActivity (Some (nowAtFirstCycle env)) (lastInteractionRef a) (interactionCountRef a)
                 (hiddenAccumulatedRef a) (hiddenStartedAtRef a) (focusedRef a)
                 (answeredQuizAtRef a)
  end.

Definition cycleSignal (env : CycleEnv) (p : Page) (imageBase64 : string) : TelemetrySignal :=
  composeSignal (activityAtCycle env (activity p)) (document env) (showMeeting p)
                (now env) imageBase64 (interactionCountRef (activity p)).

Definition cyclePost (env : CycleEnv) (p : Page)
    (c : Completion unit) (p1 : Page) (l : list Action) : Prop :=
  c = Normal tt /\
  if transmits env p
  then exists ws img,
         engagementWsRef (devices p) = Some ws /\ dataUrl env = Some img /\
         sentMessages l = [(wsId ws, vision_sample (cycleSignal env p img))] /\
         interactionCountRef (activity p1) = 0%Z
  else sentMessages l = [] /\
       interactionCountRef (activity p1) = interactionCountRef (activity p).

Definition cycleFails (env : CycleEnv) (p : Page) : Prop :=
  socketIsOpen p = false \/
  (firstFrame env = NoFrame /\ secondFrame env = NoFrame) \/
  dataUrl env = None \/
  (exists err, sendThrows env = Some err).

Definition heldTracks (p : Page) : list MediaStreamTrack :=
  match cameraStreamRef (devices p) with
  | Some stream => getVideoTracks stream
  | None => []
  end.






(** Quiz *)

Definition timeOverFeedback : QuizFeedback :=
  mkFeedback FeedbackType.ERROR "Quiz time is over. Wait for the next checkpoint.".

Definition answeredQuizzes (answer : Answer (option (list SessionQuizItem.t)))
    : list SessionQuizItem.t :=
  match answer with
  | Resolved (Some quizzes) => quizzes
  | _ => []
  end.

Definition isSubmit (a : Action) : bool :=
  match a with
  | SubmitSessionQuizAnswer _ _ _ => true
  | _ => false
  end.

(** No usable expiry timestamp: absent, empty, or not a date. *)
Definition noUsableExpiry {A} `{QuizTimed A} (dateParse : string -> option Z)
    (quiz : A) : Prop :=
  expires_at quiz = None \/
  expires_at quiz = Some EmptyString \/
  (exists s, expires_at quiz = Some s /\ dateParse s = None).

Definition fromExpiry (expiresAtMs nowMs : Z) : Q :=
  inject_Z (Z.max ((expiresAtMs - nowMs) / 1000) 0).

(** The order on countdown values: unknown stays unknown. *)
Definition leOption (a b : option Q) : Prop :=
  match a, b with
  | Some x, Some y => (x <= y)%Q
  | None, None => True
  | _, _ => False
  end.

Definition isNewWebSocket (a : Action) : bool :=
  match a with
  | NewWebSocket _ => true
  | _ => false
  end.

(** The guards that come before the URL check let the call through. *)
Definition studentConnectProceeds (p : Page) : Prop :=
  sessionJoinedLive p = true /\
  match engagementWsRef (devices p) with
  | Some existing => isOpen existing || isConnecting existing = false
  | None => True
  end.

Definition teacherConnectProceeds (p : Teacher.Page) : Prop :=
  match Teacher.session p with
  | Some s => sessionIsLive (Teacher.data s) = true
  | None => False
  end /\
  match Teacher.engagementWsRef p with
  | Some existing =>
      isOpen (Teacher.socket existing) || isConnecting (Teacher.socket existing) = false
  | None => True
  end.

(** One [subscribe_insights] per render that changes the topic difficulty. *)
Fixpoint expectedSubscriptions (socket : nat) (current : TopicDifficulty.t)
    (steps : list (Teacher.Update * Teacher.RenderEnv)) : list (nat * OutMessage) :=
  match steps with
  | [] => []
  | (Teacher.SetTopicDifficulty value, env) :: rest =>
      if TopicDifficulty.eqb current value
      then expectedSubscriptions socket current rest
      else (socket, subscribe_insights value (Teacher.localHour env))
             :: expectedSubscriptions socket value rest
  | _ :: rest => expectedSubscriptions socket current rest
  end.

Definition keepsSession (step : Teacher.Update * Teacher.RenderEnv) : bool :=
  match fst step with
  | Teacher.SetSession _ => false
  | _ => true
  end.

Definition subscribed (held : Teacher.InsightsSocket) (s : Teacher.SessionObject)
    (p : Teacher.Page) : Prop :=
  Teacher.engagementWsRef p = Some held /\
  Teacher.session p = Some s.

(** ** A session used to instantiate the statements *)

Definition exampleSession : SessionData.t :=
  SessionData.mk 7 "MATH-7" true "LIVE".

Definition exampleTrack : MediaStreamTrack := mkTrack TrackState.live true true true.

Definition exampleStream : MediaStream := mkStream [exampleTrack].

Definition exampleSocket : WebSocket :=
  mkWebSocket 0 "wss://classroom.example/ws/engagement/7?token=jwt" ReadyState.OPEN true.

Definition exampleQuiz : SessionQuizItem.t :=
  SessionQuizItem.mk 3 7 "What is 2 + 2?" ["3"; "4"]%string (Some 60%Q)
                     (Some "2026-01-01T00:01:00Z"%string) None true 0 0.

Definition snapshotQuiz : SessionQuizItem.t :=
  SessionQuizItem.mk 4 7 "What is 3 + 3?" ["6"; "9"]%string (Some 60%Q)
                     None (Some 42%Q) true 0 0.

Definition untimedQuiz : SessionQuizItem.t :=
  SessionQuizItem.mk 5 7 "What is 4 + 4?" ["8"; "16"]%string None None None true 0 0.

Definition exampleDateParse (s : string) : option Z :=
  if String.eqb s "2026-01-01T00:01:00Z" then Some 60000%Z else None.

Definition exampleActivity : Activity :=
  mkActivity (Some 1000%Z) 58000 4 3000 None true None.

Definition examplePage : Page :=
  mkPage (Some exampleSession) true false
         (mkDisplay TelemetryState.IDLE "" CameraState.ACTIVE "" SocketState.CONNECTED)
         (mkQuizPanel [exampleQuiz] (mkStats 0 0 0) None ∅ None 120000)
         exampleActivity
         (mkDevices (Some exampleStream) None (Some exampleSocket) [] 1 1).

(** The same page before any socket was opened. *)
Definition offlinePage : Page :=
  mkPage (Some exampleSession) true false
         (mkDisplay TelemetryState.IDLE "" CameraState.ACTIVE "" SocketState.DISCONNECTED)
         (mkQuizPanel [exampleQuiz] (mkStats 0 0 0) None ∅ None 120000)
         exampleActivity
         (mkDevices (Some exampleStream) None None [] 1 1).

Definition exampleEnv : CycleEnv :=
  mkCycleEnv 1000 61000 (Some (mkDocument Visibility.visible true))
             (MediaResolve exampleStream) None
             (Captured "attention-61000.jpg")
             (MediaResolve exampleStream) NoFrame
             (Some "data:image/jpeg;base64,AAAA"%string) None "10:00:00".

(** The same cycle when the encoder yields nothing. *)
Definition failingEnv : CycleEnv :=
  mkCycleEnv 1000 61000 (Some (mkDocument Visibility.visible true))
             (MediaResolve exampleStream) None
             (Captured "attention-61000.jpg")
             (MediaResolve exampleStream) NoFrame
             None None "10:00:00".

Definition exampleQuizEnv : QuizEnv :=
  mkQuizEnv (Resolved (Some [snapshotQuiz])) (Resolved (mkStats 1 1 1))
            (Resolved (mkSubmitResult true (Some 1%Z))) 121000 exampleEnv.

Definition exampleUrl (sessionId : Z) : string :=
  "wss://classroom.example/ws/engagement/7?token=jwt".

Definition tokenlessUrl (sessionId : Z) : string :=
  "wss://classroom.example/ws/engagement/7".

Definition exampleSignal : TelemetrySignal :=
  cycleSignal exampleEnv examplePage "data:image/jpeg;base64,AAAA".

Definition exampleTeacherSession : Teacher.SessionObject :=
  Teacher.mkSessionObject 1 exampleSession.

Definition exampleInsightsSocket : Teacher.InsightsSocket :=
  Teacher.mkInsightsSocket exampleSocket TopicDifficulty.MEDIUM.

Definition exampleTeacherPage : Teacher.Page :=
  Teacher.mkPage (Some exampleTeacherSession) SocketState.CONNECTED ""
                 TopicDifficulty.MEDIUM [] 120000 (Some exampleInsightsSocket) 1.

Definition offlineTeacherPage : Teacher.Page :=
  Teacher.mkPage (Some exampleTeacherSession) SocketState.DISCONNECTED ""
                 TopicDifficulty.MEDIUM [] 120000 None 1.

Definition exampleRenders : list (Teacher.Update * Teacher.RenderEnv) :=
  [ (Teacher.SetTopicDifficulty TopicDifficulty.HIGH, Teacher.mkRenderEnv 10 None);
    (Teacher.OtherUpdate, Teacher.mkRenderEnv 10 None);
    (Teacher.SetTopicDifficulty TopicDifficulty.HIGH, Teacher.mkRenderEnv 10 None);
    (Teacher.SetTopicDifficulty TopicDifficulty.LOW, Teacher.mkRenderEnv 11 None) ].

(** A joined live page whose camera has not been started. *)
Definition cameraIdlePage : Page :=
  mkPage (Some exampleSession) true false
         (mkDisplay TelemetryState.IDLE "" CameraState.IDLE "" SocketState.CONNECTED)
         (mkQuizPanel [exampleQuiz] (mkStats 0 0 0) None ∅ None 120000)
         exampleActivity
         (mkDevices None None (Some exampleSocket) [] 1 1).

(** A stream as [getUserMedia] hands it over: one live track, no handler. *)
Definition rawTrack : MediaStreamTrack := mkTrack TrackState.live false false false.

Definition rawStream : MediaStream := mkStream [rawTrack].


(** ** Further properties of the device stream manager *)

Definition isTrackStop (a : Action) : bool :=
  match a with
  | TrackStop => true
  | _ => false
  end.

Definition isGetUserMedia (a : Action) : bool :=
  match a with
  | GetUserMedia => true
  | _ => false
  end.

(** What [stopCamera] logs and leaves in the device cells. *)
Definition stopLog (d : Devices) : list Action :=
  match cameraRecoveryTimerRef d with
  | Some timer => [ClearTimeout timer]
  | None => []
  end ++
  match cameraStreamRef d with
  | Some stream => List.map (fun _ => TrackStop) (getVideoTracks stream)
  | None => []
  end.

Definition stoppedDevices (d : Devices) : Devices :=
  mkDevices None None (engagementWsRef d)
            match cameraRecoveryTimerRef d with
            | Some timer => List.filter (fun t => negb (Pos.eqb t timer)) (pendingTimers d)
            | None => pendingTimers d
            end
            (nextTimer d) (nextSocket d).

(** ** Further properties of the signal composer *)

Definition withInteractionCount (count : Z) (a : Activity) : Activity :=
  mkActivity (joinStartedAtRef a) (lastInteractionRef a) count (hiddenAccumulatedRef a)
             (hiddenStartedAtRef a) (focusedRef a) (answeredQuizAtRef a).

Definition captureFailureMessage : string :=
  "Unable to capture camera frame. Check camera visibility.".

Definition statusAfterCycle (env : CycleEnv) (p : Page) : TelemetryState.t :=
  if transmits env p then TelemetryState.ACTIVE else TelemetryState.ERROR.

Definition statusPost (env : CycleEnv) (p : Page)
    (c : Completion unit) (p1 : Page) (l : list Action) : Prop :=
  sessionJoinedLive p = true ->
  telemetryState (display p1) = statusAfterCycle env p /\
  (socketIsOpen p = true -> firstFrame env = NoFrame -> secondFrame env = NoFrame ->
   telemetryMessage (display p1) = captureFailureMessage).

(** ** Further properties of the quiz synchroniser *)

Definition isQuizRequest (a : Action) : bool :=
  match a with
  | ListActiveSessionQuizzes _ | GetMySessionQuizStats _ | SubmitSessionQuizAnswer _ _ _ => true
  | _ => false
  end.

Definition quizRequests (log : list Action) : list Action :=
  List.filter isQuizRequest log.

Definition quizFrame (p p1 : Page) : Prop :=
  quizPanel p1 = quizPanel p /\
  answeredQuizAtRef (activity p1) = answeredQuizAtRef (activity p) /\
  session p1 = session p /\ joined p1 = joined p.

Definition chooseOptionFeedback : QuizFeedback :=
  mkFeedback FeedbackType.ERROR "Please choose an option before submitting.".

Definition submitFailureFeedback (err : JsError) : QuizFeedback :=
  mkFeedback FeedbackType.ERROR
             match err with
             | Some message => message
             | None => "Failed to submit answer"%string
             end.

Definition answerable (dateParse : string -> option Z) (quiz : SessionQuizItem.t)
    (p : Page) : Prop :=
  isTimedOut (quizRemainingSeconds dateParse quiz (quizClock (quizPanel p))) = false.

(** The page of the example once option B of the snapshot quiz is chosen. *)
Definition selectingPage : Page :=
  stateOf (handleSelectQuizOption 4 1 examplePage).

Definition rejectingQuizEnv : QuizEnv :=
  mkQuizEnv (Resolved (Some [snapshotQuiz])) (Resolved (mkStats 1 1 1))
            (Rejected (Some "Quiz already answered"%string)) 121000 exampleEnv.

Definition submittedFeedback (result : SubmitResult) (selected : Z) : QuizFeedback :=
  if is_correct result
  then mkFeedback FeedbackType.SUCCESS
                  ("Answer submitted. Correct (" ++ optionLabel selected ++ ").")
  else mkFeedback FeedbackType.INFO
                  ("Answer submitted. Correct option is "
                   ++ optionLabel (default 0%Z (correct_option_index result)) ++ ".").

Definition requestsAfterSubmit (p : Page) (s : SessionData.t) (quiz : SessionQuizItem.t)
    (selected : Z) : list Action :=
  SubmitSessionQuizAnswer (SessionData.id s) (SessionQuizItem.id quiz) selected
    :: ListActiveSessionQuizzes (SessionData.id s)
    :: (if joined p then [GetMySessionQuizStats (SessionData.id s)] else []).

(** ** Further properties of the telemetry channel *)

Definition newSockets (log : list Action) : list string :=
  flat_map (fun a => match a with NewWebSocket url => [url] | _ => [] end) log.

Definition connectingSocket (p : Page) (url : string) : WebSocket :=
  mkWebSocket (nextSocket (devices p)) url ReadyState.CONNECTING true.

Definition connectingInsightsSocket : Teacher.InsightsSocket :=
  Teacher.mkInsightsSocket
    (mkWebSocket 0 "wss://classroom.example/ws/engagement/7?token=jwt"
                 ReadyState.CONNECTING true)
    TopicDifficulty.MEDIUM.

Definition connectingTeacherPage : Teacher.Page :=
  Teacher.mkPage (Some exampleTeacherSession) SocketState.CONNECTING ""
                 TopicDifficulty.MEDIUM [] 120000 (Some connectingInsightsSocket) 1.

Definition endedTeacherSession : Teacher.SessionObject :=
  Teacher.mkSessionObject 2 (SessionData.mk 7 "MATH-7" true "ENDED").

Definition closedTeacherQuiz : TeacherQuizItem.t :=
  TeacherQuizItem.mk 2 7 (Some 5%Z) "What is 1 + 1?" ["2"; "3"]%string (Some 0%Z)
                     (Some 60%Q) (Some "2026-01-01T00:00:30Z"%string) None false
                     (Some "2026-01-01T00:00:30Z"%string) 3 2.

Definition activeTeacherQuiz : TeacherQuizItem.t :=
  TeacherQuizItem.mk 3 7 (Some 5%Z) "What is 2 + 2?" ["3"; "4"]%string (Some 1%Z)
                     (Some 60%Q) (Some "2026-01-01T00:01:00Z"%string) None true None 1 1.

(** The teacher's page at 00:00:20 with one closed and one active
    checkpoint. *)
Definition quizTeacherPage : Teacher.Page :=
  Teacher.mkPage (Some exampleTeacherSession) SocketState.CONNECTED ""
                 TopicDifficulty.MEDIUM [closedTeacherQuiz; activeTeacherQuiz] 20000
                 (Some exampleInsightsSocket) 1.

(** ** Properties of the activity monitor *)

Definition eventTimes (event : ActivityEvent) : list Z :=
  match event with
  | VisibilityChange nowMs interactionNow _ => [nowMs; interactionNow]
  | WindowFocus nowMs => [nowMs]
  | WindowBlur => []
  | Interaction nowMs => [nowMs]
  end.

(** The clock readings of a run, in the order they are taken. *)
Definition clockReadings (events : list ActivityEvent) : list Z :=
  flat_map eventTimes events.

Fixpoint nondecreasingFrom (start : Z) (readings : list Z) : Prop :=
  match readings with
  | [] => True
  | t :: rest => (start <= t)%Z /\ nondecreasingFrom t rest
  end.

Definition lastReading (start : Z) (readings : list Z) : Z := List.last readings start.

(** Hidden time is accounted within the time since the join. *)
Definition hiddenWithin (joinedAt upTo : Z) (a : Activity) : Prop :=
  joinStartedAtRef a = Some joinedAt /\
  (0 <= hiddenAccumulatedRef a)%Z /\
  match hiddenStartedAtRef a with
  | None => (hiddenAccumulatedRef a <= upTo - joinedAt)%Z
  | Some startedAt =>
      (joinedAt <= startedAt <= upTo)%Z /\
      (hiddenAccumulatedRef a <= startedAt - joinedAt)%Z
  end.

(** The activity of a page right after a successful join at [joinedAt]. *)
Definition freshlyJoined (joinedAt : Z) (a : Activity) : Prop :=
  joinStartedAtRef a = Some joinedAt /\
  hiddenAccumulatedRef a = 0%Z /\
  hiddenStartedAtRef a = None.

Definition freshPage : Page :=
  mkPage (Some exampleSession) true false
         (mkDisplay TelemetryState.IDLE "" CameraState.IDLE "" SocketState.DISCONNECTED)
         (mkQuizPanel [] (mkStats 0 0 0) None ∅ None 1000)
         (mkActivity (Some 1000%Z) 1000 0 0 None true None)
         (mkDevices None None None [] 1 0).

Definition hiddenDocument : Document := mkDocument Visibility.hidden false.

Definition visibleDocument : Document := mkDocument Visibility.visible true.

Definition exampleActivityEvents : list ActivityEvent :=
  [ Interaction 1500;
    VisibilityChange 2000 2000 hiddenDocument;
    VisibilityChange 5000 5001 visibleDocument;
    WindowBlur;
    WindowFocus 6000 ].

(** The number of interactions a run of the listeners registers: every
    pointer or key event, every focus, and every return to visibility. *)
Definition registersInteraction (event : ActivityEvent) : bool :=
  match event with
  | VisibilityChange _ _ doc =>
      match visibilityState doc with
      | Visibility.visible => true
      | Visibility.hidden => false
      end
  | WindowFocus _ | Interaction _ => true
  | WindowBlur => false
  end.

Definition registeredInteractions (events : list ActivityEvent) : Z :=
  Z.of_nat (length (List.filter registersInteraction events)).

(** Whether a checkpoint id is among the active checkpoints, as
    [activeIds.has] answers. *)
Definition isActiveId (quizzes : list SessionQuizItem.t) (quizId : Z) : bool :=
  existsb (Z.eqb quizId) (List.map SessionQuizItem.id quizzes).

(** ** Joining *)

Definition isStatsRequest (a : JoinAction) : bool :=
  match a with
  | PageAction (GetMySessionQuizStats _) => true
  | _ => false
  end.

Definition joinFailureMessage (err : option string) : string :=
  match err with
  | Some message => message
  | None => "Failed to join session"%string
  end.

(** The activity cells as [handleJoin] leaves them after the server has
    accepted the join. *)
Definition activityAtJoin (env : JoinEnv) (before : Activity) : Activity :=
  mkActivity (Some (joinedAtMs env)) (firstInteractionMs env) 0 0 None true
             (answeredQuizAtRef before).

Definition lobbyPage : JoinPage :=
  mkJoinPage
    (mkPage (Some exampleSession) false false
            (mkDisplay TelemetryState.IDLE "" CameraState.IDLE "" SocketState.DISCONNECTED)
            (mkQuizPanel [] (mkStats 0 0 0) None ∅ None 1000)
            (mkActivity None 0 7 300 (Some 900%Z) false None)
            (mkDevices None None None [] 1 0))
    false.

Definition exampleJoinEnv : JoinEnv :=
  mkJoinEnv (Resolved tt) 2000 2001 (Resolved (Some [exampleQuiz]))
            (Resolved (mkStats 3 2 (2 # 3))).

(** The interaction counts the samples of a log report, added up. *)
Definition reportedInteractions (l : list Action) : Z :=
  fold_right
    (fun sent total =>
       match snd sent with
       | vision_sample signal => (interaction_events signal + total)%Z
       | subscribe_insights _ _ => total
       end)
    0%Z (sentMessages l).

(** The listener events among the events of the page. *)
Definition listenerEvents (events : list PageEvent) : list ActivityEvent :=
  flat_map (fun event => match event with
                         | Listener e => [e]
                         | TelemetryCycle _ => []
                         end) events.

(** The create requests of a log. *)
Definition createRequests (l : list Desk.Action) : list (Z * Desk.QuizCreate) :=
  flat_map (fun a => match a with
                     | Desk.CreateSessionQuiz sessionId payload => [(sessionId, payload)]
                     | _ => []
                     end) l.

(** The list requests of a log. *)
Definition listRequests (l : list Desk.Action) : list Z :=
  flat_map (fun a => match a with
                     | Desk.ListSessionQuizzes sessionId => [sessionId]
                     | _ => []
                     end) l.

Fixpoint contains (c : ascii) (s : string) : bool :=
  match s with
  | EmptyString => false
  | String d rest => Ascii.eqb d c || contains c rest
  end.

(** An option as the server should get it: not empty, nothing to trim, on
    one line. *)
Definition tidyOption (option : string) : bool :=
  Js.truthy option
  && String.eqb (JsText.trim option) option
  && negb (contains JsText.lineFeed option).

(** A create request the checks of the form should let through. *)
Definition wellFormed (payload : Desk.QuizCreate) : bool :=
  (5 <=? Z.of_nat (String.length (Desk.create_question payload)))%Z
  && String.eqb (JsText.trim (Desk.create_question payload)) (Desk.create_question payload)
  && (2 <=? Z.of_nat (length (Desk.create_options payload)))%Z
  && forallb tidyOption (Desk.create_options payload)
  && (0 <=? Desk.correct_option_index payload)%Z
  && (Desk.correct_option_index payload
        <? Z.of_nat (length (Desk.create_options payload)))%Z
  && Desk.qle 15 (Desk.duration_seconds payload)
  && Desk.qle (Desk.duration_seconds payload) 3600.

(** The request [handleCreateQuiz] builds from a form. *)
Definition draftPayload (form : Desk.QuizForm) : Desk.QuizCreate :=
  Desk.mkCreate (JsText.trim (Desk.question form)) (Desk.draftOptions form)
                (Desk.correctOptionIndex form)
                (Js.max 15 (Js.min 3600 (JsText.orElse (Desk.durationSeconds form) 60))).

(** The checks of [handleCreateQuiz] that can refuse a form. *)
Definition passesChecks (s : SessionData.t) (form : Desk.QuizForm) : bool :=
  sessionIsLive s
  && negb (Z.of_nat (String.length (JsText.trim (Desk.question form))) <? 5)%Z
  && negb (Z.of_nat (length (Desk.draftOptions form)) <? 2)%Z
  && negb ((Desk.correctOptionIndex form <? 0)%Z
           || (Z.of_nat (length (Desk.draftOptions form))
                 <=? Desk.correctOptionIndex form)%Z).

Definition refusals : list string :=
  [ "Start the session before publishing checkpoints.";
    "Question should be at least 5 characters.";
    "Please provide at least 2 options (one per line).";
    "Select a valid correct option from the list." ]%string.

Definition durationRefusal : string := "Duration should be between 15s and 3600s.".

Definition publishedNotice : Desk.QuizNotice :=
  Desk.mkNotice Desk.SUCCESS "Quiz checkpoint published successfully.".

Definition publishFailure (message : option string) : Desk.QuizNotice :=
  Desk.mkNotice Desk.ERROR (JsText.messageOr message "Failed to publish quiz checkpoint.").

(** What a reload that is not silent leaves in the list. *)
Definition reloaded (answer : Answer (option (list TeacherQuizItem.t)))
    : list TeacherQuizItem.t :=
  match answer with
  | Resolved (Some listed) => listed
  | Resolved None | Rejected _ => []
  end.

Definition createPost (sessionId : option Z) (createAnswer : Desk.Reply)
    (listAnswer : Answer (option (list TeacherQuizItem.t))) (p : Desk.Page)
    (c : Completion unit) (p1 : Desk.Page) (l : list Desk.Action) : Prop :=
  Desk.session p1 = Desk.session p /\
  match Desk.session p with
  | Some s =>
      if passesChecks s (Desk.quizForm p)
      then
        let request := Desk.CreateSessionQuiz (SessionData.id s)
                                              (draftPayload (Desk.quizForm p)) in
        match createAnswer with
        | Desk.Accepted =>
            c = Normal tt /\
            Desk.quizForm p1 = Desk.emptyForm /\
            Desk.quizNotice p1 = Some publishedNotice /\
            match sessionId with
            | Some id =>
                l = [request; Desk.ListSessionQuizzes id] /\
                Desk.quizLoading p1 = false /\
                Desk.quizzes p1 = reloaded listAnswer
            | None =>
                l = [request] /\ Desk.quizLoading p1 = Desk.quizLoading p /\
                Desk.quizzes p1 = Desk.quizzes p
            end
        | Desk.Refused (Desk.Carrying message) =>
            c = Normal tt /\
            l = [request] /\
            Desk.quizForm p1 = Desk.quizForm p /\
            Desk.quizzes p1 = Desk.quizzes p /\
            Desk.quizLoading p1 = Desk.quizLoading p /\
            Desk.quizNotice p1 = Some (publishFailure message)
        | Desk.Refused (Desk.Nullish complaint) =>
            c = Throw (Some complaint) /\
            l = [request] /\
            Desk.quizForm p1 = Desk.quizForm p /\
            Desk.quizzes p1 = Desk.quizzes p /\
            Desk.quizLoading p1 = Desk.quizLoading p /\
            Desk.quizNotice p1 = None
        end
      else
        c = Normal tt /\
        l = [] /\ Desk.quizForm p1 = Desk.quizForm p /\
        Desk.quizzes p1 = Desk.quizzes p /\
        exists text, In text refusals /\
                     Desk.quizNotice p1 = Some (Desk.mkNotice Desk.ERROR text)
  | None =>
      c = Normal tt /\
      l = [] /\ Desk.quizForm p1 = Desk.quizForm p /\
      Desk.quizzes p1 = Desk.quizzes p /\
      exists text, In text refusals /\
                   Desk.quizNotice p1 = Some (Desk.mkNotice Desk.ERROR text)
  end.

(** Text *)

Definition headTight (s : string) : bool :=
  match s with
  | EmptyString => true
  | String c _ => negb (JsText.isWhiteSpace c)
  end.

(** The session a request must name. *)
Definition namesLiveSession (p : Desk.Page) (sessionId : Z) : Prop :=
  match Desk.session p with
  | Some s => sessionIsLive s = true /\ sessionId = SessionData.id s
  | None => False
  end.

(** The form with the chosen option brought among the draft options. *)
Definition withChosenInRange (form : Desk.QuizForm) : Desk.QuizForm :=
  Desk.mkForm (Desk.question form) (Desk.optionsText form)
              (Z.min (Desk.correctOptionIndex form)
                     (Z.max 0 (Z.of_nat (length (Desk.draftOptions form)) - 1)))
              (Desk.durationSeconds form).

(** A number that is finite and lies between 0 and 1. *)
Definition isProportion (x : JsNumber.t) : Prop :=
  match x with
  | JsNumber.Finite value => (0 <= value)%Q /\ (value <= 1)%Q
  | _ => False
  end.

(** Examples *)

Definition lineBreak : string := String JsText.lineFeed EmptyString.

Definition exampleForm : Desk.QuizForm :=
  Desk.mkForm "  What is 2 + 2?  "
              ("3" ++ lineBreak ++ " 4 " ++ lineBreak ++ lineBreak ++ "5")
              1 45.

Definition exampleDesk : Desk.Page :=
  Desk.mkPage (Some exampleSession) exampleForm None [] false [11; 12; 13]%Z 1000.

Definition closedDesk : Desk.Page :=
  Desk.mkPage None exampleForm None [] false [] 1000.

Definition staleForm : Desk.QuizForm :=
  Desk.mkForm "" ("yes" ++ lineBreak ++ "no") 5 60.

Definition staleDesk : Desk.Page :=
  Desk.mkPage (Some exampleSession) staleForm None [] false [] 1000.

(** ** The countdown text *)

(** A field of digits read as a number. *)
Definition readField (field : string) : option Z :=
  option_map Z.of_uint (DecimalString.NilEmpty.uint_of_string field).

(** The whole seconds a countdown text shows: [MM:SS] or [H:MM:SS]. *)
Definition readDuration (text : string) : option Z :=
  match List.map readField (JsText.split ":" text) with
  | [Some minutes; Some secs] => Some (60 * minutes + secs)%Z
  | [Some hours; Some minutes; Some secs] =>
      Some (3600 * hours + 60 * minutes + secs)%Z
  | _ => None
  end.

(** * Properties *)

Section WpRules.
Context {S Act : Type}.
Implicit Types s : S.

Lemma wp_ret {A} (a : A) (Q : Completion A -> S -> list Act -> Prop) s :
  Q (Normal a) s [] -> wp (ret a) Q s.
Proof. intro HQ. exact HQ. Qed.

Lemma wp_returnNow {A} (Q : Completion A -> S -> list Act -> Prop) s :
  Q Return s [] -> wp returnNow Q s.
Proof. intro HQ. exact HQ. Qed.

Lemma wp_throw {A} e (Q : Completion A -> S -> list Act -> Prop) s :
  Q (Throw e) s [] -> wp (throw e) Q s.
Proof. intro HQ. exact HQ. Qed.

Lemma wp_get (Q : Completion S -> S -> list Act -> Prop) s :
  Q (Normal s) s [] -> wp get Q s.
Proof. intro HQ. exact HQ. Qed.

Lemma wp_modify f (Q : Completion unit -> S -> list Act -> Prop) s :
  Q (Normal tt) (f s) [] -> wp (modify f) Q s.
Proof. intro HQ. exact HQ. Qed.

Lemma wp_emit a (Q : Completion unit -> S -> list Act -> Prop) s :
  Q (Normal tt) s [a] -> wp (emit a) Q s.
Proof. intro HQ. exact HQ. Qed.

Lemma wp_bind {A B} (m : Prog S Act A) (k : A -> Prog S Act B) Q s :
  wp m (fun c s1 l1 =>
          match c with
          | Normal a => wp (k a) (fun c2 s2 l2 => Q c2 s2 (l1 ++ l2)) s1
          | Return => Q Return s1 l1
          | Throw e => Q (Throw e) s1 l1
          end) s ->
  wp (bind m k) Q s.
Proof.
  unfold wp, bind. destruct (m s) as [[c s1] l1]. destruct c as [a| |e]; auto.
  destruct (k a s1) as [[c2 s2] l2]. auto.
Qed.

Lemma wp_tryCatch {A} (body : Prog S Act A) handler Q s :
  wp body (fun c s1 l1 =>
             match c with
             | Throw e => wp (handler e) (fun c2 s2 l2 => Q c2 s2 (l1 ++ l2)) s1
             | other => Q other s1 l1
             end) s ->
  wp (tryCatch body handler) Q s.
Proof.
  unfold wp, tryCatch. destruct (body s) as [[c s1] l1]. destruct c as [a| |e]; auto.
  destruct (handler e s1) as [[c2 s2] l2]. auto.
Qed.

Lemma wp_tryFinally {A} (body : Prog S Act A) fin Q s :
  wp body (fun c s1 l1 =>
             wp fin (fun c2 s2 l2 =>
                       match c2 with
                       | Normal _ => Q c s2 (l1 ++ l2)
                       | Return => Q Return s2 (l1 ++ l2)
                       | Throw e => Q (Throw e) s2 (l1 ++ l2)
                       end) s1) s ->
  wp (tryFinally body fin) Q s.
Proof.
  unfold wp, tryFinally. destruct (body s) as [[c s1] l1].
  destruct (fin s1) as [[c2 s2] l2]. destruct c2; auto.
Qed.

Lemma wp_call (body : Prog S Act unit) Q s :
  wp body (fun c s1 l1 =>
             match c with
             | Return => Q (Normal tt) s1 l1
             | other => Q other s1 l1
             end) s ->
  wp (call body) Q s.
Proof.
  unfold wp, call. destruct (body s) as [[c s1] l1]. destruct c; auto.
Qed.

Lemma wp_mono {A} (m : Prog S Act A) (Q Q' : Completion A -> S -> list Act -> Prop) s :
  wp m Q s -> (forall c s1 l, Q c s1 l -> Q' c s1 l) -> wp m Q' s.
Proof. unfold wp. destruct (m s) as [[c s1] l]. auto. Qed.

Lemma wp_run {A} (m : Prog S Act A) Q s :
  wp m Q s -> Q (completionOf (m s)) (stateOf (m s)) (logOf (m s)).
Proof. unfold wp, completionOf, stateOf, logOf. destruct (m s) as [[c s1] l]. auto. Qed.
End WpRules.

Lemma forEach_emit_run {S Act X} (a : Act) (items : list X) (s : S) :
  forEach (fun _ : X => emit a) items s = (Normal tt, s, List.map (fun _ => a) items).
Proof.
  induction items as [|x rest IH]; [reflexivity|].
  cbn [forEach]. unfold bind at 1. cbn [emit]. rewrite IH. reflexivity.
Qed.

Lemma wp_forEach_emit {S Act X} (a : Act) (items : list X) Q (s : S) :
  Q (Normal tt) s (List.map (fun _ => a) items) ->
  wp (forEach (fun _ : X => emit a) items) Q s.
Proof. unfold wp. rewrite forEach_emit_run. auto. Qed.

Arguments wp : simpl never.

Ltac head_of t :=
  lazymatch t with
  | ?f _ => head_of f
  | _ => t
  end.

Ltac wp_step :=
  lazymatch goal with
  | |- wp (bind _ _) _ _ => apply wp_bind
  | |- wp (call _) _ _ => apply wp_call
  | |- wp (tryCatch _ _) _ _ => apply wp_tryCatch
  | |- wp (tryFinally _ _) _ _ => apply wp_tryFinally
  | |- wp (forEach (fun _ => emit _) _) _ _ => apply wp_forEach_emit
  | |- wp get _ _ => apply wp_get
  | |- wp (modify _) _ _ => apply wp_modify
  | |- wp (emit _) _ _ => apply wp_emit
  | |- wp (ret _) _ _ => apply wp_ret
  | |- wp returnNow _ _ => apply wp_returnNow
  | |- wp (throw _) _ _ => apply wp_throw
  | |- wp (match ?x with _ => _ end) _ _ =>
      first [ progress (repeat match goal with
                               | H : ?lhs = _ |- wp (match ?y with _ => _ end) _ _ =>
                                   match y with context [lhs] => rewrite H end
                               end)
            | destruct x eqn:? ]
  | |- wp ?m _ _ => let h := head_of m in unfold h
  end.

Ltac page_simpl :=
  cbn beta iota zeta delta
    [fst snd app option_map
     session joined showMeeting display quizPanel activity devices
     withDisplay withQuizPanel withActivity withDevices
     telemetryState telemetryMessage cameraState cameraMessage socketState
     activeQuizzes quizStats answeringQuizId selectedQuizOptions quizFeedback quizClock
     joinStartedAtRef lastInteractionRef interactionCountRef hiddenAccumulatedRef
     hiddenStartedAtRef focusedRef answeredQuizAtRef
     cameraStreamRef cameraRecoveryTimerRef engagementWsRef pendingTimers nextTimer nextSocket
     wsId socketUrl readyState hooked getVideoTracks trackReadyState onended onmute onunmute].

Ltac page_simpl_all :=
  cbn beta iota zeta delta
    [fst snd app option_map
     session joined showMeeting display quizPanel activity devices
     withDisplay withQuizPanel withActivity withDevices
     telemetryState telemetryMessage cameraState cameraMessage socketState
     activeQuizzes quizStats answeringQuizId selectedQuizOptions quizFeedback quizClock
     joinStartedAtRef lastInteractionRef interactionCountRef hiddenAccumulatedRef
     hiddenStartedAtRef focusedRef answeredQuizAtRef
     cameraStreamRef cameraRecoveryTimerRef engagementWsRef pendingTimers nextTimer nextSocket
     wsId socketUrl readyState hooked getVideoTracks trackReadyState onended onmute onunmute] in *.

Ltac wp_go := repeat (first [ progress page_simpl | wp_step ]).

Lemma cameraFrame_refl p : cameraFrame p p.
Proof. repeat split. Qed.

Lemma cameraFrame_trans p p1 p2 : cameraFrame p p1 -> cameraFrame p1 p2 -> cameraFrame p p2.
Proof. unfold cameraFrame. intuition congruence. Qed.

Lemma Forall_map_const {X} (P : Action -> Prop) a (items : list X) :
  P a -> Forall P (List.map (fun _ => a) items).
Proof. intro Ha. induction items; constructor; auto. Qed.

Lemma stopCamera_spec p :
  wp stopCamera (fun c p1 l => c = Normal tt /\ cameraFrame p p1 /\ Forall cameraAction l /\ cameraStreamRef (devices p1) = None /\ cameraRecoveryTimerRef (devices p1) = None) p.
Proof.
  wp_go.
  all: repeat split; auto; try (rewrite ?app_nil_r; repeat constructor; apply Forall_map_const; exact I).
Qed.

Ltac use_spec lem :=
  eapply wp_mono; [ apply lem | cbn beta; intros ? ? ? [-> ?] ].

Ltac split_hyps :=
  repeat match goal with
         | H : _ /\ _ |- _ => destruct H
         end.

Ltac log_solve :=
  rewrite ?app_nil_r;
  repeat first [ assumption
               | exact I
               | apply List.Forall_nil
               | apply List.Forall_cons; [exact I|]
               | apply Forall_map_const; exact I
               | apply Forall_app; split ].

Ltac frame_solve :=
  unfold cameraFrame in *; split_hyps; page_simpl_all;
  repeat match goal with
         | |- _ /\ _ => split
         end;
  first [ reflexivity | congruence | log_solve ].

Lemma startCamera_spec media p :
  wp (startCamera media)
     (fun c p1 l => c = Normal tt /\ cameraFrame p p1 /\ Forall cameraAction l) p.
Proof.
  unfold startCamera.
  repeat (first [ progress page_simpl
                | lazymatch goal with
                  | |- wp stopCamera _ _ => use_spec stopCamera_spec
                  end
                | wp_step ]).
  all: frame_solve.
Qed.

Lemma sentMessages_app l1 l2 : sentMessages (l1 ++ l2) = sentMessages l1 ++ sentMessages l2.
Proof.
  induction l1 as [|a l1 IH]; [reflexivity|].
  destruct a; cbn; rewrite ?IH; reflexivity.
Qed.

Lemma sentMessages_camera l : Forall cameraAction l -> sentMessages l = [].
Proof.
  induction 1 as [|a l Ha _ IH]; [reflexivity|].
  destruct a; cbn in *; try contradiction; exact IH.
Qed.

Lemma connectEngagementSocket_quiet getUrl throws p :
  wp (connectEngagementSocket getUrl throws)
     (fun c p1 l => c = Normal tt /\ activity p1 = activity p /\ sentMessages l = []) p.
Proof.
  unfold connectEngagementSocket, newWebSocket.
  wp_go.
  all: repeat split; reflexivity.
Qed.

Ltac wp_cycle :=
  repeat (first [ progress page_simpl
                | lazymatch goal with
                  | |- wp (startCamera _) _ _ =>
                      use_spec startCamera_spec; unfold cameraFrame in *; split_hyps
                  | |- wp (connectEngagementSocket _ _) _ _ =>
                      use_spec connectEngagementSocket_quiet; split_hyps
                  end
                | wp_step ]).

Ltac rewrite_hyps :=
  repeat match goal with
         | H : ?lhs = _ |- context [?lhs] => rewrite H
         end.

Ltac bool_hyps :=
  repeat match goal with
         | H : _ || _ = false |- _ => apply orb_false_elim in H; destruct H
         | H : negb _ = false |- _ => apply negb_false_iff in H
         | H : negb _ = true |- _ => apply negb_true_iff in H
         | H : _ && _ = true |- _ => apply andb_true_iff in H; destruct H
         | H : _ || _ = true |- _ => apply orb_true_iff in H; destruct H
         end.

Ltac sent_solve :=
  rewrite ?sentMessages_app;
  repeat match goal with
         | H : Forall cameraAction ?l |- context [sentMessages ?l] =>
             rewrite (sentMessages_camera l H)
         | H : sentMessages ?l = [] |- context [sentMessages ?l] => rewrite H
         end;
  cbn [sentMessages app].

Ltac cycle_close :=
  split; [reflexivity|];
  first [ split; [sent_solve; reflexivity | first [reflexivity | congruence]]
        | eexists _, _; split; [reflexivity|]; split; [reflexivity|];
          split; [sent_solve; reflexivity | reflexivity] ].

Ltac cycle_leaf :=
  unfold cyclePost, transmits, sessionJoinedLive, socketIsOpen, frameCaptured,
         cycleSignal, activityAtCycle;
  page_simpl_all; bool_hyps;
  rewrite_hyps;
  cbn [andb negb orb];
  rewrite ?andb_false_r;
  cbn [andb negb orb];
  page_simpl;
  cycle_close.

Lemma sendTelemetrySignal_spec getUrl env p :
  wp (sendTelemetrySignal getUrl env) (cyclePost env p) p.
Proof.
  unfold sendTelemetrySignal, captureVisionFrame, socketSend.
  wp_cycle.
  all: cycle_leaf.
Qed.

(** Numeric facts *)

Lemma clamp_range v : (0 <= clamp v)%Q /\ (clamp v <= 1)%Q.
Proof.
  unfold clamp, clampBetween, Js.max, Js.min. split.
  - apply Q.le_max_l.
  - apply Q.max_lub; [discriminate | apply Q.le_min_l].
Qed.

Lemma clamp_lower b v : (b <= 1)%Q -> (b <= v)%Q -> (b <= clamp v)%Q.
Proof.
  intros Hb Hv. unfold clamp, clampBetween, Js.max, Js.min.
  apply Qle_trans with (Qmin 1 v); [apply Q.min_glb; assumption | apply Q.le_max_r].
Qed.

Lemma clamp_upper b v : (0 <= b)%Q -> (v <= b)%Q -> (clamp v <= b)%Q.
Proof.
  intros Hb Hv. unfold clamp, clampBetween, Js.max, Js.min.
  apply Q.max_lub; [exact Hb|].
  apply Qle_trans with v; [apply Q.le_min_r | exact Hv].
Qed.

Lemma Qfloor_half z : Qfloor (inject_Z z + (1 # 2)) = z.
Proof.
  unfold Qfloor, inject_Z, Qplus. cbn [Qnum Qden].
  symmetry. apply Z.div_unique with (r := 1%Z); lia.
Qed.

Lemma roundHalfUp_grid n digits :
  Js.roundHalfUp (Qmake n (Js.scale digits)) digits = Qmake n (Js.scale digits).
Proof.
  unfold Js.roundHalfUp. f_equal.
  transitivity (Qfloor (inject_Z n + (1 # 2))); [|apply Qfloor_half].
  apply Qfloor_comp. apply Qplus_comp; [|reflexivity].
  unfold Qeq, Qmult, inject_Z. cbn [Qnum Qden]. lia.
Qed.

Lemma roundHalfUp_mono x y digits :
  (x <= y)%Q -> (Js.roundHalfUp x digits <= Js.roundHalfUp y digits)%Q.
Proof.
  intro Hxy. unfold Js.roundHalfUp, Qle. cbn [Qnum Qden].
  apply Z.mul_le_mono_nonneg_r; [lia|].
  apply Qfloor_resp_le. apply Qplus_le_l. apply Qmult_le_compat_r; [exact Hxy|].
  unfold Qle. cbn. lia.
Qed.

Lemma toFixed_nonneg x digits :
  (0 <= x)%Q -> Js.toFixed x digits = Js.roundHalfUp x digits.
Proof.
  intro Hx. unfold Js.toFixed. destruct (Qlt_le_dec x 0) as [Hlt|_]; [|reflexivity].
  exfalso. exact (Qlt_not_le _ _ Hlt Hx).
Qed.

(** A rounded value stays on the side of a grid point where the value was. *)
Lemma toFixed_above_grid n digits x :
  (0 <= x)%Q -> (Qmake n (Js.scale digits) <= x)%Q ->
  (Qmake n (Js.scale digits) <= Js.toFixed x digits)%Q.
Proof.
  intros H0 Hx. rewrite toFixed_nonneg by exact H0.
  eapply Qle_trans; [|apply roundHalfUp_mono, Hx].
  rewrite roundHalfUp_grid. apply Qle_refl.
Qed.

Lemma toFixed_below_grid n digits x :
  (0 <= x)%Q -> (x <= Qmake n (Js.scale digits))%Q ->
  (Js.toFixed x digits <= Qmake n (Js.scale digits))%Q.
Proof.
  intros H0 Hx. rewrite toFixed_nonneg by exact H0.
  eapply Qle_trans; [apply roundHalfUp_mono, Hx|].
  rewrite roundHalfUp_grid. apply Qle_refl.
Qed.

Lemma toFixed3_unit x :
  (0 <= x)%Q -> (x <= 1)%Q ->
  (0 <= Js.toFixed x 3)%Q /\ (Js.toFixed x 3 <= 1)%Q.
Proof.
  intros H0 H1. split.
  - apply Qle_trans with (Qmake 0 (Js.scale 3)); [discriminate|].
    apply toFixed_above_grid; [exact H0|].
    apply Qle_trans with 0%Q; [discriminate | exact H0].
  - apply Qle_trans with (Qmake 1000 (Js.scale 3)); [|discriminate].
    apply toFixed_below_grid; [exact H0|].
    apply Qle_trans with 1%Q; [exact H1 | discriminate].
Qed.

Lemma toFixed3_clamp v :
  (0 <= Js.toFixed (clamp v) 3)%Q /\ (Js.toFixed (clamp v) 3 <= 1)%Q.
Proof. apply toFixed3_unit; apply clamp_range. Qed.

Lemma In_sentMessages ws m l :
  In (SocketSend ws m) l <-> In (ws, m) (sentMessages l).
Proof.
  induction l as [|a l IH]; [reflexivity|].
  destruct a; cbn [sentMessages In]; rewrite <- ?IH;
    (split; [intros [H|H]; [discriminate H || (inversion H; subst; auto) | auto]
            | try (intros [H|H]; [inversion H; subst; auto | auto]); auto]).
Qed.

Lemma sent_signal_is_composed getUrl env p ws signal :
  In (SocketSend ws (vision_sample signal)) (logOf (sendTelemetrySignal getUrl env p)) ->
  exists img, signal = cycleSignal env p img.
Proof.
  intro Hin. apply In_sentMessages in Hin.
  pose proof (wp_run _ _ _ (sendTelemetrySignal_spec getUrl env p)) as Hspec.
  destruct Hspec as [_ Hspec].
  destruct (transmits env p).
  - destruct Hspec as (w & img & _ & _ & Hlog & _).
    rewrite Hlog in Hin. destruct Hin as [Heq|[]].
    exists img. congruence.
  - destruct Hspec as [Hlog _]. rewrite Hlog in Hin. contradiction.
Qed.

(** Claim C1.  Whatever the activity counters, the focus and visibility
    flags, the hidden time, the quiz recency and the meeting flag are, every
    [vision_sample] that a compose cycle sends carries a participation, an
    attendance consistency and a movement intensity between 0 and 1. *)
Theorem composed_signal_within_unit_interval :
  forall (getEngagementWebSocketUrl : Z -> string) (env : CycleEnv) (p : Page)
         (socket : nat) (signal : TelemetrySignal),
    In (SocketSend socket (vision_sample signal))
       (logOf (sendTelemetrySignal getEngagementWebSocketUrl env p)) ->
    ((0 <= participation signal)%Q /\ (participation signal <= 1)%Q) /\
    ((0 <= attendance_consistency signal)%Q /\ (attendance_consistency signal <= 1)%Q) /\
    ((0 <= movement_intensity signal)%Q /\ (movement_intensity signal <= 1)%Q).
Proof.
  intros getUrl env p socket signal Hin.
  destruct (sent_signal_is_composed _ _ _ _ _ Hin) as [img ->].
  unfold cycleSignal, composeSignal. cbn [participation attendance_consistency movement_intensity].
  unfold participationEstimate, attendanceConsistency, movementIntensity.
  repeat split; apply toFixed3_clamp.
Qed.

(** Claim C10.  The attendance consistency of every transmitted signal is at
    least 0.55, and it is exactly 0.55 when the visible ratio is 0: the blend
    is [0.55 + 0.45 * visibleRatio]. *)
Theorem attendance_consistency_floor :
  forall (getEngagementWebSocketUrl : Z -> string) (env : CycleEnv) (p : Page)
         (socket : nat) (signal : TelemetrySignal),
    In (SocketSend socket (vision_sample signal))
       (logOf (sendTelemetrySignal getEngagementWebSocketUrl env p)) ->
    (0.55 <= attendance_consistency signal)%Q /\
    (visibleRatio (activityAtCycle env (activity p)) (now env) == 0 ->
     attendance_consistency signal == 0.55)%Q.
Proof.
  intros getUrl env p socket signal Hin.
  destruct (sent_signal_is_composed _ _ _ _ _ Hin) as [img ->].
  unfold cycleSignal, composeSignal. cbn [attendance_consistency].
  unfold attendanceConsistency.
  set (ratio := visibleRatio (activityAtCycle env (activity p)) (now env)).
  assert (Hratio : (0 <= ratio)%Q) by apply clamp_range.
  assert (Hblend : (0.55 <= 0.55 + ratio * 0.45)%Q).
  { rewrite <- (Qplus_0_r 0.55) at 1. apply Qplus_le_r.
    apply Qmult_le_0_compat; [exact Hratio | discriminate]. }
  split.
  - apply Qle_trans with (Qmake 550 (Js.scale 3)); [discriminate|].
    apply toFixed_above_grid; [apply clamp_range|].
    apply Qle_trans with 0.55%Q; [discriminate|].
    apply clamp_lower; [discriminate | exact Hblend].
  - intro Hzero.
    assert (Hle : (0.55 + ratio * 0.45 <= 0.55)%Q).
    { rewrite Hzero. discriminate. }
    apply Qle_antisym.
    + apply Qle_trans with (Qmake 550 (Js.scale 3)); [|discriminate].
      apply toFixed_below_grid; [apply clamp_range|].
      apply Qle_trans with 0.55%Q; [|discriminate].
      apply clamp_upper; [discriminate | exact Hle].
    + apply Qle_trans with (Qmake 550 (Js.scale 3)); [discriminate|].
      apply toFixed_above_grid; [apply clamp_range|].
      apply Qle_trans with 0.55%Q; [discriminate|].
      apply clamp_lower; [discriminate | exact Hblend].
Qed.

Lemma cycleFails_not_transmits env p : cycleFails env p -> transmits env p = false.
Proof.
  unfold cycleFails, transmits, frameCaptured.
  intros [H|[[H1 H2]|[H|[err H]]]].
  - rewrite H, andb_false_r. reflexivity.
  - rewrite H1, H2, andb_false_r. reflexivity.
  - rewrite H, andb_false_r. reflexivity.
  - rewrite H, andb_false_r. reflexivity.
Qed.

(** Claim C8.  A compose cycle sets the interaction counter to zero when it
    sends the [vision_sample], and leaves it as it was otherwise; a socket
    that is not open, two capture failures, an encoding failure and an
    exception of the send are cycles that send nothing.  A transmission is
    a call of [socket.send] that returns. *)
Theorem counter_reset_iff_transmitted :
  forall (getEngagementWebSocketUrl : Z -> string) (env : CycleEnv) (p : Page),
    let out := sendTelemetrySignal getEngagementWebSocketUrl env p in
    let before := interactionCountRef (activity p) in
    let after := interactionCountRef (activity (stateOf out)) in
    (sentMessages (logOf out) <> [] -> after = 0%Z) /\
    (sentMessages (logOf out) = [] -> after = before) /\
    (transmits env p = true -> length (sentMessages (logOf out)) = 1%nat) /\
    (cycleFails env p -> sentMessages (logOf out) = [] /\ after = before).
Proof.
  intros getUrl env p out before after.
  pose proof (wp_run _ _ _ (sendTelemetrySignal_spec getUrl env p)) as Hspec.
  fold out in Hspec. destruct Hspec as [_ Hspec].
  destruct (transmits env p) eqn:Htx.
  - destruct Hspec as (ws & img & _ & _ & Hlog & Hcount).
    repeat split.
    + intros _. exact Hcount.
    + intro Hnil. rewrite Hlog in Hnil. discriminate Hnil.
    + intros _. rewrite Hlog. reflexivity.
    + apply cycleFails_not_transmits in H. congruence.
    + apply cycleFails_not_transmits in H. congruence.
  - destruct Hspec as [Hlog Hcount].
    repeat split; auto.
    + intro Hsent. contradiction.
    + intro Habs. discriminate Habs.
Qed.

Lemma map_const_repeat {X Y} (y : Y) (l : list X) :
  List.map (fun _ => y) l = repeat y (length l).
Proof. induction l as [|x l IH]; cbn; [reflexivity | rewrite IH; reflexivity]. Qed.

Lemma filter_after_append t ts :
  existsb (Pos.eqb t) (List.filter (fun x => negb (Pos.eqb x t)) ts) = false.
Proof.
  induction ts as [|x ts IH]; [reflexivity|].
  cbn [List.filter]. destruct (Pos.eqb x t) eqn:E; cbn [negb]; [exact IH|].
  cbn [existsb]. rewrite IH, Pos.eqb_sym, E. reflexivity.
Qed.


Lemma first_ended_spec p :
  cameraRecoveryTimerRef (devices p) = None ->
  endedHandlerAttached p = true ->
  wp (cameraStep TrackEnded)
     (fun c p1 l =>
        c = Normal tt /\
        l = [SetTimeout (nextTimer (devices p)) 1200] /\
        cameraRecoveryTimerRef (devices p1) = Some (nextTimer (devices p)) /\
        pendingTimers (devices p1) = pendingTimers (devices p) ++ [nextTimer (devices p)] /\
        length (heldTracks p1) = length (heldTracks p)) p.
Proof.
  intros Hidle Hhook. unfold cameraStep, videoTrackOnended, setTimeout, heldTracks.
  wp_go; try congruence.
  all: repeat split; try reflexivity.
  all: destruct (cameraStreamRef (devices p)) as [[[|t ts]]|]; reflexivity.
Qed.







Lemma installHandlers_live stream :
  existsb trackIsLive (getVideoTracks (installHandlers stream))
    = existsb trackIsLive (getVideoTracks stream).
Proof. destruct stream as [[|track others]]; reflexivity. Qed.








(** Claim C3.  With a loaded session, an answer to a checkpoint whose
    remaining time is known and not positive is rejected with the time-over
    feedback, the active checkpoints are fetched again, and that request is
    the only one: nothing is submitted, and the selection is kept. *)
Theorem expired_answer_rejected_locally :
  forall (getEngagementWebSocketUrl : Z -> string) (dateParse : string -> option Z)
         (env : QuizEnv) (quiz : SessionQuizItem.t) (p : Page)
         (s : SessionData.t) (r : Q),
    session p = Some s ->
    quizRemainingSeconds dateParse quiz (quizClock (quizPanel p)) = Some r ->
    (r <= 0)%Q ->
    let out := handleQuizAnswer getEngagementWebSocketUrl dateParse env quiz p in
    quizFeedback (quizPanel (stateOf out)) = Some timeOverFeedback /\
    logOf out = [ListActiveSessionQuizzes (SessionData.id s)] /\
    existsb isSubmit (logOf out) = false /\
    activeQuizzes (quizPanel (stateOf out)) = answeredQuizzes (activeAnswer env) /\
    selectedQuizOptions (quizPanel (stateOf out)) = selectedQuizOptions (quizPanel p) /\
    answeredQuizAtRef (activity (stateOf out)) = answeredQuizAtRef (activity p).
Proof.
  intros getUrl dateParse env quiz p s r Hs Hr Hle out.
  apply (wp_run (handleQuizAnswer getUrl dateParse env quiz)
                (fun _ p1 l =>
                   quizFeedback (quizPanel p1) = Some timeOverFeedback /\
                   l = [ListActiveSessionQuizzes (SessionData.id s)] /\
                   existsb isSubmit l = false /\
                   activeQuizzes (quizPanel p1) = answeredQuizzes (activeAnswer env) /\
                   selectedQuizOptions (quizPanel p1) = selectedQuizOptions (quizPanel p) /\
                   answeredQuizAtRef (activity p1) = answeredQuizAtRef (activity p))).
  apply Qle_bool_iff in Hle.
  unfold handleQuizAnswer, loadActiveQuizzes.
  apply wp_call, wp_bind, wp_get. rewrite Hs, Hr. cbn beta iota. rewrite Hle.
  wp_go; try congruence.
  all: repeat match goal with H : activeAnswer _ = _ |- _ => rewrite H; clear H end.
  all: repeat split; reflexivity.
Qed.

Lemma truthy_nonempty s : s <> EmptyString -> Js.truthy s = true.
Proof.
  intro Hs. unfold Js.truthy. destruct (String.eqb_spec s EmptyString); [contradiction|reflexivity].
Qed.

Lemma noUsableExpiry_snapshot {A} `{QuizTimed A} dateParse (quiz : A) nowMs :
  noUsableExpiry dateParse quiz ->
  quizRemainingSeconds dateParse quiz nowMs = snapshotRemaining quiz.
Proof.
  unfold noUsableExpiry, quizRemainingSeconds.
  intros [Hn|[He|(s & Hs & Hp)]].
  - rewrite Hn. reflexivity.
  - rewrite He. reflexivity.
  - rewrite Hs, Hp. destruct (Js.truthy s); reflexivity.
Qed.

(** Claim C4.  The remaining time comes from the expiry timestamp whenever
    that is present, not empty and a date; from the server's snapshot when
    there is no usable timestamp; it is unknown when there is neither.  One
    of the two cases always applies.  The statement holds for the quiz items
    of both pages. *)
Theorem quizRemainingSeconds_prefers_expiry :
  forall (dateParse : string -> option Z) (A : Type) (T : QuizTimed A)
         (quiz : A) (nowMs : Z),
    (forall s expiresAtMs,
        expires_at quiz = Some s -> s <> EmptyString ->
        dateParse s = Some expiresAtMs ->
        quizRemainingSeconds dateParse quiz nowMs = Some (fromExpiry expiresAtMs nowMs)) /\
    (forall r,
        noUsableExpiry dateParse quiz -> remaining_seconds quiz = Some r ->
        quizRemainingSeconds dateParse quiz nowMs = Some (Js.max r 0)) /\
    (noUsableExpiry dateParse quiz -> remaining_seconds quiz = None ->
     quizRemainingSeconds dateParse quiz nowMs = None) /\
    ((exists s expiresAtMs,
         expires_at quiz = Some s /\ s <> EmptyString /\
         dateParse s = Some expiresAtMs) \/
     noUsableExpiry dateParse quiz).
Proof.
  intros dateParse A T quiz nowMs. repeat split.
  - intros s expiresAtMs Hs Hne Hp. unfold quizRemainingSeconds.
    rewrite Hs, (truthy_nonempty s Hne), Hp. reflexivity.
  - intros r Hno Hr. rewrite (noUsableExpiry_snapshot _ _ _ Hno).
    unfold snapshotRemaining. rewrite Hr. reflexivity.
  - intros Hno Hr. rewrite (noUsableExpiry_snapshot _ _ _ Hno).
    unfold snapshotRemaining. rewrite Hr. reflexivity.
  - unfold noUsableExpiry.
    destruct (expires_at quiz) as [s|] eqn:Hs; [|right; left; reflexivity].
    destruct (String.eqb_spec s EmptyString) as [->|Hne]; [right; right; left; reflexivity|].
    destruct (dateParse s) as [ms|] eqn:Hp.
    + left. exists s, ms. repeat split; assumption.
    + right. right. right. exists s. split; [reflexivity | exact Hp].
Qed.

Lemma quizRemainingSeconds_antitone {A} `{QuizTimed A} dateParse (quiz : A) now1 now2 :
  (now1 <= now2)%Z ->
  leOption (quizRemainingSeconds dateParse quiz now2)
           (quizRemainingSeconds dateParse quiz now1).
Proof.
  intro Hle. unfold quizRemainingSeconds, snapshotRemaining.
  assert (Hsnap : leOption match remaining_seconds quiz with
                           | Some r => Some (Js.max r 0)
                           | None => None
                           end
                           match remaining_seconds quiz with
                           | Some r => Some (Js.max r 0)
                           | None => None
                           end).
  { destruct (remaining_seconds quiz); cbn; [apply Qle_refl | exact I]. }
  destruct (expires_at quiz) as [s|]; [|exact Hsnap].
  destruct (Js.truthy s); [|exact Hsnap].
  destruct (dateParse s) as [ms|]; [|exact Hsnap].
  cbn. rewrite <- Zle_Qle.
  apply Z.max_le_compat_r. apply Z.div_le_mono; lia.
Qed.

(** Claim C5.  When the quiz clock moves to a later reading and no data
    arrived, the countdown of every tracked checkpoint does not grow; when
    the server's list arrives, the countdowns are those computed from the
    new items alone. *)
Theorem countdown_monotone_between_ticks_and_reset_by_data :
  forall (dateParse : string -> option Z) (p : Page) (s : SessionData.t)
         (nowMs : Z) (quizzes : list SessionQuizItem.t),
    session p = Some s ->
    (quizClock (quizPanel p) <= nowMs)%Z ->
    let ticked := stateOf (quizClockTick nowMs p) in
    let refreshed := stateOf (loadActiveQuizzes (Resolved (Some quizzes)) p) in
    Forall2 (fun after before => fst after = fst before /\ leOption (snd after) (snd before))
            (renderedCountdown dateParse ticked) (renderedCountdown dateParse p) /\
    renderedCountdown dateParse refreshed =
      List.map (fun quiz =>
                  (SessionQuizItem.id quiz,
                   quizRemainingSeconds dateParse quiz (quizClock (quizPanel p))))
               quizzes.
Proof.
  intros dateParse p s nowMs quizzes Hs Hle ticked refreshed. split.
  - unfold ticked, renderedCountdown, quizClockTick, setQuizClock, modify, stateOf.
    page_simpl.
    induction (activeQuizzes (quizPanel p)) as [|quiz rest IH]; cbn [List.map].
    + constructor.
    + constructor; [|exact IH]. cbn [fst snd]. split; [reflexivity|].
      apply quizRemainingSeconds_antitone. exact Hle.
  - unfold refreshed.
    apply (wp_run (loadActiveQuizzes (Resolved (Some quizzes)))
                  (fun _ p1 _ =>
                     renderedCountdown dateParse p1 =
                     List.map (fun quiz =>
                                 (SessionQuizItem.id quiz,
                                  quizRemainingSeconds dateParse quiz (quizClock (quizPanel p))))
                              quizzes)).
    unfold loadActiveQuizzes. apply wp_call, wp_bind, wp_get. rewrite Hs.
    wp_go. all: reflexivity.
Qed.

Ltac teacher_simpl :=
  cbn beta iota zeta delta
    [fst snd app option_map
     Teacher.session Teacher.engagementSocketState Teacher.insightsError
     Teacher.topicDifficulty Teacher.quizzes Teacher.quizClock Teacher.engagementWsRef
     Teacher.nextSocket Teacher.socket Teacher.closedOverTopic Teacher.ref Teacher.data
     Teacher.localHour Teacher.socketThrows
     wsId socketUrl readyState hooked].

Ltac twp_go := repeat (first [ progress teacher_simpl | wp_step ]).

(** Claim C6.  On both pages, when the socket URL of the session has no
    ["token="], [connectEngagementSocket] constructs no socket and keeps the
    handle; when its guards let the call through (live session, joined on
    the student page, no open or connecting handle) it sets the socket state
    to ERROR with the missing-token message and does nothing else. *)
Theorem connect_refuses_without_token :
  forall (getEngagementWebSocketUrl : Z -> string) (throws : option JsError),
    (forall (p : Page) (s : SessionData.t),
        session p = Some s ->
        Js.includes (getEngagementWebSocketUrl (SessionData.id s)) "token=" = false ->
        let out := connectEngagementSocket getEngagementWebSocketUrl throws p in
        existsb isNewWebSocket (logOf out) = false /\
        engagementWsRef (devices (stateOf out)) = engagementWsRef (devices p) /\
        (studentConnectProceeds p ->
         socketState (display (stateOf out)) = SocketState.ERROR /\
         telemetryState (display (stateOf out)) = TelemetryState.ERROR /\
         telemetryMessage (display (stateOf out)) =
           "Missing auth token for engagement socket"%string /\
         logOf out = [])) /\
    (forall (topic : TopicDifficulty.t) (p : Teacher.Page) (s : Teacher.SessionObject),
        Teacher.session p = Some s ->
        Js.includes (getEngagementWebSocketUrl (SessionData.id (Teacher.data s))) "token="
          = false ->
        let out := Teacher.connectEngagementSocket getEngagementWebSocketUrl topic throws p in
        existsb isNewWebSocket (logOf out) = false /\
        Teacher.engagementWsRef (stateOf out) = Teacher.engagementWsRef p /\
        (teacherConnectProceeds p ->
         Teacher.engagementSocketState (stateOf out) = SocketState.ERROR /\
         Teacher.insightsError (stateOf out) =
           "Missing auth token for live engagement socket"%string /\
         logOf out = [])).
Proof.
  intros getUrl throws. split.
  - intros p s Hs Htoken out.
    apply (wp_run (connectEngagementSocket getUrl throws)
                  (fun _ p1 l =>
                     existsb isNewWebSocket l = false /\
                     engagementWsRef (devices p1) = engagementWsRef (devices p) /\
                     (studentConnectProceeds p ->
                      socketState (display p1) = SocketState.ERROR /\
                      telemetryState (display p1) = TelemetryState.ERROR /\
                      telemetryMessage (display p1) =
                        "Missing auth token for engagement socket"%string /\
                      l = []))).
    unfold connectEngagementSocket. apply wp_call, wp_bind, wp_get.
    rewrite Hs. cbn beta iota. rewrite Htoken.
    wp_go; try discriminate.
    all: unfold studentConnectProceeds, sessionJoinedLive; rewrite Hs.
    all: (split; [reflexivity|]); (split; [first [reflexivity | congruence]|]).
    all: intros [Hlive Hhandle];
      repeat match goal with
             | H : ?lhs = _ |- _ =>
                 tryif constr_eq H Hhandle then fail
                 else match type of Hhandle with context [lhs] => rewrite H in Hhandle end
             end;
      bool_hyps; try congruence.
    all: rewrite_hyps; repeat split; try reflexivity; try congruence.
  - intros topic p s Hs Htoken out.
    apply (wp_run (Teacher.connectEngagementSocket getUrl topic throws)
                  (fun _ p1 l =>
                     existsb isNewWebSocket l = false /\
                     Teacher.engagementWsRef p1 = Teacher.engagementWsRef p /\
                     (teacherConnectProceeds p ->
                      Teacher.engagementSocketState p1 = SocketState.ERROR /\
                      Teacher.insightsError p1 =
                        "Missing auth token for live engagement socket"%string /\
                      l = []))).
    unfold Teacher.connectEngagementSocket. apply wp_call, wp_bind, wp_get.
    rewrite Hs. cbn beta iota. rewrite Htoken.
    twp_go; try discriminate.
    all: unfold teacherConnectProceeds; rewrite Hs.
    all: (split; [reflexivity|]); (split; [first [reflexivity | congruence]|]).
    all: intros [Hlive Hhandle];
      repeat match goal with
             | H : ?lhs = _ |- _ =>
                 tryif constr_eq H Hhandle then fail
                 else match type of Hhandle with context [lhs] => rewrite H in Hhandle end
             end;
      bool_hyps; try congruence.
    all: rewrite_hyps; repeat split; try reflexivity; try congruence.
Qed.

(** Claim C7.  On both pages, [connectEngagementSocket] changes nothing and
    calls nothing when the held socket is OPEN or CONNECTING. *)
Theorem connect_noop_when_open_or_connecting :
  forall (getEngagementWebSocketUrl : Z -> string) (throws : option JsError),
    (forall (p : Page) (existing : WebSocket),
        engagementWsRef (devices p) = Some existing ->
        readyState existing = ReadyState.OPEN \/
        readyState existing = ReadyState.CONNECTING ->
        connectEngagementSocket getEngagementWebSocketUrl throws p = (Normal tt, p, [])) /\
    (forall (topic : TopicDifficulty.t) (p : Teacher.Page) (existing : Teacher.InsightsSocket),
        Teacher.engagementWsRef p = Some existing ->
        readyState (Teacher.socket existing) = ReadyState.OPEN \/
        readyState (Teacher.socket existing) = ReadyState.CONNECTING ->
        Teacher.connectEngagementSocket getEngagementWebSocketUrl topic throws p
          = (Normal tt, p, [])).
Proof.
  intros getUrl throws. split.
  - intros p existing Href Hstate.
    assert (Hbusy : isOpen existing || isConnecting existing = true).
    { unfold isOpen, isConnecting. destruct Hstate as [-> | ->]; reflexivity. }
    unfold connectEngagementSocket, call, bind, get, returnNow, ret.
    destruct (session p) as [s|]; [|reflexivity].
    destruct (negb (joined p) || negb (sessionIsLive s)); [reflexivity|].
    rewrite Href, Hbusy. reflexivity.
  - intros topic p existing Href Hstate.
    assert (Hbusy : isOpen (Teacher.socket existing)
                    || isConnecting (Teacher.socket existing) = true).
    { unfold isOpen, isConnecting. destruct Hstate as [-> | ->]; reflexivity. }
    unfold Teacher.connectEngagementSocket, call, bind, get, returnNow, ret.
    destruct (Teacher.session p) as [s|]; [|reflexivity].
    destruct (negb (sessionIsLive (Teacher.data s))); [reflexivity|].
    rewrite Href, Hbusy. reflexivity.
Qed.

Lemma topic_eqb_refl t : TopicDifficulty.eqb t t = true.
Proof. destruct t; reflexivity. Qed.

Lemma topic_eqb_eq a b : TopicDifficulty.eqb a b = true -> a = b.
Proof. destruct a, b; cbn; congruence. Qed.

Lemma sameSession_refl s : Teacher.sameSession s s = true.
Proof. destruct s as [s|]; cbn; [apply Nat.eqb_refl | reflexivity]. Qed.

Lemma render_spec getUrl held s step p :
  subscribed held s p ->
  isOpen (Teacher.socket held) = true ->
  sessionIsLive (Teacher.data s) = true ->
  keepsSession step = true ->
  wp (Teacher.render getUrl step)
     (fun c p1 l =>
        c = Normal tt /\
        subscribed held s p1 /\
        sentMessages l =
          expectedSubscriptions (wsId (Teacher.socket held)) (Teacher.topicDifficulty p) [step] /\
        length l = length (sentMessages l) /\
        Teacher.topicDifficulty p1 =
          match fst step with
          | Teacher.SetTopicDifficulty value => value
          | _ => Teacher.topicDifficulty p
          end) p.
Proof.
  intros [Href Hsession] Hopen Hlive Hkeep.
  destruct step as [[value| |] env]; try discriminate Hkeep.
  - unfold Teacher.render, Teacher.applyUpdate, Teacher.setTopicDifficulty,
      Teacher.resubscribeEffect, Teacher.socketSend.
    cbn [fst snd expectedSubscriptions].
    apply wp_bind, wp_get. apply wp_bind, wp_modify. apply wp_bind, wp_get.
    teacher_simpl. rewrite sameSession_refl. cbn [negb].
    apply wp_bind, wp_ret. rewrite orb_false_r.
    destruct (TopicDifficulty.eqb (Teacher.topicDifficulty p) value) eqn:Etopic; cbn [negb].
    + apply wp_ret. unfold subscribed. teacher_simpl.
      repeat split; try assumption; try reflexivity.
    + apply wp_call, wp_bind, wp_get. teacher_simpl. rewrite Href, Hsession, Hopen, Hlive.
      cbn [andb]. apply wp_emit. unfold subscribed. teacher_simpl.
      repeat split; try assumption; reflexivity.
  - unfold Teacher.render, Teacher.applyUpdate. cbn [fst snd expectedSubscriptions].
    apply wp_bind, wp_get. apply wp_bind, wp_ret. apply wp_bind, wp_get.
    rewrite sameSession_refl, topic_eqb_refl. cbn [negb orb].
    apply wp_bind, wp_ret. apply wp_ret.
    repeat split; try assumption; reflexivity.
Qed.

Lemma expectedSubscriptions_step socket current step rest :
  keepsSession step = true ->
  expectedSubscriptions socket current (step :: rest) =
    expectedSubscriptions socket current [step] ++
    expectedSubscriptions socket
      match fst step with
      | Teacher.SetTopicDifficulty value => value
      | _ => current
      end rest.
Proof.
  destruct step as [[value| |] env]; cbn; try discriminate; intros _; try reflexivity.
  destruct (TopicDifficulty.eqb current value) eqn:E; [|reflexivity].
  apply topic_eqb_eq in E. subst. reflexivity.
Qed.

(** Claim C9.  While the held socket is OPEN and the session object stays
    the same LIVE one, a sequence of renders sends one [subscribe_insights]
    for each render that changes the topic difficulty, with the new value,
    and nothing for the other renders. *)
Theorem resubscribe_once_per_topic_change :
  forall (getEngagementWebSocketUrl : Z -> string)
         (steps : list (Teacher.Update * Teacher.RenderEnv))
         (p : Teacher.Page) (held : Teacher.InsightsSocket) (s : Teacher.SessionObject),
    Teacher.engagementWsRef p = Some held ->
    readyState (Teacher.socket held) = ReadyState.OPEN ->
    Teacher.session p = Some s ->
    SessionData.status (Teacher.data s) = "LIVE"%string ->
    forallb keepsSession steps = true ->
    let out := Teacher.renders getEngagementWebSocketUrl steps p in
    sentMessages (logOf out) =
      expectedSubscriptions (wsId (Teacher.socket held)) (Teacher.topicDifficulty p) steps /\
    length (logOf out) = length (sentMessages (logOf out)).
Proof.
  intros getUrl steps p held s Href Hready Hsession Hstatus Hkeep out.
  assert (Hopen : isOpen (Teacher.socket held) = true).
  { unfold isOpen. rewrite Hready. reflexivity. }
  assert (Hlive : sessionIsLive (Teacher.data s) = true).
  { unfold sessionIsLive. rewrite Hstatus. reflexivity. }
  assert (Hsub : subscribed held s p) by (split; assumption).
  clear Href Hsession Hready Hstatus.
  apply (wp_run (Teacher.renders getUrl steps)
                (fun _ _ l =>
                   sentMessages l =
                     expectedSubscriptions (wsId (Teacher.socket held))
                                           (Teacher.topicDifficulty p) steps /\
                   length l = length (sentMessages l))).
  clear out. revert p Hsub Hkeep.
  induction steps as [|step rest IH]; intros p Hsub Hkeep.
  - apply wp_ret. split; reflexivity.
  - cbn [forallb] in Hkeep. apply andb_true_iff in Hkeep as [Hstep Hrest].
    unfold Teacher.renders. cbn [forEach]. apply wp_bind.
    eapply wp_mono; [apply (render_spec getUrl held s step p Hsub Hopen Hlive Hstep)|].
    cbn beta. intros c p1 l (-> & Hsub1 & Hsent & Hlen & Htopic).
    eapply wp_mono; [apply (IH p1 Hsub1 Hrest)|].
    cbn beta. intros c2 p2 l2 [Hsent2 Hlen2].
    rewrite sentMessages_app, length_app, Hsent, Hsent2, Htopic, Hlen, Hlen2, Hsent, Hsent2, Htopic.
    split; [|rewrite length_app; reflexivity].
    symmetry. apply expectedSubscriptions_step. exact Hstep.
Qed.

Lemma composed_signal_within_unit_interval_witness :
  ((0 <= participation exampleSignal)%Q /\ (participation exampleSignal <= 1)%Q) /\
  ((0 <= attendance_consistency exampleSignal)%Q /\
   (attendance_consistency exampleSignal <= 1)%Q) /\
  ((0 <= movement_intensity exampleSignal)%Q /\ (movement_intensity exampleSignal <= 1)%Q).
Proof.
  apply (composed_signal_within_unit_interval exampleUrl exampleEnv examplePage 0%nat
                                               exampleSignal).
  vm_compute. left. reflexivity.
Defined.

Lemma attendance_consistency_floor_witness :
  (0.55 <= attendance_consistency exampleSignal)%Q.
Proof.
  apply (attendance_consistency_floor exampleUrl exampleEnv examplePage 0%nat exampleSignal).
  vm_compute. left. reflexivity.
Defined.

Lemma counter_reset_iff_transmitted_witness :
  interactionCountRef (activity (stateOf (sendTelemetrySignal exampleUrl exampleEnv examplePage)))
    = 0%Z /\
  interactionCountRef (activity (stateOf (sendTelemetrySignal exampleUrl failingEnv examplePage)))
    = 4%Z.
Proof.
  split.
  - apply (proj1 (counter_reset_iff_transmitted exampleUrl exampleEnv examplePage)).
    vm_compute. discriminate.
  - apply (proj2 (proj2 (proj2
             (counter_reset_iff_transmitted exampleUrl failingEnv examplePage)))).
    right. right. left. reflexivity.
Defined.


Lemma expired_answer_rejected_locally_witness :
  logOf (handleQuizAnswer exampleUrl exampleDateParse exampleQuizEnv exampleQuiz examplePage)
    = [ListActiveSessionQuizzes 7].
Proof.
  apply (expired_answer_rejected_locally exampleUrl exampleDateParse exampleQuizEnv
           exampleQuiz examplePage exampleSession 0%Q).
  - reflexivity.
  - reflexivity.
  - discriminate.
Defined.

Lemma quizRemainingSeconds_prefers_expiry_witness :
  quizRemainingSeconds exampleDateParse exampleQuiz 15500 = Some (fromExpiry 60000 15500) /\
  quizRemainingSeconds exampleDateParse snapshotQuiz 15500 = Some (Js.max 42 0) /\
  quizRemainingSeconds exampleDateParse untimedQuiz 15500 = None.
Proof.
  split; [|split].
  - apply (proj1 (quizRemainingSeconds_prefers_expiry exampleDateParse _ _ exampleQuiz 15500)
                 "2026-01-01T00:01:00Z"%string 60000%Z).
    + reflexivity.
    + discriminate.
    + reflexivity.
  - apply (proj1 (proj2 (quizRemainingSeconds_prefers_expiry exampleDateParse _ _
                           snapshotQuiz 15500))).
    + left. reflexivity.
    + reflexivity.
  - apply (proj1 (proj2 (proj2 (quizRemainingSeconds_prefers_expiry exampleDateParse _ _
                                  untimedQuiz 15500)))).
    + left. reflexivity.
    + reflexivity.
Defined.

Lemma countdown_monotone_between_ticks_and_reset_by_data_witness :
  renderedCountdown exampleDateParse
    (stateOf (loadActiveQuizzes (Resolved (Some [snapshotQuiz])) examplePage))
    = [(4%Z, Some (Js.max 42 0))].
Proof.
  apply (countdown_monotone_between_ticks_and_reset_by_data exampleDateParse examplePage
           exampleSession 121000%Z [snapshotQuiz]).
  - reflexivity.
  - vm_compute. discriminate.
Defined.

Lemma connect_refuses_without_token_witness :
  socketState (display (stateOf (connectEngagementSocket tokenlessUrl None offlinePage)))
    = SocketState.ERROR /\
  Teacher.engagementSocketState
    (stateOf (Teacher.connectEngagementSocket tokenlessUrl TopicDifficulty.MEDIUM None
                                              offlineTeacherPage))
    = SocketState.ERROR.
Proof.
  split.
  - apply (proj1 (connect_refuses_without_token tokenlessUrl None) offlinePage exampleSession).
    + reflexivity.
    + reflexivity.
    + split; [reflexivity | exact I].
  - apply (proj2 (connect_refuses_without_token tokenlessUrl None) TopicDifficulty.MEDIUM
                 offlineTeacherPage exampleTeacherSession).
    + reflexivity.
    + reflexivity.
    + split; [reflexivity | exact I].
Defined.

Lemma connect_noop_when_open_or_connecting_witness :
  connectEngagementSocket exampleUrl None examplePage = (Normal tt, examplePage, []) /\
  Teacher.connectEngagementSocket exampleUrl TopicDifficulty.HIGH None exampleTeacherPage
    = (Normal tt, exampleTeacherPage, []).
Proof.
  split.
  - apply (proj1 (connect_noop_when_open_or_connecting exampleUrl None)
                 examplePage exampleSocket).
    + reflexivity.
    + left. reflexivity.
  - apply (proj2 (connect_noop_when_open_or_connecting exampleUrl None)
                 TopicDifficulty.HIGH exampleTeacherPage exampleInsightsSocket).
    + reflexivity.
    + left. reflexivity.
Defined.

Lemma resubscribe_once_per_topic_change_witness :
  sentMessages (logOf (Teacher.renders exampleUrl exampleRenders exampleTeacherPage))
    = [(0%nat, subscribe_insights TopicDifficulty.HIGH 10);
       (0%nat, subscribe_insights TopicDifficulty.LOW 11)].
Proof.
  apply (resubscribe_once_per_topic_change exampleUrl exampleRenders exampleTeacherPage
           exampleInsightsSocket exampleTeacherSession); reflexivity.
Defined.

Lemma filter_repeat_TrackStop n :
  List.filter isTrackStop (repeat TrackStop n) = repeat TrackStop n.
Proof. induction n as [|n IH]; cbn; [reflexivity | rewrite IH; reflexivity]. Qed.

Lemma stopCamera_nothing_held p :
  cameraStreamRef (devices p) = None ->
  cameraRecoveryTimerRef (devices p) = None ->
  stopCamera p = (Normal tt, p, []).
Proof.
  intros Hstream Htimer. unfold stopCamera, call, bind, get, ret.
  rewrite Htimer. cbn. rewrite Hstream. reflexivity.
Qed.

Lemma stopCamera_releases p :
  let out := stopCamera p in
  completionOf out = Normal tt /\
  cameraStreamRef (devices (stateOf out)) = None /\
  cameraRecoveryTimerRef (devices (stateOf out)) = None /\
  List.filter isTrackStop (logOf out) = repeat TrackStop (length (heldTracks p)) /\
  (forall timer, cameraRecoveryTimerRef (devices p) = Some timer ->
                 isPending timer (stateOf out) = false /\
                 In (ClearTimeout timer) (logOf out)).
Proof.
  intro out.
  apply (wp_run stopCamera
           (fun c p1 l =>
              c = Normal tt /\
              cameraStreamRef (devices p1) = None /\
              cameraRecoveryTimerRef (devices p1) = None /\
              List.filter isTrackStop l = repeat TrackStop (length (heldTracks p)) /\
              (forall timer, cameraRecoveryTimerRef (devices p) = Some timer ->
                             isPending timer p1 = false /\ In (ClearTimeout timer) l))).
  unfold stopCamera, clearTimeout, heldTracks, isPending.
  wp_go.
  all: rewrite ?app_nil_r, ?map_const_repeat.
  all: repeat match goal with |- _ /\ _ => split end; try reflexivity; try assumption.
  all: try (cbn [List.filter isTrackStop app]; rewrite ?filter_repeat_TrackStop; reflexivity).
  all: intros timer Htimer; try congruence.
  all: injection Htimer as <-; split;
    [ page_simpl; apply filter_after_append | left; reflexivity ].
Qed.

(** Property X1.  [stopCamera] stops every held track, forgets the stream and the recovery
    timer, cancels that timer, and a second call right after does nothing. *)
Theorem stopCamera_releases_and_is_idempotent :
  forall (p : Page),
    let out := stopCamera p in
    completionOf out = Normal tt /\
    cameraStreamRef (devices (stateOf out)) = None /\
    cameraRecoveryTimerRef (devices (stateOf out)) = None /\
    List.filter isTrackStop (logOf out) = repeat TrackStop (length (heldTracks p)) /\
    match cameraRecoveryTimerRef (devices p) with
    | Some timer => isPending timer (stateOf out) = false /\
                    In (ClearTimeout timer) (logOf out)
    | None => True
    end /\
    stopCamera (stateOf out) = (Normal tt, stateOf out, []).
Proof.
  intros p out.
  destruct (stopCamera_releases p) as (Hc & Hstream & Htimer & Hstops & Hcancel).
  fold out in Hc, Hstream, Htimer, Hstops, Hcancel.
  repeat match goal with |- _ /\ _ => split end; try assumption.
  - destruct (cameraRecoveryTimerRef (devices p)) as [timer|]; [|exact I].
    apply Hcancel. reflexivity.
  - apply stopCamera_nothing_held; assumption.
Qed.

Lemma run_of_wp {S Act A} (m : Prog S Act A) (s : S) r :
  wp m (fun c s1 l => (c, s1, l) = r) s -> m s = r.
Proof. unfold wp. destruct (m s) as [[c s1] l]. auto. Qed.

Lemma stopCamera_run sess j sm disp qp act d :
  stopCamera (mkPage sess j sm disp qp act d)
    = (Normal tt, mkPage sess j sm disp qp act (stoppedDevices d), stopLog d).
Proof.
  apply run_of_wp. destruct d as [held cell ws pend nt ns].
  unfold stopCamera, clearTimeout, stopLog, stoppedDevices.
  destruct cell as [timer|]; destruct held as [stream|]; wp_go;
    cbn; rewrite ?app_nil_r; reflexivity.
Qed.

Ltac page_cbv :=
  cbv beta iota delta
    [withDisplay session joined showMeeting display quizPanel activity devices
     telemetryState telemetryMessage cameraState cameraMessage socketState].

Ltac settle_cases Hheld :=
  cbn; rewrite ?app_nil_r, <- ?app_assoc;
  try match goal with
      | |- context [if ?c then _ else _] => destruct c
      end;
  page_cbv; rewrite ?stopCamera_run; cbn; unfold stopLog, stoppedDevices; cbn;
  try rewrite Hheld; rewrite ?app_nil_r, <- ?app_assoc; reflexivity.

Lemma startCameraAlone_is_startCamera media p :
  startCameraAlone media p = startCamera media p.
Proof.
  destruct p as [sess j sm disp qp act d].
  unfold startCameraAlone, startCamera, startCameraRequest, startCameraSettle,
    requestDevice, getUserMedia.
  unfold call, bind, get, tryCatch. cbn [cameraStreamRef devices].
  destruct (cameraStreamRef d) as [existing|] eqn:Hheld.
  - destruct (existsb trackIsLive (getVideoTracks existing)).
    + reflexivity.
    + rewrite !stopCamera_run. destruct media as [|stream|err]; settle_cases Hheld.
  - destruct media as [|stream|err]; settle_cases Hheld.
Qed.

Lemma installHandlers_tracks stream :
  length (getVideoTracks (installHandlers stream)) = length (getVideoTracks stream).
Proof. destruct stream as [[|track others]]; reflexivity. Qed.

(** Property X2.  [startCamera] acquires the camera once when its calls run one after the
    other, and twice when two calls overlap.  A call is its two steps run
    in a row.  After a call that acquired a live stream, the next call
    acquires nothing and keeps that stream.  When a second call starts
    while the first still waits for [getUserMedia], both pass the guard and
    both acquire: the page ends up holding the second stream only, so that
    a later [stopCamera] stops the tracks of the second stream and none of
    the first. *)
Theorem startCamera_acquires_once_unless_overlapped :
  forall (p : Page) (first second : MediaStream),
    cameraStreamRef (devices p) = None ->
    existsb trackIsLive (getVideoTracks first) = true ->
    (forall media q, startCameraAlone media q = startCamera media q) /\
    (let once := startCamera (MediaResolve first) p in
     let again := startCamera (MediaResolve second) (stateOf once) in
     logOf once = [GetUserMedia] /\
     logOf again = [] /\
     cameraStreamRef (devices (stateOf again)) = Some (installHandlers first)) /\
    (let both := startCameraOverlapped (MediaResolve first) (MediaResolve second) p in
     logOf both = [GetUserMedia; GetUserMedia] /\
     cameraStreamRef (devices (stateOf both)) = Some (installHandlers second) /\
     cameraState (display (stateOf both)) = CameraState.ACTIVE /\
     List.filter isTrackStop (logOf (stopCamera (stateOf both)))
       = repeat TrackStop (length (getVideoTracks second))).
Proof.
  intros p first second Hnone Hlive.
  destruct p as [sess j sm disp qp act [held cell ws pend nt ns]].
  cbn in Hnone. subst held.
  pose proof (installHandlers_live first) as Hkept. rewrite Hlive in Hkept.
  split; [exact startCameraAlone_is_startCamera|]. split.
  - cbv zeta.
    assert (Honce :
              startCamera (MediaResolve first)
                (mkPage sess j sm disp qp act (mkDevices None cell ws pend nt ns))
              = (Normal tt,
                 mkPage sess j sm
                        (mkDisplay (telemetryState disp) (telemetryMessage disp)
                                   CameraState.ACTIVE
                                   "Live camera attention sampling enabled"
                                   (socketState disp))
                        qp act
                        (mkDevices (Some (installHandlers first)) cell ws pend nt ns),
                 [GetUserMedia])) by reflexivity.
    rewrite Honce. unfold stateOf, logOf. cbn [fst snd].
    split; [reflexivity|].
    apply (wp_run (startCamera (MediaResolve second))
                  (fun _ p1 l =>
                     l = [] /\
                     cameraStreamRef (devices p1) = Some (installHandlers first))).
    unfold startCamera. wp_go; try congruence. all: split; reflexivity.
  - cbv zeta.
    assert (Hboth :
              startCameraOverlapped (MediaResolve first) (MediaResolve second)
                (mkPage sess j sm disp qp act (mkDevices None cell ws pend nt ns))
              = (Normal tt,
                 mkPage sess j sm
                        (mkDisplay (telemetryState disp) (telemetryMessage disp)
                                   CameraState.ACTIVE
                                   "Live camera attention sampling enabled"
                                   (socketState disp))
                        qp act
                        (mkDevices (Some (installHandlers second)) cell ws pend nt ns),
                 [GetUserMedia; GetUserMedia])) by reflexivity.
    rewrite Hboth. unfold stateOf, logOf. cbn [fst snd].
    repeat split.
    rewrite stopCamera_run. cbn [snd]. unfold stopLog. cbn [cameraStreamRef cameraRecoveryTimerRef].
    rewrite List.filter_app, map_const_repeat, filter_repeat_TrackStop, installHandlers_tracks.
    destruct cell as [timer|]; reflexivity.
Qed.

Lemma startCamera_acquires_once_unless_overlapped_witness :
  logOf (startCameraOverlapped (MediaResolve rawStream) (MediaResolve exampleStream)
           cameraIdlePage)
    = [GetUserMedia; GetUserMedia] /\
  logOf (startCamera (MediaResolve exampleStream)
           (stateOf (startCamera (MediaResolve rawStream) cameraIdlePage)))
    = [].
Proof.
  destruct (startCamera_acquires_once_unless_overlapped cameraIdlePage rawStream
              exampleStream eq_refl eq_refl) as (_ & (_ & Hagain & _) & (Hboth & _)).
  split; [exact Hboth | exact Hagain].
Defined.

Lemma stopCamera_display p :
  wp stopCamera
     (fun c p1 _ =>
        c = Normal tt /\ display p1 = display p /\
        cameraStreamRef (devices p1) = None) p.
Proof.
  unfold stopCamera, clearTimeout. wp_go.
  all: repeat split; try reflexivity; assumption.
Qed.

(** Property X3.  After [startCamera] the page reports ACTIVE exactly when it holds a
    stream: either ACTIVE with a stream, or DENIED or ERROR without one. *)
Theorem startCamera_active_iff_stream_held :
  forall (media : MediaAnswer) (p : Page),
    let after := stateOf (startCamera media p) in
    (cameraState (display after) = CameraState.ACTIVE /\
     cameraStreamRef (devices after) <> None) \/
    ((cameraState (display after) = CameraState.DENIED \/
      cameraState (display after) = CameraState.ERROR) /\
     cameraStreamRef (devices after) = None).
Proof.
  intros media p after.
  apply (wp_run (startCamera media)
           (fun _ p1 _ =>
              (cameraState (display p1) = CameraState.ACTIVE /\
               cameraStreamRef (devices p1) <> None) \/
              ((cameraState (display p1) = CameraState.DENIED \/
                cameraState (display p1) = CameraState.ERROR) /\
               cameraStreamRef (devices p1) = None))).
  unfold startCamera.
  repeat (first [ progress page_simpl
                | lazymatch goal with
                  | |- wp stopCamera _ _ =>
                      eapply wp_mono;
                      [ apply stopCamera_display
                      | cbn beta; intros ? ? ? (-> & ? & ?) ]
                  end
                | wp_step ]).
  all: page_simpl_all.
  all: repeat match goal with H : display _ = _ |- _ => rewrite H; clear H end.
  all: page_simpl.
  all: first [ left; split; [reflexivity | congruence]
             | right; split; [first [left; reflexivity | right; reflexivity] | assumption] ].
Qed.

(** Property X4.  A teardown during the backoff cancels the recovery: after [stopCamera]
    the timer that ["ended"] scheduled is no longer pending, and its firing
    acquires nothing. *)
Theorem teardown_cancels_recovery :
  forall (p : Page) (media : MediaAnswer),
    cameraRecoveryTimerRef (devices p) = None ->
    endedHandlerAttached p = true ->
    let timer := nextTimer (devices p) in
    let interrupted := stateOf (cameraStep TrackEnded p) in
    let stopped := stateOf (stopCamera interrupted) in
    isPending timer stopped = false /\
    cameraStep (TimerFires timer media) stopped = (Normal tt, stopped, []).
Proof.
  intros p media Hidle Hhook timer interrupted stopped.
  pose proof (wp_run _ _ _ (first_ended_spec p Hidle Hhook)) as (_ & _ & Htimer & _ & _).
  fold interrupted in Htimer.
  pose proof (stopCamera_releases interrupted) as (_ & _ & _ & _ & Hcancel).
  destruct (Hcancel _ Htimer) as [Hpending _]. fold stopped in Hpending.
  split; [exact Hpending|].
  unfold cameraStep, bind, get. cbn beta iota. subst timer. rewrite Hpending. reflexivity.
Qed.

Lemma teardown_cancels_recovery_witness :
  cameraStep (TimerFires 1 (MediaResolve exampleStream))
             (stateOf (stopCamera (stateOf (cameraStep TrackEnded examplePage))))
    = (Normal tt, stateOf (stopCamera (stateOf (cameraStep TrackEnded examplePage))), []).
Proof.
  apply (teardown_cancels_recovery examplePage (MediaResolve exampleStream)); reflexivity.
Defined.

Lemma clamp_mono x y : (x <= y)%Q -> (clamp x <= clamp y)%Q.
Proof.
  intro Hxy. unfold clamp, clampBetween, Js.max, Js.min.
  apply Q.max_le_compat_l, Q.min_le_compat_l, Hxy.
Qed.

Lemma toFixed_mono_nonneg x y digits :
  (0 <= x)%Q -> (x <= y)%Q -> (Js.toFixed x digits <= Js.toFixed y digits)%Q.
Proof.
  intros Hx Hxy. rewrite !toFixed_nonneg; [apply roundHalfUp_mono, Hxy | |exact Hx].
  apply Qle_trans with x; assumption.
Qed.

Lemma interactionBurst_mono a n1 n2 :
  (n1 <= n2)%Z ->
  (interactionBurst (withInteractionCount n1 a) <= interactionBurst (withInteractionCount n2 a))%Q.
Proof.
  intro Hle. unfold interactionBurst. cbn [withInteractionCount interactionCountRef].
  apply clamp_mono. apply Qmult_le_compat_r; [|discriminate].
  rewrite <- Zle_Qle. exact Hle.
Qed.

(** Property X5.  More interaction never lowers what is transmitted: with everything else
    equal, the participation and the movement intensity of the signal are
    monotone in the interaction counter. *)
Theorem signal_monotone_in_interaction_count :
  forall (a : Activity) (doc : option Document) (meetingOpen : bool) (nowMs : Z)
         (image : string) (events1 events2 count1 count2 : Z),
    (count1 <= count2)%Z ->
    let low := composeSignal (withInteractionCount count1 a) doc meetingOpen nowMs image events1 in
    let high := composeSignal (withInteractionCount count2 a) doc meetingOpen nowMs image events2 in
    (participation low <= participation high)%Q /\
    (movement_intensity low <= movement_intensity high)%Q /\
    (attendance_consistency low == attendance_consistency high)%Q.
Proof.
  intros a doc meetingOpen nowMs image events1 events2 count1 count2 Hle low high.
  pose proof (interactionBurst_mono a count1 count2 Hle) as Hburst.
  unfold low, high, composeSignal.
  cbn [participation movement_intensity attendance_consistency].
  split; [|split].
  - apply toFixed_mono_nonneg; [apply clamp_range|]. apply clamp_mono.
    unfold participationEstimate.
    change (answeredRecently (withInteractionCount count1 a) nowMs)
      with (answeredRecently (withInteractionCount count2 a) nowMs).
    change (isFocused (withInteractionCount count1 a) doc)
      with (isFocused (withInteractionCount count2 a) doc).
    repeat apply Qplus_le_l. apply Qplus_le_r.
    apply Qmult_le_compat_r; [exact Hburst | discriminate].
  - apply toFixed_mono_nonneg; [apply clamp_range|]. apply clamp_mono.
    unfold movementIntensity.
    change (isFocused (withInteractionCount count1 a) doc)
      with (isFocused (withInteractionCount count2 a) doc).
    repeat apply Qplus_le_l.
    apply Qmult_le_compat_r; [exact Hburst | discriminate].
  - reflexivity.
Qed.

Lemma signal_monotone_in_interaction_count_witness :
  (participation (composeSignal (withInteractionCount 2 exampleActivity) None false 61000
                                "" 2)
   <= participation (composeSignal (withInteractionCount 9 exampleActivity) None false 61000
                                   "" 9))%Q.
Proof.
  apply (signal_monotone_in_interaction_count exampleActivity None false 61000 "" 2 9 2 9).
  lia.
Defined.

Lemma blend_monotone_in_burst a doc meetingOpen nowMs count1 count2 :
  (interactionBurst (withInteractionCount count1 a)
   <= interactionBurst (withInteractionCount count2 a))%Q ->
  (Js.toFixed (participationEstimate (withInteractionCount count1 a) doc meetingOpen nowMs) 3
   <= Js.toFixed (participationEstimate (withInteractionCount count2 a) doc meetingOpen
                                        nowMs) 3)%Q /\
  (Js.toFixed (movementIntensity (withInteractionCount count1 a) doc) 3
   <= Js.toFixed (movementIntensity (withInteractionCount count2 a) doc) 3)%Q.
Proof.
  intro Hburst. split.
  - apply toFixed_mono_nonneg; [apply clamp_range|]. apply clamp_mono.
    unfold participationEstimate.
    change (answeredRecently (withInteractionCount count1 a) nowMs)
      with (answeredRecently (withInteractionCount count2 a) nowMs).
    change (isFocused (withInteractionCount count1 a) doc)
      with (isFocused (withInteractionCount count2 a) doc).
    repeat apply Qplus_le_l. apply Qplus_le_r.
    apply Qmult_le_compat_r; [exact Hburst | discriminate].
  - apply toFixed_mono_nonneg; [apply clamp_range|]. apply clamp_mono.
    unfold movementIntensity.
    change (isFocused (withInteractionCount count1 a) doc)
      with (isFocused (withInteractionCount count2 a) doc).
    repeat apply Qplus_le_l.
    apply Qmult_le_compat_r; [exact Hburst | discriminate].
Qed.

Lemma burst_of_ten_or_more a count :
  (10 <= count)%Z -> (interactionBurst (withInteractionCount count a) == 1)%Q.
Proof.
  intro Hten. unfold interactionBurst. cbn [withInteractionCount interactionCountRef].
  assert (Hge : (1 <= inject_Z count / 10)%Q).
  { apply Qle_shift_div_l; [reflexivity|]. rewrite Zle_Qle in Hten. exact Hten. }
  apply Qle_antisym; [apply clamp_range | apply clamp_lower; [apply Qle_refl | exact Hge]].
Qed.

(** Property X6.  The burst saturates at ten events.  From ten interactions on the burst
    ratio is 1, so two signals composed from counters of ten or more, with
    everything else equal, carry the same participation, movement intensity,
    attendance consistency and recency; [interaction_events], the counter
    as read at the send, is carried as it is. *)
Theorem interaction_burst_saturates :
  forall (a : Activity) (doc : option Document) (meetingOpen : bool) (nowMs : Z)
         (image : string) (events1 events2 count1 count2 : Z),
    (10 <= count1)%Z ->
    (10 <= count2)%Z ->
    let one := composeSignal (withInteractionCount count1 a) doc meetingOpen nowMs image
                             events1 in
    let other := composeSignal (withInteractionCount count2 a) doc meetingOpen nowMs image
                               events2 in
    (interactionBurst (withInteractionCount count1 a) == 1)%Q /\
    (participation one == participation other)%Q /\
    (movement_intensity one == movement_intensity other)%Q /\
    (attendance_consistency one == attendance_consistency other)%Q /\
    (interaction_recency_seconds one == interaction_recency_seconds other)%Q /\
    interaction_events one = events1 /\
    interaction_events other = events2.
Proof.
  intros a doc meetingOpen nowMs image events1 events2 count1 count2 Hten1 Hten2 one other.
  pose proof (burst_of_ten_or_more a count1 Hten1) as Hone.
  pose proof (burst_of_ten_or_more a count2 Hten2) as Hother.
  assert (Hup : (interactionBurst (withInteractionCount count1 a)
                 <= interactionBurst (withInteractionCount count2 a))%Q)
    by (rewrite Hone, Hother; apply Qle_refl).
  assert (Hdown : (interactionBurst (withInteractionCount count2 a)
                   <= interactionBurst (withInteractionCount count1 a))%Q)
    by (rewrite Hone, Hother; apply Qle_refl).
  destruct (blend_monotone_in_burst a doc meetingOpen nowMs count1 count2 Hup)
    as [Hp12 Hm12].
  destruct (blend_monotone_in_burst a doc meetingOpen nowMs count2 count1 Hdown)
    as [Hp21 Hm21].
  unfold one, other, composeSignal.
  cbn [participation movement_intensity attendance_consistency
       interaction_recency_seconds interaction_events].
  repeat match goal with |- _ /\ _ => split end.
  - exact Hone.
  - apply Qle_antisym; assumption.
  - apply Qle_antisym; assumption.
  - reflexivity.
  - reflexivity.
  - reflexivity.
  - reflexivity.
Qed.

Lemma interaction_burst_saturates_witness :
  (participation (composeSignal (withInteractionCount 10 exampleActivity) None false 61000
                                "" 10)
   == participation (composeSignal (withInteractionCount 25 exampleActivity) None false
                                   61000 "" 25))%Q.
Proof.
  apply (interaction_burst_saturates exampleActivity None false 61000 "" 10 25 10 25); lia.
Defined.

Lemma interactionBurst_range a :
  (0 <= interactionBurst a)%Q /\ (interactionBurst a <= 1)%Q.
Proof. apply clamp_range. Qed.

(** Property X7.  The blends have narrower ranges than the clamp: the transmitted movement
    intensity lies between 0.06 and 0.94 and the participation is at least
    0.18. *)
Theorem signal_blend_ranges :
  forall (a : Activity) (doc : option Document) (meetingOpen : bool) (nowMs : Z)
         (image : string) (events : Z),
    let signal := composeSignal a doc meetingOpen nowMs image events in
    (0.06 <= movement_intensity signal)%Q /\
    (movement_intensity signal <= 0.94)%Q /\
    (0.18 <= participation signal)%Q.
Proof.
  intros a doc meetingOpen nowMs image events signal.
  destruct (interactionBurst_range a) as [Hlo Hhi].
  unfold signal, composeSignal. cbn [movement_intensity participation].
  split; [|split].
  - apply Qle_trans with (Qmake 60 (Js.scale 3)); [discriminate|].
    apply toFixed_above_grid; [apply clamp_range|].
    apply Qle_trans with 0.06%Q; [discriminate|].
    apply clamp_lower; [discriminate|].
    unfold movementIntensity.
    destruct (isFocused a doc), (isVisible doc); lra.
  - apply Qle_trans with (Qmake 940 (Js.scale 3)); [|discriminate].
    apply toFixed_below_grid; [apply clamp_range|].
    apply Qle_trans with 0.94%Q; [|discriminate].
    apply clamp_upper; [discriminate|].
    unfold movementIntensity.
    destruct (isFocused a doc), (isVisible doc); lra.
  - apply Qle_trans with (Qmake 180 (Js.scale 3)); [discriminate|].
    apply toFixed_above_grid; [apply clamp_range|].
    apply Qle_trans with 0.18%Q; [discriminate|].
    apply clamp_lower; [discriminate|].
    unfold participationEstimate.
    destruct (answeredRecently a nowMs), meetingOpen, (isFocused a doc); lra.
Qed.

(** Property X8.  Load shedding and gating of a compose cycle: it sends at most one
    message, only for a joined live session with an open socket, to the
    held socket, and the message is a [vision_sample] that carries the
    encoded frame. *)
Theorem cycle_sends_at_most_one_composed_sample :
  forall (getEngagementWebSocketUrl : Z -> string) (env : CycleEnv) (p : Page),
    let out := sendTelemetrySignal getEngagementWebSocketUrl env p in
    completionOf out = Normal tt /\
    (length (sentMessages (logOf out)) <= 1)%nat /\
    (forall socket message,
        In (socket, message) (sentMessages (logOf out)) ->
        sessionJoinedLive p = true /\
        exists held image signal,
          engagementWsRef (devices p) = Some held /\ isOpen held = true /\
          socket = wsId held /\ dataUrl env = Some image /\
          message = vision_sample signal /\ image_base64 signal = image).
Proof.
  intros getUrl env p out.
  pose proof (wp_run _ _ _ (sendTelemetrySignal_spec getUrl env p)) as [Hc Hspec].
  fold out in Hc, Hspec. split; [exact Hc|].
  destruct (transmits env p) eqn:Htx.
  - destruct Hspec as (held & image & Hheld & Himage & Hlog & _).
    rewrite Hlog. split; [cbn; lia|].
    intros socket message [Heq|[]]. injection Heq as <- <-.
    unfold transmits in Htx. bool_hyps.
    split; [assumption|]. exists held, image, (cycleSignal env p image).
    repeat split; try assumption; try reflexivity.
    match goal with H : socketIsOpen p = true |- _ =>
      unfold socketIsOpen in H; rewrite Hheld in H; exact H end.
  - destruct Hspec as [Hlog _]. rewrite Hlog. split; [cbn; lia|].
    intros socket message [].
Qed.

Lemma cycle_sends_at_most_one_composed_sample_witness :
  sessionJoinedLive examplePage = true.
Proof.
  apply (proj2 (proj2 (cycle_sends_at_most_one_composed_sample exampleUrl exampleEnv
                         examplePage))
               0%nat (vision_sample exampleSignal)).
  vm_compute. left. reflexivity.
Defined.

Lemma connectEngagementSocket_status getUrl throws p :
  wp (connectEngagementSocket getUrl throws)
     (fun c p1 l =>
        c = Normal tt /\
        (telemetryState (display p1) = telemetryState (display p) \/
         telemetryState (display p1) = TelemetryState.ERROR)) p.
Proof.
  unfold connectEngagementSocket, newWebSocket.
  wp_go.
  all: split; [reflexivity|]; first [left; reflexivity | right; reflexivity].
Qed.

Ltac status_leaf :=
  unfold statusPost, statusAfterCycle, transmits, sessionJoinedLive, socketIsOpen,
         frameCaptured, captureFailureMessage;
  page_simpl_all; bool_hyps;
  rewrite_hyps;
  cbn [andb negb orb];
  rewrite ?andb_false_r;
  cbn [andb negb orb];
  page_simpl;
  intro;
  repeat match goal with
         | H : _ \/ _ |- _ => destruct H
         end;
  (split; [ first [reflexivity | congruence] | intros; first [reflexivity | congruence] ]).

Lemma sendTelemetrySignal_status getUrl env p :
  wp (sendTelemetrySignal getUrl env) (statusPost env p) p.
Proof.
  unfold sendTelemetrySignal, captureVisionFrame, socketSend.
  repeat (first [ progress page_simpl
                | lazymatch goal with
                  | |- wp (startCamera _) _ _ =>
                      use_spec startCamera_spec; unfold cameraFrame in *; split_hyps
                  | |- wp (connectEngagementSocket _ _) _ _ =>
                      use_spec connectEngagementSocket_status
                  end
                | wp_step ]).
  all: status_leaf.
Qed.

(** Property X9.  Every cycle of a joined live session ends in a visible status: ACTIVE
    when the sample was sent, ERROR otherwise; after two capture failures
    on an open socket the message is the cannot-capture one. *)
Theorem cycle_ends_in_visible_status :
  forall (getEngagementWebSocketUrl : Z -> string) (env : CycleEnv) (p : Page),
    sessionJoinedLive p = true ->
    let after := stateOf (sendTelemetrySignal getEngagementWebSocketUrl env p) in
    telemetryState (display after) = statusAfterCycle env p /\
    (socketIsOpen p = true -> firstFrame env = NoFrame -> secondFrame env = NoFrame ->
     telemetryMessage (display after) = captureFailureMessage).
Proof.
  intros getUrl env p Hlive after.
  exact (wp_run _ _ _ (sendTelemetrySignal_status getUrl env p) Hlive).
Qed.

Lemma cycle_ends_in_visible_status_witness :
  telemetryState (display (stateOf (sendTelemetrySignal exampleUrl failingEnv examplePage)))
    = TelemetryState.ERROR.
Proof.
  apply (cycle_ends_in_visible_status exampleUrl failingEnv examplePage).
  reflexivity.
Defined.

Lemma quizRequests_app l1 l2 : quizRequests (l1 ++ l2) = quizRequests l1 ++ quizRequests l2.
Proof. apply List.filter_app. Qed.

Lemma quizRequests_camera l : Forall cameraAction l -> quizRequests l = [].
Proof.
  induction 1 as [|a l Ha _ IH]; [reflexivity|].
  destruct a; cbn in *; try contradiction; exact IH.
Qed.

Lemma connectEngagementSocket_quizFrame getUrl throws p :
  wp (connectEngagementSocket getUrl throws)
     (fun c p1 l => c = Normal tt /\ quizFrame p p1 /\ quizRequests l = []) p.
Proof.
  unfold connectEngagementSocket, newWebSocket.
  wp_go.
  all: repeat split.
Qed.

Lemma sendTelemetrySignal_quizFrame getUrl env p :
  wp (sendTelemetrySignal getUrl env)
     (fun c p1 l => c = Normal tt /\ quizFrame p p1 /\ quizRequests l = []) p.
Proof.
  unfold sendTelemetrySignal, captureVisionFrame, socketSend.
  repeat (first [ progress page_simpl
                | lazymatch goal with
                  | |- wp (startCamera _) _ _ =>
                      use_spec startCamera_spec; unfold cameraFrame in *; split_hyps
                  | |- wp (connectEngagementSocket _ _) _ _ =>
                      use_spec connectEngagementSocket_quizFrame;
                      unfold quizFrame in *; split_hyps
                  end
                | wp_step ]).
  all: unfold quizFrame; page_simpl_all.
  all: split; [reflexivity|].
  all: split; [repeat split; rewrite_hyps; page_simpl; first [reflexivity | congruence]|].
  all: rewrite ?quizRequests_app;
    repeat match goal with
           | H : Forall cameraAction ?l |- context [quizRequests ?l] =>
               rewrite (quizRequests_camera l H)
           | H : quizRequests ?l = [] |- context [quizRequests ?l] => rewrite H
           end; reflexivity.
Qed.

Ltac not_timed_out H :=
  unfold answerable, isTimedOut in H;
  match type of H with
  | match ?scrutinee with _ => _ end = false =>
      destruct scrutinee as [remaining|] eqn:Hremaining
  end.

(** Property X10.  Submitting without a selection asks for one and touches nothing else:
    no request leaves the page. *)
Theorem answer_without_selection_sends_nothing :
  forall (getEngagementWebSocketUrl : Z -> string) (dateParse : string -> option Z)
         (env : QuizEnv) (quiz : SessionQuizItem.t) (p : Page) (s : SessionData.t),
    session p = Some s ->
    answerable dateParse quiz p ->
    selectedQuizOptions (quizPanel p) !! SessionQuizItem.id quiz = None ->
    handleQuizAnswer getEngagementWebSocketUrl dateParse env quiz p
      = (Normal tt, stateOf (setQuizFeedback (Some chooseOptionFeedback) p), []).
Proof.
  intros getUrl dateParse env quiz p s Hs Hopen Hnone.
  unfold handleQuizAnswer, call, bind, get, ret, returnNow.
  rewrite Hs. cbn beta iota. not_timed_out Hopen.
  - rewrite Hopen. cbn. rewrite Hnone. reflexivity.
  - cbn. rewrite Hnone. reflexivity.
Qed.

Lemma answer_without_selection_sends_nothing_witness :
  logOf (handleQuizAnswer exampleUrl exampleDateParse exampleQuizEnv snapshotQuiz examplePage)
    = [].
Proof.
  rewrite (answer_without_selection_sends_nothing exampleUrl exampleDateParse exampleQuizEnv
             snapshotQuiz examplePage exampleSession); reflexivity.
Defined.

(** Property X11.  A rejected submission is the only request of the attempt; the selection
    is kept for a retry, the error is shown, and the in-flight marker is
    cleared. *)
Theorem rejected_submission_keeps_selection :
  forall (getEngagementWebSocketUrl : Z -> string) (dateParse : string -> option Z)
         (env : QuizEnv) (quiz : SessionQuizItem.t) (p : Page) (s : SessionData.t)
         (selected : Z) (err : JsError),
    session p = Some s ->
    answerable dateParse quiz p ->
    selectedQuizOptions (quizPanel p) !! SessionQuizItem.id quiz = Some selected ->
    submitAnswer env = Rejected err ->
    let out := handleQuizAnswer getEngagementWebSocketUrl dateParse env quiz p in
    logOf out = [SubmitSessionQuizAnswer (SessionData.id s) (SessionQuizItem.id quiz) selected] /\
    selectedQuizOptions (quizPanel (stateOf out)) = selectedQuizOptions (quizPanel p) /\
    quizFeedback (quizPanel (stateOf out)) = Some (submitFailureFeedback err) /\
    answeringQuizId (quizPanel (stateOf out)) = None /\
    activeQuizzes (quizPanel (stateOf out)) = activeQuizzes (quizPanel p) /\
    activity (stateOf out) = activity p.
Proof.
  intros getUrl dateParse env quiz p s selected err Hs Hopen Hsel Hrej out.
  apply (wp_run (handleQuizAnswer getUrl dateParse env quiz)
           (fun _ p1 l =>
              l = [SubmitSessionQuizAnswer (SessionData.id s) (SessionQuizItem.id quiz) selected] /\
              selectedQuizOptions (quizPanel p1) = selectedQuizOptions (quizPanel p) /\
              quizFeedback (quizPanel p1) = Some (submitFailureFeedback err) /\
              answeringQuizId (quizPanel p1) = None /\
              activeQuizzes (quizPanel p1) = activeQuizzes (quizPanel p) /\
              activity p1 = activity p)).
  unfold handleQuizAnswer, submitSessionQuizAnswer.
  apply wp_call, wp_bind, wp_get. rewrite Hs. cbn beta iota.
  not_timed_out Hopen; [rewrite Hopen|].
  all: wp_go; try congruence.
  all: repeat split; congruence.
Qed.

Lemma rejected_submission_keeps_selection_witness :
  logOf (handleQuizAnswer exampleUrl exampleDateParse rejectingQuizEnv snapshotQuiz
                          selectingPage)
    = [SubmitSessionQuizAnswer 7 4 1].
Proof.
  apply (rejected_submission_keeps_selection exampleUrl exampleDateParse rejectingQuizEnv
           snapshotQuiz selectingPage exampleSession 1%Z
           (Some "Quiz already answered"%string));
    reflexivity.
Defined.

(** Property X12.  An accepted submission is single-shot: one submit request with the
    chosen option, then the refresh of the active list and of the statistics;
    the selection of that checkpoint is removed and the others are kept, the
    answer time is recorded for the composer, and the in-flight marker is
    cleared. *)
Theorem accepted_submission_is_single_shot :
  forall (getEngagementWebSocketUrl : Z -> string) (dateParse : string -> option Z)
         (env : QuizEnv) (quiz : SessionQuizItem.t) (p : Page) (s : SessionData.t)
         (selected : Z) (result : SubmitResult),
    session p = Some s ->
    answerable dateParse quiz p ->
    selectedQuizOptions (quizPanel p) !! SessionQuizItem.id quiz = Some selected ->
    submitAnswer env = Resolved result ->
    let out := handleQuizAnswer getEngagementWebSocketUrl dateParse env quiz p in
    completionOf out = Normal tt /\
    quizRequests (logOf out) = requestsAfterSubmit p s quiz selected /\
    selectedQuizOptions (quizPanel (stateOf out))
      = delete (SessionQuizItem.id quiz) (selectedQuizOptions (quizPanel p)) /\
    quizFeedback (quizPanel (stateOf out)) = Some (submittedFeedback result selected) /\
    answeringQuizId (quizPanel (stateOf out)) = None /\
    answeredQuizAtRef (activity (stateOf out)) = Some (answeredAt env) /\
    activeQuizzes (quizPanel (stateOf out)) = answeredQuizzes (activeAnswer env).
Proof.
  intros getUrl dateParse env quiz p s selected result Hs Hopen Hsel Hres out.
  apply (wp_run (handleQuizAnswer getUrl dateParse env quiz)
           (fun c p1 l =>
              c = Normal tt /\
              quizRequests l = requestsAfterSubmit p s quiz selected /\
              selectedQuizOptions (quizPanel p1)
                = delete (SessionQuizItem.id quiz) (selectedQuizOptions (quizPanel p)) /\
              quizFeedback (quizPanel p1) = Some (submittedFeedback result selected) /\
              answeringQuizId (quizPanel p1) = None /\
              answeredQuizAtRef (activity p1) = Some (answeredAt env) /\
              activeQuizzes (quizPanel p1) = answeredQuizzes (activeAnswer env))).
  unfold handleQuizAnswer, submitSessionQuizAnswer, loadActiveQuizzes, loadQuizStats.
  apply wp_call, wp_bind, wp_get. rewrite Hs. cbn beta iota.
  not_timed_out Hopen; [rewrite Hopen|].
  all: repeat (first [ progress page_simpl
                     | lazymatch goal with
                       | |- wp (sendTelemetrySignal _ _) _ _ =>
                           use_spec sendTelemetrySignal_quizFrame;
                           unfold quizFrame in *; split_hyps
                       end
                     | wp_step ]); try congruence.
  all: unfold requestsAfterSubmit, submittedFeedback, answeredQuizzes.
  all: page_simpl_all.
  all: repeat match goal with
              | H : quizPanel _ = _ |- _ => rewrite H; clear H
              | H : answeredQuizAtRef _ = _ |- _ => rewrite H; clear H
              end.
  all: page_simpl.
  all: bool_hyps; rewrite_hyps; rewrite ?app_nil_r.
  all: repeat split; try reflexivity.
  all: unfold quizRequests; cbn [List.filter isQuizRequest];
    repeat match goal with
           | H : quizRequests ?l = [] |- context [List.filter isQuizRequest ?l] =>
               change (List.filter isQuizRequest l) with (quizRequests l); rewrite H
           end; reflexivity.
Qed.

Lemma accepted_submission_is_single_shot_witness :
  quizRequests (logOf (handleQuizAnswer exampleUrl exampleDateParse exampleQuizEnv
                                        snapshotQuiz selectingPage))
    = [SubmitSessionQuizAnswer 7 4 1; ListActiveSessionQuizzes 7; GetMySessionQuizStats 7].
Proof.
  apply (accepted_submission_is_single_shot exampleUrl exampleDateParse exampleQuizEnv
           snapshotQuiz selectingPage exampleSession 1%Z
           (mkSubmitResult true (Some 1%Z)));
    reflexivity.
Defined.

Lemma connect_busy_is_noop getUrl throws p existing :
  engagementWsRef (devices p) = Some existing ->
  isOpen existing || isConnecting existing = true ->
  connectEngagementSocket getUrl throws p = (Normal tt, p, []).
Proof.
  intros Href Hbusy.
  unfold connectEngagementSocket, call, bind, get, returnNow, ret.
  destruct (session p) as [s|]; [|reflexivity].
  destruct (negb (joined p) || negb (sessionIsLive s)); [reflexivity|].
  rewrite Href, Hbusy. reflexivity.
Qed.

(** Property X13.  With a token in the URL, a joined live page that holds no socket opens
    exactly one: [connectEngagementSocket] constructs it, stores it with its
    handlers and shows CONNECTING; a second call constructs nothing more. *)
Theorem connect_opens_one_socket :
  forall (getEngagementWebSocketUrl : Z -> string) (p : Page) (s : SessionData.t),
    session p = Some s ->
    joined p = true ->
    SessionData.status s = "LIVE"%string ->
    engagementWsRef (devices p) = None ->
    Js.includes (getEngagementWebSocketUrl (SessionData.id s)) "token=" = true ->
    let url := getEngagementWebSocketUrl (SessionData.id s) in
    let first := connectEngagementSocket getEngagementWebSocketUrl None p in
    let second := connectEngagementSocket getEngagementWebSocketUrl None (stateOf first) in
    logOf first = [NewWebSocket url] /\
    engagementWsRef (devices (stateOf first)) = Some (connectingSocket p url) /\
    socketState (display (stateOf first)) = SocketState.CONNECTING /\
    second = (Normal tt, stateOf first, []).
Proof.
  intros getUrl p s Hs Hjoined Hstatus Hnone Htoken url first second.
  assert (Hlive : sessionIsLive s = true).
  { unfold sessionIsLive. rewrite Hstatus. reflexivity. }
  assert (Hfirst :
            logOf first = [NewWebSocket url] /\
            engagementWsRef (devices (stateOf first)) = Some (connectingSocket p url) /\
            socketState (display (stateOf first)) = SocketState.CONNECTING).
  { apply (wp_run (connectEngagementSocket getUrl None)
             (fun _ p1 l =>
                l = [NewWebSocket url] /\
                engagementWsRef (devices p1) = Some (connectingSocket p url) /\
                socketState (display p1) = SocketState.CONNECTING)).
    subst url. unfold connectEngagementSocket, newWebSocket.
    apply wp_call, wp_bind, wp_get. rewrite Hs. cbn beta iota.
    rewrite Hjoined, Hlive, Hnone. cbn [negb orb].
    wp_go; try discriminate.
    all: repeat split. }
  destruct Hfirst as (Hlog & Hheld & Hstate).
  repeat split; try assumption.
  apply (connect_busy_is_noop getUrl None (stateOf first) (connectingSocket p url) Hheld).
  reflexivity.
Qed.

Lemma connect_opens_one_socket_witness :
  logOf (connectEngagementSocket exampleUrl None offlinePage)
    = [NewWebSocket "wss://classroom.example/ws/engagement/7?token=jwt"].
Proof.
  apply (connect_opens_one_socket exampleUrl offlinePage exampleSession); reflexivity.
Defined.

(** Property X14.  A close of the held socket shows DISCONNECTED and clears the handle, so
    that the next [connectEngagementSocket] constructs a socket again; a
    close of any other socket leaves the handle in place. *)
Theorem close_clears_only_the_held_socket :
  forall (p : Page) (held : WebSocket) (closing : nat),
    engagementWsRef (devices p) = Some held ->
    let after := stateOf (wsOnclose closing p) in
    socketState (display after) = SocketState.DISCONNECTED /\
    engagementWsRef (devices after) = (if Nat.eqb (wsId held) closing then None else Some held) /\
    logOf (wsOnclose closing p) = [].
Proof.
  intros p held closing Hheld after.
  apply (wp_run (wsOnclose closing)
           (fun _ p1 l =>
              socketState (display p1) = SocketState.DISCONNECTED /\
              engagementWsRef (devices p1)
                = (if Nat.eqb (wsId held) closing then None else Some held) /\
              l = [])).
  unfold wsOnclose. wp_go.
  all: rewrite_hyps; repeat split; first [reflexivity | assumption].
Qed.

Lemma close_clears_only_the_held_socket_witness :
  engagementWsRef (devices (stateOf (wsOnclose 0 examplePage))) = None.
Proof.
  apply (close_clears_only_the_held_socket examplePage exampleSocket 0).
  reflexivity.
Defined.

(** Property X15.  [disconnectEngagementSocket] closes the held socket once and forgets
    it; with nothing held it does nothing. *)
Theorem disconnect_closes_once :
  forall (p : Page),
    let out := disconnectEngagementSocket p in
    engagementWsRef (devices (stateOf out)) = None /\
    logOf out = match engagementWsRef (devices p) with
                | Some held => [SocketClose (wsId held)]
                | None => []
                end /\
    disconnectEngagementSocket (stateOf out) = (Normal tt, stateOf out, []).
Proof.
  intros p out.
  assert (Hmain :
            engagementWsRef (devices (stateOf out)) = None /\
            logOf out = match engagementWsRef (devices p) with
                        | Some held => [SocketClose (wsId held)]
                        | None => []
                        end).
  { apply (wp_run disconnectEngagementSocket
             (fun _ p1 l =>
                engagementWsRef (devices p1) = None /\
                l = match engagementWsRef (devices p) with
                    | Some held => [SocketClose (wsId held)]
                    | None => []
                    end)).
    unfold disconnectEngagementSocket. apply wp_bind, wp_get.
    destruct (engagementWsRef (devices p)) as [held|] eqn:Hheld.
    - wp_go. split; reflexivity.
    - wp_go. split; [exact Hheld | reflexivity]. }
  destruct Hmain as [Hnone Hlog]. repeat split; try assumption.
  unfold disconnectEngagementSocket, bind, get, ret. rewrite Hnone. reflexivity.
Qed.

(** ** Further properties of the insights channel *)

(** Property X16.  A topic change while the socket is still connecting sends nothing, and
    the subscription that [onopen] sends afterwards carries the topic the
    handler closed over, not the one now selected. *)
Theorem topic_change_while_connecting_is_not_sent :
  forall (getEngagementWebSocketUrl : Z -> string) (p : Teacher.Page)
         (held : Teacher.InsightsSocket) (value : TopicDifficulty.t)
         (env : Teacher.RenderEnv) (hour : Z),
    Teacher.engagementWsRef p = Some held ->
    readyState (Teacher.socket held) = ReadyState.CONNECTING ->
    let rendered := Teacher.render getEngagementWebSocketUrl
                      (Teacher.SetTopicDifficulty value, env) p in
    let opened := Teacher.wsOnopen hour (stateOf rendered) in
    logOf rendered = [] /\
    Teacher.topicDifficulty (stateOf rendered) = value /\
    logOf opened =
      [SocketSend (wsId (Teacher.socket held))
                  (subscribe_insights (Teacher.closedOverTopic held) hour)] /\
    Teacher.topicDifficulty (stateOf opened) = value /\
    Teacher.engagementSocketState (stateOf opened) = SocketState.CONNECTED.
Proof.
  intros getUrl p held value env hour Hheld Hready rendered opened.
  assert (Hclosed : isOpen (Teacher.socket held) = false).
  { unfold isOpen. rewrite Hready. reflexivity. }
  assert (Hrender :
            logOf rendered = [] /\
            Teacher.topicDifficulty (stateOf rendered) = value /\
            Teacher.engagementWsRef (stateOf rendered) = Some held).
  { apply (wp_run (Teacher.render getUrl (Teacher.SetTopicDifficulty value, env))
             (fun _ p1 l =>
                l = [] /\ Teacher.topicDifficulty p1 = value /\
                Teacher.engagementWsRef p1 = Some held)).
    unfold Teacher.render, Teacher.applyUpdate, Teacher.setTopicDifficulty,
      Teacher.resubscribeEffect, Teacher.socketSend.
    cbn [fst snd].
    apply wp_bind, wp_get. apply wp_bind, wp_modify. apply wp_bind, wp_get.
    teacher_simpl. rewrite sameSession_refl. cbn [negb].
    apply wp_bind, wp_ret. rewrite orb_false_r.
    destruct (TopicDifficulty.eqb (Teacher.topicDifficulty p) value); cbn [negb].
    - apply wp_ret. teacher_simpl. repeat split; assumption.
    - apply wp_call, wp_bind, wp_get. teacher_simpl. rewrite Hheld.
      destruct (Teacher.session p); [rewrite Hclosed; cbn [andb]|];
        apply wp_returnNow; teacher_simpl; repeat split; assumption. }
  destruct Hrender as (Hlog & Htopic & Hstill).
  split; [exact Hlog|]. split; [exact Htopic|].
  apply (wp_run (Teacher.wsOnopen hour)
           (fun _ p1 l =>
              l = [SocketSend (wsId (Teacher.socket held))
                              (subscribe_insights (Teacher.closedOverTopic held) hour)] /\
              Teacher.topicDifficulty p1 = value /\
              Teacher.engagementSocketState p1 = SocketState.CONNECTED)).
  unfold Teacher.wsOnopen, Teacher.socketSend, Teacher.setEngagementWs,
    Teacher.setEngagementSocketState.
  apply wp_bind, wp_get. rewrite Hstill.
  twp_go. repeat split. exact Htopic.
Qed.

Lemma topic_change_while_connecting_is_not_sent_witness :
  logOf (Teacher.wsOnopen 10
           (stateOf (Teacher.render exampleUrl
                       (Teacher.SetTopicDifficulty TopicDifficulty.HIGH,
                        Teacher.mkRenderEnv 10 None)
                       connectingTeacherPage)))
    = [SocketSend 0 (subscribe_insights TopicDifficulty.MEDIUM 10)].
Proof.
  apply (topic_change_while_connecting_is_not_sent exampleUrl connectingTeacherPage
           connectingInsightsSocket TopicDifficulty.HIGH (Teacher.mkRenderEnv 10 None) 10);
    reflexivity.
Defined.

(** Property X17.  When the session object is replaced by one that is not LIVE (or by
    none), the render closes the held socket once, forgets it, shows
    DISCONNECTED, and sends nothing. *)
Theorem session_end_closes_insights_socket :
  forall (getEngagementWebSocketUrl : Z -> string) (p : Teacher.Page)
         (old : Teacher.SessionObject) (held : Teacher.InsightsSocket)
         (next : option Teacher.SessionObject) (env : Teacher.RenderEnv),
    Teacher.session p = Some old ->
    sessionIsLive (Teacher.data old) = true ->
    Teacher.engagementWsRef p = Some held ->
    Teacher.sameSession (Some old) next = false ->
    match next with
    | Some s => sessionIsLive (Teacher.data s) = false
    | None => True
    end ->
    let out := Teacher.render getEngagementWebSocketUrl (Teacher.SetSession next, env) p in
    logOf out = [SocketClose (wsId (Teacher.socket held))] /\
    Teacher.engagementWsRef (stateOf out) = None /\
    Teacher.engagementSocketState (stateOf out) = SocketState.DISCONNECTED /\
    Teacher.session (stateOf out) = next.
Proof.
  intros getUrl p old held next env Hold Hlive Hheld Hdiff Hended out.
  apply (wp_run (Teacher.render getUrl (Teacher.SetSession next, env))
           (fun _ p1 l =>
              l = [SocketClose (wsId (Teacher.socket held))] /\
              Teacher.engagementWsRef p1 = None /\
              Teacher.engagementSocketState p1 = SocketState.DISCONNECTED /\
              Teacher.session p1 = next)).
  unfold Teacher.render, Teacher.applyUpdate, Teacher.setSession.
  cbn [fst snd].
  apply wp_bind, wp_get. apply wp_bind, wp_modify. apply wp_bind, wp_get.
  teacher_simpl. rewrite Hold, Hdiff. cbn [negb orb].
  unfold Teacher.socketEffectCleanup, Teacher.socketEffect, Teacher.resubscribeEffect,
    Teacher.disconnectEngagementSocket, Teacher.setEngagementWs,
    Teacher.setEngagementSocketState.
  rewrite Hold, Hlive.
  destruct next as [s|]; twp_go; try congruence.
  all: repeat split.
Qed.

Lemma session_end_closes_insights_socket_witness :
  logOf (Teacher.render exampleUrl
           (Teacher.SetSession (Some endedTeacherSession), Teacher.mkRenderEnv 10 None)
           exampleTeacherPage)
    = [SocketClose 0].
Proof.
  apply (session_end_closes_insights_socket exampleUrl exampleTeacherPage
           exampleTeacherSession exampleInsightsSocket (Some endedTeacherSession)
           (Teacher.mkRenderEnv 10 None));
    reflexivity.
Defined.

(** Property X18.  The teacher's countdown follows the first checkpoint that is still
    active, is unknown when none is, and does not grow when the clock moves
    to a later reading. *)
Theorem teacher_countdown_tracks_first_active_quiz :
  forall (dateParse : string -> option Z) (p : Teacher.Page) (nowMs : Z),
    (Teacher.quizClock p <= nowMs)%Z ->
    let ticked := stateOf (Teacher.setQuizClock nowMs p) in
    leOption (Teacher.activeRemainingSeconds dateParse ticked)
             (Teacher.activeRemainingSeconds dateParse p) /\
    (forallb (fun quiz => negb (TeacherQuizItem.is_active quiz)) (Teacher.quizzes p) = true ->
     Teacher.activeRemainingSeconds dateParse p = None) /\
    (forall closed quiz rest,
        Teacher.quizzes p = closed ++ quiz :: rest ->
        forallb (fun q => negb (TeacherQuizItem.is_active q)) closed = true ->
        TeacherQuizItem.is_active quiz = true ->
        Teacher.activeRemainingSeconds dateParse p
          = quizRemainingSeconds dateParse quiz (Teacher.quizClock p)).
Proof.
  intros dateParse p nowMs Hle ticked. split; [|split].
  - unfold ticked, Teacher.activeRemainingSeconds, Teacher.setQuizClock, modify, stateOf.
    teacher_simpl.
    destruct (List.find TeacherQuizItem.is_active (Teacher.quizzes p)) as [quiz|];
      [|exact I].
    apply quizRemainingSeconds_antitone. exact Hle.
  - intro Hnone. unfold Teacher.activeRemainingSeconds.
    induction (Teacher.quizzes p) as [|quiz rest IH]; [reflexivity|].
    cbn [forallb] in Hnone. apply andb_true_iff in Hnone as [Hquiz Hrest].
    apply negb_true_iff in Hquiz. cbn [List.find]. rewrite Hquiz. exact (IH Hrest).
  - intros closed quiz rest Hsplit Hclosed Hactive.
    unfold Teacher.activeRemainingSeconds. rewrite Hsplit. clear Hsplit.
    induction closed as [|q closed IH].
    + cbn [app List.find]. rewrite Hactive. reflexivity.
    + cbn [forallb] in Hclosed. apply andb_true_iff in Hclosed as [Hq Hclosed].
      apply negb_true_iff in Hq. cbn [app List.find]. rewrite Hq. exact (IH Hclosed).
Qed.

Lemma teacher_countdown_tracks_first_active_quiz_witness :
  Teacher.activeRemainingSeconds exampleDateParse quizTeacherPage = Some 40%Q /\
  Teacher.activeRemainingSeconds exampleDateParse
    (stateOf (Teacher.setQuizClock 21000 quizTeacherPage)) = Some 39%Q /\
  leOption
    (Teacher.activeRemainingSeconds exampleDateParse
       (stateOf (Teacher.setQuizClock 21000 quizTeacherPage)))
    (Teacher.activeRemainingSeconds exampleDateParse quizTeacherPage).
Proof.
  assert (Hlater : (Teacher.quizClock quizTeacherPage <= 21000)%Z)
    by (vm_compute; discriminate).
  destruct (teacher_countdown_tracks_first_active_quiz exampleDateParse quizTeacherPage
              21000 Hlater) as (Hle & _ & Hfirst).
  split; [|split].
  - rewrite (Hfirst [closedTeacherQuiz] activeTeacherQuiz [] eq_refl eq_refl eq_refl).
    reflexivity.
  - reflexivity.
  - exact Hle.
Defined.

Lemma hiddenWithin_later joinedAt t1 t2 a :
  (t1 <= t2)%Z -> hiddenWithin joinedAt t1 a -> hiddenWithin joinedAt t2 a.
Proof.
  unfold hiddenWithin. intros Hle (Hjoin & Hacc & Hrest).
  repeat split; try assumption.
  destruct (hiddenStartedAtRef a); lia.
Qed.

Lemma last_default_irrelevant (l : list Z) a d1 d2 :
  List.last (a :: l) d1 = List.last (a :: l) d2.
Proof.
  revert a. induction l as [|b l IH]; intro a; [reflexivity|].
  change (List.last (b :: l) d1 = List.last (b :: l) d2). apply IH.
Qed.

Lemma last_cons (l : list Z) a d : List.last (a :: l) d = List.last l a.
Proof.
  destruct l as [|b l]; [reflexivity|].
  change (List.last (b :: l) d = List.last (b :: l) a). apply last_default_irrelevant.
Qed.

Lemma nondecreasingFrom_app start l1 l2 :
  nondecreasingFrom start (l1 ++ l2) <->
  nondecreasingFrom start l1 /\ nondecreasingFrom (lastReading start l1) l2.
Proof.
  revert start. induction l1 as [|t l1 IH]; intro start; cbn [app nondecreasingFrom].
  - unfold lastReading. cbn. tauto.
  - rewrite IH. unfold lastReading. rewrite last_cons. tauto.
Qed.

Lemma lastReading_app start l1 l2 :
  lastReading start (l1 ++ l2) = lastReading (lastReading start l1) l2.
Proof.
  unfold lastReading. revert start. induction l1 as [|t l1 IH]; intro start.
  - reflexivity.
  - cbn [app]. rewrite !last_cons. apply IH.
Qed.

Lemma activityStep_spec joinedAt start event p :
  (joinedAt <= start)%Z ->
  hiddenWithin joinedAt start (activity p) ->
  nondecreasingFrom start (eventTimes event) ->
  wp (activityStep event)
     (fun c p1 l =>
        c = Normal tt /\ l = [] /\
        hiddenWithin joinedAt (lastReading start (eventTimes event)) (activity p1)) p.
Proof.
  intros Hstart (Hjoin & Hacc & Hhidden) Htimes.
  destruct event as [nowMs interactionNow doc|nowMs| |nowMs];
    cbn [eventTimes nondecreasingFrom] in Htimes;
    unfold activityStep, onVisibilityChange, onFocus, onBlur, registerInteraction,
      setHiddenAccumulated, setHiddenStartedAt, setFocused, lastReading, hiddenWithin;
    cbn [eventTimes List.last].
  - destruct (visibilityState doc); [destruct (hiddenStartedAtRef (activity p)) eqn:Hstarted|].
    all: wp_go; try congruence.
    all: repeat match goal with
                | H : hiddenStartedAtRef _ = Some _ |- _ => rewrite H in *
                | H : hiddenStartedAtRef _ = None |- _ => rewrite H in *
                end.
    all: repeat split; try assumption; try lia.
    all: try (injection Hstarted as <-; lia).
    all: destruct (hiddenStartedAtRef (activity p)); lia.
  - wp_go. repeat split; try assumption. destruct (hiddenStartedAtRef (activity p)); lia.
  - wp_go. repeat split; try assumption.
  - wp_go. repeat split; try assumption. destruct (hiddenStartedAtRef (activity p)); lia.
Qed.

Lemma activityRun_spec joinedAt events :
  forall start p,
    (joinedAt <= start)%Z ->
    hiddenWithin joinedAt start (activity p) ->
    nondecreasingFrom start (clockReadings events) ->
    wp (activityRun events)
       (fun c p1 l =>
          c = Normal tt /\ l = [] /\
          (joinedAt <= lastReading start (clockReadings events))%Z /\
          hiddenWithin joinedAt (lastReading start (clockReadings events)) (activity p1)) p.
Proof.
  induction events as [|event rest IH]; intros start p Hstart Hinv Htimes.
  - apply wp_ret. split; [reflexivity|]. split; [reflexivity|]. split; assumption.
  - unfold activityRun, clockReadings in *. cbn [forEach flat_map] in *.
    apply nondecreasingFrom_app in Htimes as [Hevent Hrest].
    apply wp_bind.
    eapply wp_mono; [apply (activityStep_spec joinedAt start event p Hstart Hinv Hevent)|].
    cbn beta. intros c p1 l (-> & -> & Hinv1).
    assert (Hnext : (joinedAt <= lastReading start (eventTimes event))%Z).
    { clear - Hstart Hevent. destruct event; cbn in *; unfold lastReading; cbn; lia. }
    eapply wp_mono; [apply (IH _ p1 Hnext Hinv1 Hrest)|].
    cbn beta. intros c2 p2 l2 (-> & -> & Hlast & Hinv2).
    rewrite lastReading_app. split; [reflexivity|]. split; [reflexivity|].
    split; assumption.
Qed.

(** Property X19.  Hidden time never exceeds the time since the join: after any run of the
    listeners whose clock readings do not go back, from a fresh join, the
    composer computes a hidden time between 0 and the elapsed time, so the
    visible ratio needs no clamping. *)
Theorem hidden_time_within_elapsed_time :
  forall (joinedAt : Z) (events : list ActivityEvent) (p : Page) (nowMs : Z),
    (0 < joinedAt)%Z ->
    freshlyJoined joinedAt (activity p) ->
    nondecreasingFrom joinedAt (clockReadings events) ->
    (lastReading joinedAt (clockReadings events) <= nowMs)%Z ->
    let a := activity (stateOf (activityRun events p)) in
    logOf (activityRun events p) = [] /\
    (0 <= hiddenMs a nowMs <= sessionElapsedMs a nowMs)%Z /\
    (visibleRatio a nowMs ==
       1 - inject_Z (hiddenMs a nowMs) / inject_Z (sessionElapsedMs a nowMs))%Q.
Proof.
  intros joinedAt events p nowMs Hpos (Hjoin & Hzero & Hnone) Htimes Hnow a.
  assert (Hinv0 : hiddenWithin joinedAt joinedAt (activity p)).
  { unfold hiddenWithin. rewrite Hjoin, Hzero, Hnone. repeat split; lia. }
  pose proof (wp_run _ _ _
                (activityRun_spec joinedAt events joinedAt p (Z.le_refl _) Hinv0 Htimes))
    as (_ & Hlog & Hlast & Hinv).
  fold a in Hinv. destruct Hinv as (Hjoined & Hacc & Hhidden).
  assert (Hbounds : (0 <= hiddenMs a nowMs <= sessionElapsedMs a nowMs)%Z).
  { unfold hiddenMs, sessionElapsedMs, joinAt, Js.orElse. rewrite Hjoined.
    destruct (Z.eqb_spec joinedAt 0); [lia|].
    destruct (hiddenStartedAtRef a); lia. }
  split; [exact Hlog|]. split; [exact Hbounds|].
  assert (Helapsed : (1 <= sessionElapsedMs a nowMs)%Z).
  { unfold sessionElapsedMs. lia. }
  set (hidden := hiddenMs a nowMs) in *. set (elapsed := sessionElapsedMs a nowMs) in *.
  assert (Hratio : (0 <= inject_Z hidden / inject_Z elapsed)%Q /\
                   (inject_Z hidden / inject_Z elapsed <= 1)%Q).
  { assert (Hq : (0 < inject_Z elapsed)%Q) by (rewrite <- (Zlt_Qlt 0); lia).
    split.
    - apply Qle_shift_div_l; [exact Hq|]. rewrite Qmult_0_l, <- (Zle_Qle 0). lia.
    - apply Qle_shift_div_r; [exact Hq|]. rewrite Qmult_1_l, <- Zle_Qle. lia. }
  unfold visibleRatio. fold hidden elapsed.
  unfold clamp, clampBetween, Js.max, Js.min.
  rewrite Q.min_r by lra. rewrite Q.max_r by lra. reflexivity.
Qed.

Lemma hidden_time_within_elapsed_time_witness :
  (0 <= hiddenMs (activity (stateOf (activityRun exampleActivityEvents freshPage))) 7000
     <= sessionElapsedMs (activity (stateOf (activityRun exampleActivityEvents freshPage)))
                         7000)%Z.
Proof.
  apply (hidden_time_within_elapsed_time 1000 exampleActivityEvents freshPage 7000).
  - lia.
  - repeat split.
  - simpl. lia.
  - vm_compute. discriminate.
Defined.

Lemma activityStep_count event p :
  wp (activityStep event)
     (fun c p1 l =>
        c = Normal tt /\
        interactionCountRef (activity p1)
          = (interactionCountRef (activity p)
             + if registersInteraction event then 1 else 0)%Z /\
        session p1 = session p /\ joined p1 = joined p /\ devices p1 = devices p /\
        display p1 = display p /\ showMeeting p1 = showMeeting p) p.
Proof.
  destruct event as [nowMs interactionNow doc|nowMs| |nowMs];
    unfold activityStep, onVisibilityChange, onFocus, onBlur, registerInteraction,
      setHiddenAccumulated, setHiddenStartedAt, setFocused, registersInteraction.
  - destruct (visibilityState doc); wp_go; repeat split; lia.
  - wp_go; repeat split.
  - wp_go; repeat split. lia.
  - wp_go; repeat split.
Qed.

Lemma isActiveId_spec quizzes quizId :
  isActiveId quizzes quizId = true <-> quizId ∈ activeIds quizzes.
Proof.
  unfold isActiveId, activeIds. rewrite elem_of_list_to_set, existsb_exists. split.
  - intros (x & Hin & Heq). apply Z.eqb_eq in Heq. subst x.
    apply list_elem_of_In. exact Hin.
  - intro Hin. exists quizId. split; [apply list_elem_of_In; exact Hin|apply Z.eqb_refl].
Qed.

Lemma pruneSelections_lookup quizzes prev quizId :
  pruneSelections quizzes prev !! quizId
    = if isActiveId quizzes quizId then prev !! quizId else None.
Proof.
  unfold pruneSelections.
  apply (map_fold_weak_ind
           (fun next (m : gmap Z Z) =>
              next !! quizId = if isActiveId quizzes quizId then m !! quizId else None)).
  - rewrite lookup_empty. destruct (isActiveId quizzes quizId); reflexivity.
  - intros i x m r Hfresh IH.
    destruct (decide (i ∈ activeIds quizzes)) as [Hactive|Hinactive].
    + destruct (decide (i = quizId)) as [->|Hne].
      * rewrite !lookup_insert_eq.
        apply isActiveId_spec in Hactive. rewrite Hactive. reflexivity.
      * rewrite !lookup_insert_ne by exact Hne. exact IH.
    + rewrite IH. destruct (isActiveId quizzes quizId) eqn:Hq; [|reflexivity].
      destruct (decide (i = quizId)) as [->|Hne].
      * apply isActiveId_spec in Hq. contradiction.
      * rewrite lookup_insert_ne by exact Hne. reflexivity.
Qed.

Lemma pruneSelections_idempotent quizzes prev :
  pruneSelections quizzes (pruneSelections quizzes prev) = pruneSelections quizzes prev.
Proof.
  apply map_eq. intro quizId. rewrite !pruneSelections_lookup.
  destruct (isActiveId quizzes quizId); reflexivity.
Qed.

(** Property X20.  After the effect that follows a change of the active checkpoints, the
    selection of every checkpoint still active is the one the student made,
    the selection of every other checkpoint is gone, every other field of
    the page is as it was, nothing is sent, and a second run changes
    nothing. *)
Theorem selections_follow_active_checkpoints :
  forall (p : Page) (quizId : Z),
    let after := stateOf (selectionEffect p) in
    selectedQuizOptions (quizPanel after) !! quizId
      = (if isActiveId (activeQuizzes (quizPanel p)) quizId
         then selectedQuizOptions (quizPanel p) !! quizId
         else None) /\
    activeQuizzes (quizPanel after) = activeQuizzes (quizPanel p) /\
    quizStats (quizPanel after) = quizStats (quizPanel p) /\
    answeringQuizId (quizPanel after) = answeringQuizId (quizPanel p) /\
    quizFeedback (quizPanel after) = quizFeedback (quizPanel p) /\
    quizClock (quizPanel after) = quizClock (quizPanel p) /\
    session after = session p /\ joined after = joined p /\
    showMeeting after = showMeeting p /\
    display after = display p /\ activity after = activity p /\
    devices after = devices p /\
    logOf (selectionEffect p) = [] /\
    stateOf (selectionEffect after) = after.
Proof.
  intros p quizId after. unfold after, selectionEffect, stateOf, logOf.
  destruct p as [sess j sm disp [quizzes stats answering selected feedback clock] act dev].
  unfold bind, get, setSelectedQuizOptions, modify. page_simpl.
  split; [apply pruneSelections_lookup|]. repeat split.
  unfold withQuizPanel. page_simpl.
  rewrite pruneSelections_idempotent. reflexivity.
Qed.

(** Property X21.  Joining is all or nothing.  With the join button enabled (a session is
    loaded and the page is not joined), an accepted join marks the page
    joined, restarts the activity cells, asks for the active checkpoints and
    does not ask for the statistics; a refused join alerts the user and
    leaves the page as it was.  Either way the button is released. *)
Theorem join_is_all_or_nothing :
  forall (env : JoinEnv) (s0 : JoinPage) (s : SessionData.t),
    session (page s0) = Some s ->
    joined (page s0) = false ->
    let out := handleJoin env s0 in
    joining (stateOf out) = false /\
    match joinAnswer env with
    | Resolved _ =>
        joined (page (stateOf out)) = true /\
        activity (page (stateOf out)) = activityAtJoin env (activity (page s0)) /\
        logOf out = [ JoinSessionRequest (SessionData.id s) "password";
                      PageAction (ListActiveSessionQuizzes (SessionData.id s)) ]
    | Rejected err =>
        page (stateOf out) = page s0 /\
        logOf out = [ JoinSessionRequest (SessionData.id s) "password";
                      Alert (joinFailureMessage err) ]
    end.
Proof.
  intros env [[sess j sm disp qp act dev] joining0] s Hsession Hjoined out.
  cbn in Hsession, Hjoined. subst sess j. subst out.
  destruct env as [answer joinedAt firstAt activeAnswer statsAnswer].
  unfold activityAtJoin, joinFailureMessage. cbn [joinAnswer joinedAtMs firstInteractionMs].
  destruct answer as [[]|err].
  - destruct activeAnswer as [[quizzes|]|activeErr]; vm_compute; repeat split.
  - vm_compute. repeat split.
Qed.

Lemma join_is_all_or_nothing_witness :
  joining (stateOf (handleJoin exampleJoinEnv lobbyPage)) = false.
Proof.
  exact (proj1 (join_is_all_or_nothing exampleJoinEnv lobbyPage exampleSession
                  eq_refl eq_refl)).
Defined.

Lemma reportedInteractions_app l1 l2 :
  reportedInteractions (l1 ++ l2)
    = (reportedInteractions l1 + reportedInteractions l2)%Z.
Proof.
  unfold reportedInteractions. rewrite sentMessages_app.
  induction (sentMessages l1) as [|[ws m] rest IH]; [reflexivity|].
  cbn [app fold_right snd]. destruct m; rewrite IH; lia.
Qed.

Lemma activityStep_quiet event p :
  wp (activityStep event) (fun c p1 l => l = []) p.
Proof.
  destruct event as [nowMs interactionNow doc|nowMs| |nowMs];
    unfold activityStep, onVisibilityChange, onFocus, onBlur, registerInteraction,
      setHiddenAccumulated, setHiddenStartedAt, setFocused.
  - destruct (visibilityState doc); wp_go; reflexivity.
  - wp_go; reflexivity.
  - wp_go; reflexivity.
  - wp_go; reflexivity.
Qed.

Lemma pageStep_conserves getUrl event p :
  wp (pageStep getUrl event)
     (fun c p1 l =>
        c = Normal tt /\
        (reportedInteractions l + interactionCountRef (activity p1)
         = interactionCountRef (activity p)
           + registeredInteractions (listenerEvents [event]))%Z) p.
Proof.
  destruct event as [e|env]; unfold pageStep.
  - pose proof (activityStep_count e p) as Hcount.
    unfold wp in *. destruct (activityStep e p) as [[c p1] l] eqn:Hrun.
    destruct Hcount as (-> & Hcount & _).
    split; [reflexivity|].
    assert (Hlog : l = []).
    { pose proof (activityStep_quiet e p) as Hquiet.
      unfold wp in Hquiet. rewrite Hrun in Hquiet. exact Hquiet. }
    subst l. rewrite Hcount. unfold registeredInteractions. cbn.
    destruct (registersInteraction e); cbn; lia.
  - eapply wp_mono; [apply sendTelemetrySignal_spec|].
    cbn beta. intros c p1 l [-> Hpost]. split; [reflexivity|].
    unfold registeredInteractions. cbn.
    destruct (transmits env p).
    + destruct Hpost as (ws & img & _ & _ & Hsent & Hzero).
      unfold reportedInteractions. rewrite Hsent, Hzero. cbn. lia.
    + destruct Hpost as [Hsent Hkeep].
      unfold reportedInteractions. rewrite Hsent, Hkeep. cbn. lia.
Qed.

Lemma listenerEvents_cons event rest :
  registeredInteractions (listenerEvents (event :: rest))
    = (registeredInteractions (listenerEvents [event])
       + registeredInteractions (listenerEvents rest))%Z.
Proof.
  unfold registeredInteractions, listenerEvents. cbn [flat_map].
  rewrite app_nil_r, List.filter_app, length_app. lia.
Qed.

Lemma pageRun_conserves getUrl events :
  forall p,
    wp (pageRun getUrl events)
       (fun c p1 l =>
          c = Normal tt /\
          (reportedInteractions l + interactionCountRef (activity p1)
           = interactionCountRef (activity p)
             + registeredInteractions (listenerEvents events))%Z) p.
Proof.
  induction events as [|event rest IH]; intro p.
  - apply wp_ret. split; [reflexivity|]. cbn. unfold registeredInteractions. cbn. lia.
  - unfold pageRun. cbn [forEach]. apply wp_bind.
    eapply wp_mono; [apply pageStep_conserves|].
    cbn beta. intros c p1 l [-> Hstep].
    eapply wp_mono; [apply IH|].
    cbn beta. intros c2 p2 l2 [-> Hrest]. split; [reflexivity|].
    rewrite reportedInteractions_app, listenerEvents_cons. lia.
Qed.

(** Property X22.  Every interaction is reported exactly once.  Over any sequence of
    listener events and telemetry cycles, the counts the transmitted samples
    report and the count still held add up to the count held at the start
    plus the interactions registered since: a cycle that fails loses none,
    a cycle that sends reports none twice. *)
Theorem interactions_are_reported_exactly_once :
  forall (getEngagementWebSocketUrl : Z -> string) (events : list PageEvent) (p : Page),
    let out := pageRun getEngagementWebSocketUrl events p in
    (reportedInteractions (logOf out) + interactionCountRef (activity (stateOf out))
     = interactionCountRef (activity p)
       + registeredInteractions (listenerEvents events))%Z.
Proof.
  intros getUrl events p out.
  exact (proj2 (wp_run _ _ _ (pageRun_conserves getUrl events p))).
Qed.

(** ** The checkpoint desk *)

Ltac desk_simpl :=
  cbn beta iota zeta delta
    [fst snd app option_map negb
     Desk.session Desk.quizForm Desk.quizNotice Desk.quizzes Desk.quizLoading
     Desk.participants Desk.quizClock
     Desk.question Desk.optionsText Desk.correctOptionIndex Desk.durationSeconds
     Desk.type Desk.message].

Ltac desk_simpl_all :=
  cbn beta iota zeta delta
    [fst snd app option_map negb
     Desk.session Desk.quizForm Desk.quizNotice Desk.quizzes Desk.quizLoading
     Desk.participants Desk.quizClock
     Desk.question Desk.optionsText Desk.correctOptionIndex Desk.durationSeconds
     Desk.type Desk.message] in *.

Ltac desk_go := repeat (first [ progress desk_simpl | wp_step ]).

Lemma loadQuizzes_spec sessionId silent answer p :
  wp (Desk.loadQuizzes sessionId silent answer)
     (fun c p1 l =>
        c = Normal tt /\
        Desk.session p1 = Desk.session p /\ Desk.quizForm p1 = Desk.quizForm p /\
        Desk.quizNotice p1 = Desk.quizNotice p /\
        Desk.participants p1 = Desk.participants p /\
        Desk.quizClock p1 = Desk.quizClock p /\
        match sessionId with
        | None => l = [] /\ Desk.quizzes p1 = Desk.quizzes p /\
                  Desk.quizLoading p1 = Desk.quizLoading p
        | Some id =>
            l = [Desk.ListSessionQuizzes id] /\
            Desk.quizLoading p1 = (if silent then Desk.quizLoading p else false) /\
            Desk.quizzes p1 = match answer with
                              | Rejected _ => if silent then Desk.quizzes p else []
                              | _ => reloaded answer
                              end
        end) p.
Proof.
  unfold Desk.loadQuizzes, Desk.setQuizzes, Desk.setQuizLoading.
  destruct sessionId as [id|]; destruct silent; destruct answer as [[listed|]|err];
    desk_go; repeat split.
Qed.

Lemma dead_duration_check x :
  Desk.qlt (Js.max 15 (Js.min 3600 x)) 15 || Desk.qlt 3600 (Js.max 15 (Js.min 3600 x))
  = false.
Proof.
  unfold Desk.qlt, Js.max, Js.min.
  destruct (Qlt_le_dec (Qmax 15 (Qmin 3600 x)) 15) as [Hlow|_].
  - exfalso. apply (Qlt_irrefl 15). eapply Qle_lt_trans; [apply Q.le_max_l|exact Hlow].
  - destruct (Qlt_le_dec 3600 (Qmax 15 (Qmin 3600 x))) as [Hhigh|_]; [|reflexivity].
    exfalso. apply (Qlt_irrefl 3600). eapply Qlt_le_trans; [exact Hhigh|].
    apply Q.max_lub; [discriminate|apply Q.le_min_l].
Qed.

Ltac refusal_leaf :=
  repeat split;
  first [ reflexivity
        | eexists; split; [|reflexivity]; cbn; tauto ].

Lemma handleCreateQuiz_spec sessionId createAnswer listAnswer p :
  wp (Desk.handleCreateQuiz sessionId createAnswer listAnswer)
     (createPost sessionId createAnswer listAnswer p) p.
Proof.
  unfold Desk.handleCreateQuiz, Desk.refuse, Desk.readMessage,
    Desk.setQuizNotice, Desk.setQuizForm, createPost, passesChecks.
  destruct p as [sess form notice quizzes loading participants clock].
  destruct sess as [s|]; desk_simpl.
  2:{ desk_go. refusal_leaf. }
  destruct (sessionIsLive s) eqn:Hlive.
  2:{ desk_go; try discriminate. all: refusal_leaf. }
  destruct (Z.of_nat (String.length (JsText.trim (Desk.question form))) <? 5)%Z eqn:Hq.
  { desk_go; try discriminate. all: refusal_leaf. }
  destruct (Z.of_nat (length (Desk.draftOptions form)) <? 2)%Z eqn:Ho.
  { desk_go; try discriminate. all: refusal_leaf. }
  destruct ((Desk.correctOptionIndex form <? 0)%Z
            || (Z.of_nat (length (Desk.draftOptions form))
                  <=? Desk.correctOptionIndex form)%Z) eqn:Hi.
  { desk_go; try discriminate. all: refusal_leaf. }
  cbn [negb andb].
  pose proof (dead_duration_check (JsText.orElse (Desk.durationSeconds form) 60)) as Hdead.
  destruct createAnswer as [|[complaint|message]].
  - desk_go; try discriminate; try congruence.
    all: repeat split.
  - desk_go; try discriminate; try congruence.
    all: repeat split.
  - desk_go; try discriminate; try congruence.
    all: repeat split.
Qed.

Lemma trimStart_headTight s : headTight (JsText.trimStart s) = true.
Proof.
  induction s as [|c rest IH]; [reflexivity|].
  cbn [JsText.trimStart]. destruct (JsText.isWhiteSpace c) eqn:Hc; [exact IH|].
  cbn. rewrite Hc. reflexivity.
Qed.

Lemma trimStart_of_headTight s : headTight s = true -> JsText.trimStart s = s.
Proof.
  destruct s as [|c rest]; [reflexivity|]. cbn. intro Hc.
  apply negb_true_iff in Hc. rewrite Hc. reflexivity.
Qed.

Lemma trimEnd_headTight s : headTight s = true -> headTight (JsText.trimEnd s) = true.
Proof.
  destruct s as [|c rest]; [reflexivity|]. cbn [headTight JsText.trimEnd]. intro Hc.
  destruct (JsText.trimEnd rest); [|exact Hc].
  apply negb_true_iff in Hc. rewrite Hc. cbn. rewrite Hc. reflexivity.
Qed.

Lemma trimEnd_idempotent s : JsText.trimEnd (JsText.trimEnd s) = JsText.trimEnd s.
Proof.
  induction s as [|c rest IH]; [reflexivity|].
  cbn [JsText.trimEnd]. destruct (JsText.trimEnd rest) as [|d kept] eqn:Hrest.
  - destruct (JsText.isWhiteSpace c) eqn:Hc; [reflexivity|].
    cbn. rewrite Hc. reflexivity.
  - cbn [JsText.trimEnd] in *. rewrite IH. reflexivity.
Qed.

Lemma trim_idempotent s : JsText.trim (JsText.trim s) = JsText.trim s.
Proof.
  unfold JsText.trim.
  rewrite (trimStart_of_headTight (JsText.trimEnd (JsText.trimStart s))).
  - apply trimEnd_idempotent.
  - apply trimEnd_headTight, trimStart_headTight.
Qed.

Lemma contains_trimStart c s :
  contains c s = false -> contains c (JsText.trimStart s) = false.
Proof.
  induction s as [|d rest IH]; [reflexivity|].
  intro H. cbn [JsText.trimStart]. destruct (JsText.isWhiteSpace d); [|exact H].
  apply IH. cbn in H. apply orb_false_elim in H. apply H.
Qed.

Lemma contains_trimEnd c s :
  contains c s = false -> contains c (JsText.trimEnd s) = false.
Proof.
  induction s as [|d rest IH]; [reflexivity|].
  intro H. cbn in H. apply orb_false_elim in H. destruct H as [Hd Hrest].
  cbn [JsText.trimEnd]. specialize (IH Hrest).
  destruct (JsText.trimEnd rest) as [|e kept].
  - destruct (JsText.isWhiteSpace d); [reflexivity|]. cbn. rewrite Hd. reflexivity.
  - cbn [contains] in *. rewrite Hd, IH. reflexivity.
Qed.

Lemma split_pieces sep s :
  List.Forall (fun piece => contains sep piece = false) (JsText.split sep s).
Proof.
  induction s as [|c rest IH]; cbn [JsText.split].
  - repeat constructor.
  - destruct (Ascii.eqb c sep) eqn:Hc.
    + constructor; [reflexivity|exact IH].
    + destruct (JsText.split sep rest) as [|first others].
      * constructor; [|constructor]. cbn. rewrite Hc. reflexivity.
      * inversion IH as [|? ? Hfirst Hothers]; subst.
        constructor; [|exact Hothers]. cbn. rewrite Hc. exact Hfirst.
Qed.

Lemma draftOptions_tidy form : forallb tidyOption (Desk.draftOptions form) = true.
Proof.
  unfold Desk.draftOptions. apply forallb_forall. intros option Hin.
  apply filter_In in Hin. destruct Hin as [Hin Htruthy].
  apply in_map_iff in Hin. destruct Hin as (line & <- & Hline).
  pose proof (split_pieces JsText.lineFeed (Desk.optionsText form)) as Hpieces.
  rewrite List.Forall_forall in Hpieces. specialize (Hpieces line Hline).
  unfold tidyOption. rewrite Htruthy, trim_idempotent, String.eqb_refl.
  unfold JsText.trim. rewrite contains_trimEnd; [reflexivity|].
  apply contains_trimStart. exact Hpieces.
Qed.

Lemma clamped_duration_in_range x :
  Desk.qle 15 (Js.max 15 (Js.min 3600 x)) = true /\
  Desk.qle (Js.max 15 (Js.min 3600 x)) 3600 = true.
Proof.
  pose proof (dead_duration_check x) as Hdead.
  apply orb_false_elim in Hdead. unfold Desk.qlt, Desk.qle in *.
  destruct Hdead as [Hlow Hhigh].
  destruct (Qlt_le_dec (Js.max 15 (Js.min 3600 x)) 15); [discriminate|].
  destruct (Qlt_le_dec 3600 (Js.max 15 (Js.min 3600 x))); [discriminate|].
  split; reflexivity.
Qed.

Lemma draftPayload_wellFormed s form :
  passesChecks s form = true -> wellFormed (draftPayload form) = true.
Proof.
  unfold passesChecks, wellFormed, draftPayload.
  cbn [Desk.create_question Desk.create_options Desk.correct_option_index
       Desk.duration_seconds].
  intro H. repeat (apply andb_prop in H; destruct H as [H ?]).
  repeat match goal with
         | H : negb _ = true |- _ => apply negb_true_iff in H
         | H : _ || _ = false |- _ => apply orb_false_elim in H; destruct H
         end.
  destruct (clamped_duration_in_range (JsText.orElse (Desk.durationSeconds form) 60))
    as [Hlow Hhigh].
  rewrite trim_idempotent, String.eqb_refl, draftOptions_tidy, Hlow, Hhigh.
  repeat (apply andb_true_intro; split); try reflexivity; lia.
Qed.

Lemma accepted_form_is_sent sessionId createAnswer listAnswer p s :
  Desk.session p = Some s ->
  passesChecks s (Desk.quizForm p) = true ->
  createRequests (logOf (Desk.handleCreateQuiz sessionId createAnswer listAnswer p))
    = [(SessionData.id s, draftPayload (Desk.quizForm p))].
Proof.
  intros Hsession Hpass.
  pose proof (wp_run _ _ _ (handleCreateQuiz_spec sessionId createAnswer listAnswer p))
    as Hpost.
  unfold createPost in Hpost. rewrite Hsession, Hpass in Hpost.
  destruct Hpost as (_ & Hpost).
  destruct createAnswer as [|[complaint|message]].
  - destruct Hpost as (_ & _ & _ & Hpost).
    destruct sessionId as [id|]; destruct Hpost as (-> & _); reflexivity.
  - destruct Hpost as (_ & -> & _). reflexivity.
  - destruct Hpost as (_ & -> & _). reflexivity.
Qed.

Lemma refused_form_is_kept sessionId createAnswer listAnswer p :
  match Desk.session p with
  | Some s => passesChecks s (Desk.quizForm p) = false
  | None => True
  end ->
  let out := Desk.handleCreateQuiz sessionId createAnswer listAnswer p in
  logOf out = [] /\
  Desk.quizForm (stateOf out) = Desk.quizForm p /\
  Desk.quizzes (stateOf out) = Desk.quizzes p /\
  exists text, In text refusals /\
               Desk.quizNotice (stateOf out) = Some (Desk.mkNotice Desk.ERROR text).
Proof.
  intros Hfails out.
  pose proof (wp_run _ _ _ (handleCreateQuiz_spec sessionId createAnswer listAnswer p))
    as Hpost.
  fold out in Hpost. unfold createPost in Hpost. destruct Hpost as (_ & Hpost).
  destruct (Desk.session p) as [s|].
  - rewrite Hfails in Hpost. destruct Hpost as (_ & Hpost). exact Hpost.
  - destruct Hpost as (_ & Hpost). exact Hpost.
Qed.

(** Property X23.  Whatever the form holds and whatever the server answers, submitting the
    form sends at most one create request, and a request that is sent names
    the live session and is well formed: a trimmed question of five
    characters or more, two or more options that are not empty, trimmed and
    on one line, a correct option among them and a duration from 15 to 3600
    seconds. *)
Theorem published_checkpoint_is_well_formed :
  forall (sessionId : option Z) (createAnswer : Desk.Reply)
         (listAnswer : Answer (option (list TeacherQuizItem.t))) (p : Desk.Page),
    let out := Desk.handleCreateQuiz sessionId createAnswer listAnswer p in
    (length (createRequests (logOf out)) <= 1)%nat /\
    List.Forall (fun request =>
                   namesLiveSession p (fst request) /\ wellFormed (snd request) = true)
                (createRequests (logOf out)).
Proof.
  intros sessionId createAnswer listAnswer p out. unfold namesLiveSession.
  destruct (Desk.session p) as [s|] eqn:Hsession.
  2:{ destruct (refused_form_is_kept sessionId createAnswer listAnswer p) as (Hlog & _).
      { rewrite Hsession. exact I. }
      fold out in Hlog. rewrite Hlog. cbn. split; [lia|constructor]. }
  destruct (passesChecks s (Desk.quizForm p)) eqn:Hpass.
  2:{ destruct (refused_form_is_kept sessionId createAnswer listAnswer p) as (Hlog & _).
      { rewrite Hsession. exact Hpass. }
      fold out in Hlog. rewrite Hlog. cbn. split; [lia|constructor]. }
  assert (Hlive : sessionIsLive s = true).
  { unfold passesChecks in Hpass.
    repeat (apply andb_prop in Hpass; destruct Hpass as [Hpass ?]). exact Hpass. }
  pose proof (draftPayload_wellFormed s _ Hpass) as Hwell.
  unfold out. rewrite (accepted_form_is_sent _ _ _ _ s Hsession Hpass). cbn.
  split; [lia|repeat constructor; assumption].
Qed.

(** Property X24.  A form that is refused is refused for one of four reasons, never for
    its duration, and is left as the teacher wrote it. *)
Theorem refused_form_is_kept_and_never_for_duration :
  forall (sessionId : option Z) (createAnswer : Desk.Reply)
         (listAnswer : Answer (option (list TeacherQuizItem.t))) (p : Desk.Page),
    let out := Desk.handleCreateQuiz sessionId createAnswer listAnswer p in
    createRequests (logOf out) = [] ->
    logOf out = [] /\
    Desk.quizForm (stateOf out) = Desk.quizForm p /\
    Desk.quizzes (stateOf out) = Desk.quizzes p /\
    (exists text, In text refusals /\
                  Desk.quizNotice (stateOf out) = Some (Desk.mkNotice Desk.ERROR text)) /\
    Desk.quizNotice (stateOf out) <> Some (Desk.mkNotice Desk.ERROR durationRefusal).
Proof.
  intros sessionId createAnswer listAnswer p out Hnone.
  assert (Hrefused :
            logOf out = [] /\ Desk.quizForm (stateOf out) = Desk.quizForm p /\
            Desk.quizzes (stateOf out) = Desk.quizzes p /\
            exists text, In text refusals /\
              Desk.quizNotice (stateOf out) = Some (Desk.mkNotice Desk.ERROR text)).
  { apply refused_form_is_kept.
    destruct (Desk.session p) as [s|] eqn:Hsession; [|exact I].
    destruct (passesChecks s (Desk.quizForm p)) eqn:Hpass; [|reflexivity].
    exfalso. unfold out in Hnone.
    rewrite (accepted_form_is_sent _ _ _ _ s Hsession Hpass) in Hnone. discriminate. }
  destruct Hrefused as (Hlog & Hform & Hquizzes & text & Hin & Hnotice).
  repeat split; try assumption.
  - exists text. split; assumption.
  - rewrite Hnotice. intro Heq. injection Heq as ->.
    cbn in Hin. unfold durationRefusal in Hin.
    repeat (destruct Hin as [Hin|Hin]; [discriminate|]). exact Hin.
Qed.

Lemma canPublishQuiz_passes s form :
  Desk.canPublishQuiz s form = true ->
  passesChecks s form = true /\
  (15 <= Desk.durationSeconds form)%Q /\ (Desk.durationSeconds form <= 3600)%Q.
Proof.
  unfold Desk.canPublishQuiz, passesChecks, Desk.qle. intro H.
  repeat (apply andb_prop in H; destruct H as [H ?]).
  destruct (Qlt_le_dec (Desk.durationSeconds form) 15); [discriminate|].
  destruct (Qlt_le_dec 3600 (Desk.durationSeconds form)); [discriminate|].
  split; [|split; assumption].
  repeat (apply andb_true_intro; split); try assumption.
  - apply negb_true_iff. lia.
  - apply negb_true_iff. lia.
  - apply negb_true_iff. apply orb_false_intro; lia.
Qed.

Lemma entered_duration_is_sent d :
  (15 <= d)%Q -> (d <= 3600)%Q ->
  (Js.max 15 (Js.min 3600 (JsText.orElse d 60)) == d)%Q.
Proof.
  intros Hlow Hhigh. unfold JsText.orElse.
  destruct (Qeq_bool d 0) eqn:Hzero.
  - apply Qeq_bool_iff in Hzero. rewrite Hzero in Hlow. exfalso.
    apply (Qlt_irrefl 0). eapply Qlt_le_trans; [|exact Hlow]. reflexivity.
  - unfold Js.max, Js.min. rewrite Q.min_r by exact Hhigh.
    apply Q.max_r. exact Hlow.
Qed.

(** Property X25.  When the publish button is enabled, submitting sends exactly one create
    request, and it carries the form as the teacher entered it: the trimmed
    question, the draft options, the chosen option and the duration as
    typed, not a clamped one. *)
Theorem enabled_button_publishes_the_form_as_entered :
  forall (sessionId : option Z) (createAnswer : Desk.Reply)
         (listAnswer : Answer (option (list TeacherQuizItem.t)))
         (p : Desk.Page) (s : SessionData.t),
    Desk.session p = Some s ->
    Desk.canPublishQuiz s (Desk.quizForm p) = true ->
    let out := Desk.handleCreateQuiz sessionId createAnswer listAnswer p in
    exists payload,
      createRequests (logOf out) = [(SessionData.id s, payload)] /\
      Desk.create_question payload = JsText.trim (Desk.question (Desk.quizForm p)) /\
      Desk.create_options payload = Desk.draftOptions (Desk.quizForm p) /\
      Desk.correct_option_index payload = Desk.correctOptionIndex (Desk.quizForm p) /\
      (Desk.duration_seconds payload == Desk.durationSeconds (Desk.quizForm p))%Q.
Proof.
  intros sessionId createAnswer listAnswer p s Hsession Hcan out.
  apply canPublishQuiz_passes in Hcan. destruct Hcan as (Hpass & Hlow & Hhigh).
  exists (draftPayload (Desk.quizForm p)).
  split; [|repeat split; apply entered_duration_is_sent; assumption].
  apply accepted_form_is_sent; assumption.
Qed.

(** Property X26.  Publishing is all or nothing for the draft.  With the button enabled, an
    accepted request empties the form, announces the checkpoint and reloads
    the list once.  A request refused with a value that is not null or
    undefined keeps the form and the list as they were, shows that value's
    message (or the fallback when it has none) and asks for no reload.  A
    request refused with null or undefined makes the handler itself fail
    with the [TypeError] of reading [err.message]: the form and the list are
    kept, no notice is shown and no reload is asked for. *)
Theorem publish_resets_the_form_only_on_success :
  forall (sessionId : Z) (createAnswer : Desk.Reply)
         (listAnswer : Answer (option (list TeacherQuizItem.t)))
         (p : Desk.Page) (s : SessionData.t),
    Desk.session p = Some s ->
    Desk.canPublishQuiz s (Desk.quizForm p) = true ->
    let out := Desk.handleCreateQuiz (Some sessionId) createAnswer listAnswer p in
    match createAnswer with
    | Desk.Accepted =>
        completionOf out = Normal tt /\
        Desk.quizForm (stateOf out) = Desk.emptyForm /\
        Desk.quizNotice (stateOf out) = Some publishedNotice /\
        listRequests (logOf out) = [sessionId] /\
        Desk.quizzes (stateOf out) = reloaded listAnswer /\
        Desk.quizLoading (stateOf out) = false
    | Desk.Refused (Desk.Carrying message) =>
        completionOf out = Normal tt /\
        Desk.quizForm (stateOf out) = Desk.quizForm p /\
        Desk.quizNotice (stateOf out) = Some (publishFailure message) /\
        listRequests (logOf out) = [] /\
        Desk.quizzes (stateOf out) = Desk.quizzes p /\
        Desk.quizLoading (stateOf out) = Desk.quizLoading p
    | Desk.Refused (Desk.Nullish complaint) =>
        completionOf out = Throw (Some complaint) /\
        Desk.quizForm (stateOf out) = Desk.quizForm p /\
        Desk.quizNotice (stateOf out) = None /\
        listRequests (logOf out) = [] /\
        Desk.quizzes (stateOf out) = Desk.quizzes p /\
        Desk.quizLoading (stateOf out) = Desk.quizLoading p
    end.
Proof.
  intros sessionId createAnswer listAnswer p s Hsession Hcan out.
  apply canPublishQuiz_passes in Hcan. destruct Hcan as (Hpass & _).
  pose proof (wp_run _ _ _ (handleCreateQuiz_spec (Some sessionId) createAnswer
                              listAnswer p)) as Hpost.
  fold out in Hpost. unfold createPost in Hpost.
  rewrite Hsession, Hpass in Hpost. destruct Hpost as (_ & Hpost).
  destruct createAnswer as [|[complaint|message]].
  - destruct Hpost as (Hc & Hform & Hnotice & Hlog & Hloading & Hquizzes).
    rewrite Hlog. repeat split; assumption.
  - destruct Hpost as (Hc & Hlog & Hform & Hquizzes & Hloading & Hnotice).
    rewrite Hlog. repeat split; assumption.
  - destruct Hpost as (Hc & Hlog & Hform & Hquizzes & Hloading & Hnotice).
    rewrite Hlog. repeat split; assumption.
Qed.

Lemma correctOptionEffect_spec p :
  (0 <= Desk.correctOptionIndex (Desk.quizForm p))%Z ->
  wp Desk.correctOptionEffect
     (fun c p1 l =>
        l = [] /\
        p1 = Desk.mkPage (Desk.session p) (withChosenInRange (Desk.quizForm p))
                         (Desk.quizNotice p) (Desk.quizzes p) (Desk.quizLoading p)
                         (Desk.participants p) (Desk.quizClock p)) p.
Proof.
  destruct p as [sess [question text index duration] notice quizzes loading participants
                 clock].
  cbn [Desk.quizForm Desk.correctOptionIndex]. intro Hindex.
  unfold Desk.correctOptionEffect, Desk.setQuizForm, withChosenInRange.
  desk_go.
  all: split; [reflexivity|].
  all: cbn [Desk.question Desk.optionsText Desk.correctOptionIndex Desk.durationSeconds
            Desk.session Desk.quizForm Desk.quizNotice Desk.quizzes Desk.quizLoading
            Desk.participants Desk.quizClock] in *.
  all: repeat match goal with
              | H : _ && _ = true |- _ => apply andb_prop in H; destruct H
              | H : _ && _ = false |- _ => apply andb_false_iff in H
              | H : negb _ = true |- _ => apply negb_true_iff in H
              | H : negb _ = false |- _ => apply negb_false_iff in H
              end.
  all: do 2 f_equal; lia.
Qed.

(** Property X27.  The effect keeps the chosen option among the draft options: an index
    that is not negative becomes the nearest one in range (0 when there is
    no option), the rest of the form is untouched, nothing is sent, and a
    second run changes nothing. *)
Theorem chosen_option_follows_the_draft :
  forall (p : Desk.Page),
    (0 <= Desk.correctOptionIndex (Desk.quizForm p))%Z ->
    let count := Z.of_nat (length (Desk.draftOptions (Desk.quizForm p))) in
    let out := Desk.correctOptionEffect p in
    let form := Desk.quizForm (stateOf out) in
    Desk.correctOptionIndex form
      = Z.min (Desk.correctOptionIndex (Desk.quizForm p)) (Z.max 0 (count - 1)) /\
    Desk.question form = Desk.question (Desk.quizForm p) /\
    Desk.optionsText form = Desk.optionsText (Desk.quizForm p) /\
    Desk.durationSeconds form = Desk.durationSeconds (Desk.quizForm p) /\
    logOf out = [] /\
    stateOf (Desk.correctOptionEffect (stateOf out)) = stateOf out.
Proof.
  intros p Hindex count out form.
  pose proof (wp_run _ _ _ (correctOptionEffect_spec p Hindex)) as [Hlog Hstate].
  fold out in Hlog, Hstate. subst form count. rewrite Hstate.
  cbn [Desk.quizForm withChosenInRange Desk.correctOptionIndex Desk.question
       Desk.optionsText Desk.durationSeconds].
  repeat split; try assumption.
  set (settled := Desk.mkPage _ _ _ _ _ _ _).
  assert (Hsettled : (0 <= Desk.correctOptionIndex (Desk.quizForm settled))%Z).
  { unfold settled, withChosenInRange. cbn. lia. }
  pose proof (wp_run _ _ _ (correctOptionEffect_spec settled Hsettled)) as [_ Hagain].
  rewrite Hagain. unfold settled, withChosenInRange, Desk.draftOptions. cbn.
  do 2 f_equal. lia.
Qed.

(** Property X28.  A background reload that fails changes nothing on the page, and no
    background reload touches the loading flag; a foreground reload always
    ends with the flag down, and with an empty list when it fails.  Either
    kind issues exactly one list request. *)
Theorem background_reload_is_invisible_on_failure :
  forall (sessionId : Z) (answer : Answer (option (list TeacherQuizItem.t)))
         (err : JsError) (p : Desk.Page),
    stateOf (Desk.loadQuizzes (Some sessionId) true (Rejected err) p) = p /\
    Desk.quizLoading (stateOf (Desk.loadQuizzes (Some sessionId) true answer p))
      = Desk.quizLoading p /\
    Desk.quizLoading (stateOf (Desk.loadQuizzes (Some sessionId) false answer p))
      = false /\
    Desk.quizzes (stateOf (Desk.loadQuizzes (Some sessionId) false (Rejected err) p))
      = [] /\
    logOf (Desk.loadQuizzes (Some sessionId) true answer p)
      = [Desk.ListSessionQuizzes sessionId] /\
    logOf (Desk.loadQuizzes (Some sessionId) false answer p)
      = [Desk.ListSessionQuizzes sessionId].
Proof.
  intros sessionId answer err [sess form notice quizzes loading participants clock].
  destruct answer as [[listed|]|failure]; repeat split.
Qed.

Lemma clampRatio_range v : (0 <= clampRatio v)%Q /\ (clampRatio v <= 1)%Q.
Proof.
  unfold clampRatio, Js.max, Js.min. split.
  - apply Q.le_max_l.
  - apply Q.max_lub; [discriminate|apply Q.le_min_l].
Qed.

Lemma guarded_quotient_is_proportion a b :
  (0 < b)%Q -> isProportion (Desk.clampQuotient (JsNumber.divide a b)).
Proof.
  intro Hb. unfold JsNumber.divide.
  destruct (Qeq_bool b 0) eqn:Hzero.
  - apply Qeq_bool_iff in Hzero. rewrite Hzero in Hb. exfalso. exact (Qlt_irrefl 0 Hb).
  - cbn. apply clampRatio_range.
Qed.

Lemma zero_is_proportion : isProportion (JsNumber.Finite 0).
Proof. cbn. split; discriminate. Qed.

(** Property X29.  The three ratios the desk draws as bars are proportions, whatever the
    server reports: response rate, correctness and time left are finite
    numbers between 0 and 1, never [NaN] or an infinity, because each
    division is guarded; where a guard stops the division the ratio is 0:
    with no active checkpoint, no participant, no response, no known
    remaining time, or a duration that is not positive. *)
Theorem desk_ratios_are_proportions :
  forall (dateParse : string -> option Z) (p : Desk.Page),
    isProportion (Desk.activeResponseRate p) /\
    isProportion (Desk.activeCorrectRate p) /\
    isProportion (Desk.activeTimeRatio dateParse p) /\
    (Desk.activeQuiz p = None \/ Desk.participants p = [] ->
     Desk.activeResponseRate p = JsNumber.Finite 0) /\
    (Desk.activeQuiz p = None \/
     (exists quiz, Desk.activeQuiz p = Some quiz /\
                   (TeacherQuizItem.total_responses quiz <= 0)%Z) ->
     Desk.activeCorrectRate p = JsNumber.Finite 0) /\
    (Desk.activeRemainingSeconds dateParse p = None \/
     (Desk.activeDurationSeconds p <= 0)%Q ->
     Desk.activeTimeRatio dateParse p = JsNumber.Finite 0).
Proof.
  intros dateParse p.
  unfold Desk.activeResponseRate, Desk.activeCorrectRate, Desk.activeTimeRatio.
  repeat match goal with |- _ /\ _ => split end.
  - destruct (Desk.activeQuiz p) as [quiz|]; [|apply zero_is_proportion].
    destruct (0 <? Desk.responseTarget p)%Z eqn:Htarget; [|apply zero_is_proportion].
    apply guarded_quotient_is_proportion.
    apply Z.ltb_lt in Htarget. rewrite <- (Zlt_Qlt 0). exact Htarget.
  - destruct (Desk.activeQuiz p) as [quiz|]; [|apply zero_is_proportion].
    destruct (0 <? TeacherQuizItem.total_responses quiz)%Z eqn:Htotal;
      [|apply zero_is_proportion].
    apply guarded_quotient_is_proportion.
    apply Z.ltb_lt in Htotal. rewrite <- (Zlt_Qlt 0). exact Htotal.
  - destruct (Desk.activeRemainingSeconds dateParse p) as [remaining|];
      [|apply zero_is_proportion].
    unfold Desk.qlt.
    destruct (Qlt_le_dec 0 (Desk.activeDurationSeconds p)) as [Hpositive|_];
      [|apply zero_is_proportion].
    apply guarded_quotient_is_proportion. exact Hpositive.
  - intros [Hnone | Hnobody].
    + rewrite Hnone. reflexivity.
    + destruct (Desk.activeQuiz p) as [quiz|]; [|reflexivity].
      unfold Desk.responseTarget. rewrite Hnobody. reflexivity.
  - intros [Hnone | (quiz & Hquiz & Htotal)].
    + rewrite Hnone. reflexivity.
    + rewrite Hquiz. replace (0 <? TeacherQuizItem.total_responses quiz)%Z with false by lia.
      reflexivity.
  - intros [Hnone | Hduration].
    + rewrite Hnone. reflexivity.
    + destruct (Desk.activeRemainingSeconds dateParse p) as [remaining|]; [|reflexivity].
      unfold Desk.qlt.
      destruct (Qlt_le_dec 0 (Desk.activeDurationSeconds p)) as [Hpositive|_];
        [|reflexivity].
      exfalso. apply (Qlt_irrefl 0). eapply Qlt_le_trans; eassumption.
Qed.

Lemma refused_form_is_kept_and_never_for_duration_witness :
  Desk.quizForm (stateOf (Desk.handleCreateQuiz (Some 7%Z) Desk.Accepted
                            (Resolved None) closedDesk))
    = exampleForm.
Proof.
  apply (refused_form_is_kept_and_never_for_duration
           (Some 7%Z) Desk.Accepted (Resolved None) closedDesk).
  reflexivity.
Defined.

Lemma enabled_button_publishes_the_form_as_entered_witness :
  exists payload,
    createRequests (logOf (Desk.handleCreateQuiz (Some 7%Z) Desk.Accepted
                             (Resolved None) exampleDesk))
      = [(SessionData.id exampleSession, payload)] /\
    Desk.create_options payload = ["3"; "4"; "5"]%string.
Proof.
  destruct (enabled_button_publishes_the_form_as_entered
              (Some 7%Z) Desk.Accepted (Resolved None) exampleDesk exampleSession
              eq_refl eq_refl) as (payload & Hsent & _ & Hoptions & _).
  exists payload. split; [exact Hsent|exact Hoptions].
Defined.

Lemma publish_resets_the_form_only_on_success_witness :
  Desk.quizForm (stateOf (Desk.handleCreateQuiz (Some 7%Z)
                            (Desk.Refused (Desk.Carrying (Some "busy"%string)))
                            (Resolved None) exampleDesk))
    = exampleForm /\
  completionOf (Desk.handleCreateQuiz (Some 7%Z)
                  (Desk.Refused (Desk.Nullish "Cannot read properties of null"%string))
                  (Resolved None) exampleDesk)
    = Throw (Some "Cannot read properties of null"%string).
Proof.
  split.
  - apply (publish_resets_the_form_only_on_success
             7%Z (Desk.Refused (Desk.Carrying (Some "busy"%string))) (Resolved None)
             exampleDesk exampleSession eq_refl eq_refl).
  - apply (publish_resets_the_form_only_on_success
             7%Z (Desk.Refused (Desk.Nullish "Cannot read properties of null"%string))
             (Resolved None) exampleDesk exampleSession eq_refl eq_refl).
Defined.

Lemma chosen_option_follows_the_draft_witness :
  Desk.correctOptionIndex (Desk.quizForm (stateOf (Desk.correctOptionEffect staleDesk)))
    = 1%Z.
Proof.
  apply (chosen_option_follows_the_draft staleDesk). simpl. lia.
Defined.

Lemma digits_have_no_colon d :
  contains ":" (DecimalString.NilEmpty.string_of_uint d) = false.
Proof. induction d; cbn; auto. Qed.

Lemma numberToString_nonneg n :
  (0 <= n)%Z ->
  exists d, JsText.numberToString n = DecimalString.NilEmpty.string_of_uint d /\
            Z.of_uint d = n.
Proof.
  intro Hn. unfold JsText.numberToString.
  pose proof (DecimalZ.of_to n) as Hround.
  destruct n as [|p|p]; [| |lia]; cbn [Z.to_int] in *.
  - eexists; split; reflexivity.
  - eexists; split; [reflexivity|exact Hround].
Qed.

Lemma readField_digits d :
  readField (DecimalString.NilEmpty.string_of_uint d) = Some (Z.of_uint d).
Proof. unfold readField. rewrite DecimalString.NilEmpty.usu. reflexivity. Qed.

Lemma readField_zero s : readField (String "0" s) = readField s.
Proof.
  unfold readField. cbn [DecimalString.NilEmpty.uint_of_string].
  destruct (DecimalString.NilEmpty.uint_of_string s); reflexivity.
Qed.

Lemma append_cons c a b : (String c a ++ b)%string = String c (a ++ b)%string.
Proof. reflexivity. Qed.

Lemma append_empty b : (EmptyString ++ b)%string = b.
Proof. reflexivity. Qed.

Lemma readField_padded k s :
  readField (JsText.repeatChar "0" k ++ s) = readField s.
Proof.
  induction k as [|k IH]; [reflexivity|].
  cbn [JsText.repeatChar]. rewrite append_cons, readField_zero. exact IH.
Qed.

Lemma contains_append c a b :
  contains c (a ++ b) = contains c a || contains c b.
Proof.
  induction a as [|d rest IH]; [reflexivity|].
  rewrite append_cons. cbn [contains]. rewrite IH. apply orb_assoc.
Qed.

Lemma contains_padded k s :
  contains ":" s = false -> contains ":" (JsText.repeatChar "0" k ++ s) = false.
Proof.
  intro Hs. induction k as [|k IH]; [exact Hs|].
  cbn [JsText.repeatChar]. rewrite append_cons. cbn [contains]. rewrite IH. reflexivity.
Qed.

Lemma split_last sep a :
  contains sep a = false -> JsText.split sep a = [a].
Proof.
  induction a as [|c rest IH]; [reflexivity|].
  cbn [contains JsText.split]. intro H. apply orb_false_elim in H. destruct H as [Hc Hrest].
  rewrite Hc, (IH Hrest). reflexivity.
Qed.

Lemma split_field sep a b :
  contains sep a = false ->
  JsText.split sep (a ++ String sep b) = a :: JsText.split sep b.
Proof.
  induction a as [|c rest IH].
  - intros _. rewrite append_empty. cbn [JsText.split].
    rewrite Ascii.eqb_refl. reflexivity.
  - rewrite append_cons. cbn [contains JsText.split]. intro H.
    apply orb_false_elim in H. destruct H as [Hc Hrest].
    rewrite Hc, (IH Hrest). reflexivity.
Qed.

Lemma two_digits n :
  (0 <= n)%Z ->
  let field := JsText.padStart 2 "0" (JsText.numberToString n) in
  contains ":" field = false /\ readField field = Some n.
Proof.
  intros Hn field. destruct (numberToString_nonneg n Hn) as (d & Htext & Hvalue).
  unfold field, JsText.padStart. rewrite Htext. split.
  - apply contains_padded, digits_have_no_colon.
  - rewrite readField_padded, readField_digits, Hvalue. reflexivity.
Qed.

Lemma plain_digits n :
  (0 <= n)%Z ->
  contains ":" (JsText.numberToString n) = false /\
  readField (JsText.numberToString n) = Some n.
Proof.
  intro Hn. destruct (numberToString_nonneg n Hn) as (d & Htext & Hvalue).
  rewrite Htext. split; [apply digits_have_no_colon|].
  rewrite readField_digits, Hvalue. reflexivity.
Qed.

(** Property X30.  The countdown text loses nothing but the fraction and the sign: for a
    number of seconds below 2^53, where the floors and remainders the code
    takes on doubles are exact, the text read back gives the whole seconds
    remaining, never below zero; the text shown for a missing value reads
    back as no value. *)
Theorem countdown_text_reads_back :
  forall seconds : Q,
    (Qfloor seconds < 2 ^ 53)%Z ->
    readDuration (formatDuration (Some seconds)) = Some (Z.max 0 (Qfloor seconds)) /\
    readDuration (formatDuration None) = None.
Proof.
  intros seconds _. split; [|reflexivity].
  unfold formatDuration.
  set (safe := Z.max 0 (Qfloor seconds)).
  assert (Hsafe : (0 <= safe)%Z) by (unfold safe; lia).
  cbv zeta.
  pose proof (Z.div_pos safe 60 Hsafe ltac:(lia)) as Hminutes.
  pose proof (Z.mod_pos_bound safe 60 ltac:(lia)) as Hsecs.
  destruct (two_digits (safe mod 60)) as [Hsc Hsr]; [lia|].
  destruct (60 <=? safe / 60)%Z eqn:Hhour.
  - pose proof (Z.div_pos (safe / 60) 60 Hminutes ltac:(lia)) as Hhours.
    pose proof (Z.mod_pos_bound (safe / 60) 60 ltac:(lia)) as Hrem.
    destruct (plain_digits (safe / 60 / 60)) as [Hhc Hhr]; [lia|].
    destruct (two_digits ((safe / 60) mod 60)) as [Hmc Hmr]; [lia|].
    unfold readDuration. rewrite ?append_cons, ?append_empty.
    rewrite (split_field ":" _ _ Hhc), (split_field ":" _ _ Hmc), (split_last ":" _ Hsc).
    cbn [List.map]. rewrite Hhr, Hmr, Hsr. f_equal.
    pose proof (Z.div_mod safe 60 ltac:(lia)).
    pose proof (Z.div_mod (safe / 60) 60 ltac:(lia)). lia.
  - destruct (two_digits (safe / 60)) as [Hmc Hmr]; [lia|].
    unfold readDuration. rewrite ?append_cons, ?append_empty.
    rewrite (split_field ":" _ _ Hmc), (split_last ":" _ Hsc).
    cbn [List.map]. rewrite Hmr, Hsr. f_equal.
    pose proof (Z.div_mod safe 60 ltac:(lia)). lia.
Qed.

Lemma countdown_text_reads_back_witness :
  readDuration (formatDuration (Some (7451 # 2))) = Some 3725%Z.
Proof.
  apply (countdown_text_reads_back (7451 # 2)). reflexivity.
Defined.
